(** * VectorDB: vector utilities, record service and route boundary

    A shallow embedding of the JavaScript sources

    - [utils/vectorUtils.js]     (class [VectorUtils])
    - [services/vectorService.js] (class [VectorService])
    - [routes/vectors.js]         (the Express handlers of [/api/vectors/:id])

    JavaScript numbers are IEEE 754 binary64 values and are embedded as
    Rocq's primitive [float]; array lengths, page numbers and counts are
    integer valued and are embedded as [nat] or [Z].  Exceptions are
    [Error] objects that carry nothing but a message, so a throwing
    computation returns [Throw message]. *)

From Stdlib Require Import ZArith QArith Qround List Bool Lia Floats Ascii.
From stdpp Require Import gmap strings list pretty.

Set Warnings "-register-all".

(** ** JavaScript values and numbers *)

Module Js.

(** The values that can reach the utilities: an array element or a
    candidate vector may be any JSON-like value. *)
Inductive value :=
  | VUndefined
  | VNull
  | VBoolean (b : bool)
  | VNumber (x : float)
  | VString (s : string)
  | VArray (items : list value).

(** The global [isNaN] and [isFinite], on numbers. *)
Definition isNaN (x : float) : bool := PrimFloat.is_nan x.
Definition isFinite (x : float) : bool := PrimFloat.is_finite x.

(** [x === y] on two numbers: IEEE equality ([NaN] differs from itself,
    [+0 === -0]). *)
Definition strict_eq (x y : float) : bool := PrimFloat.eqb x y.

Definition is_neg_zero (x : float) : bool :=
  match PrimFloat.classify x with NZero => true | _ => false end.
Definition is_pos_zero (x : float) : bool :=
  match PrimFloat.classify x with PZero => true | _ => false end.

(** [Math.min(x, y)] and [Math.max(x, y)] as ECMAScript defines them: any
    [NaN] argument gives [NaN]; [-0] is below [+0]. *)
Definition Math_min (x y : float) : float :=
  if isNaN x || isNaN y then nan
  else if is_neg_zero y && is_pos_zero x then y
  else if PrimFloat.ltb y x then y else x.

Definition Math_max (x y : float) : float :=
  if isNaN x || isNaN y then nan
  else if is_pos_zero y && is_neg_zero x then y
  else if PrimFloat.ltb x y then y else x.

(** An array length used as a number (lengths are below [2^32], so the
    conversion is exact). *)
Definition number_of_nat (n : nat) : float :=
  PrimFloat.of_uint63 (Uint63.of_Z (Z.of_nat n)).

(** [arr[i]] read as a number: an index past the end yields [undefined],
    which every arithmetic operation turns into [NaN]. *)
Definition get (arr : list float) (i : nat) : float := nth i arr nan.

(** [for (let i = start; i < start + n; i++) body] over a loop state. *)
Fixpoint for_range {S : Type} (start n : nat) (body : nat → S → S) (s : S) : S :=
  match n with
  | O => s
  | Datatypes.S n' => for_range (Datatypes.S start) n' body (body start s)
  end.

(** [arr.reduce((acc, val, i) => f(acc, val, i), init)] *)
Fixpoint reduce_from {A S : Type} (i : nat) (f : S → A → nat → S) (arr : list A) (acc : S) : S :=
  match arr with
  | [] => acc
  | val :: rest => reduce_from (Datatypes.S i) f rest (f acc val i)
  end.
Definition reduce {A S : Type} (f : S → A → nat → S) (arr : list A) (init : S) : S :=
  reduce_from 0 f arr init.

(** [arr.map((val, i) => f(val, i))]: the callback receives the element
    and its index in [arr]. *)
Definition map {A B : Type} (f : A → nat → B) (arr : list A) : list B :=
  imap (λ i val, f val i) arr.

(** [arr.slice(start, end)] for integer arguments: a negative index
    counts from the end, and both are clamped to the array. *)
Definition clamp_index (len : nat) (k : Z) : nat :=
  if (k <? 0)%Z then Z.to_nat (Z.max (Z.of_nat len + k) 0)
  else Nat.min (Z.to_nat k) len.
Definition slice {A : Type} (arr : list A) (start stop : Z) : list A :=
  let from := clamp_index (length arr) start in
  let to := clamp_index (length arr) stop in
  take (to - from) (drop from arr).

(** The result of a call that may throw [new Error(message)]. *)
Inductive outcome (A : Type) :=
  | Return (a : A)
  | Throw (message : string).
Arguments Return {A} a.
Arguments Throw {A} message.

End Js.

Import Js.

(** ** utils/vectorUtils.js *)

Module VectorUtils.

(** Messages of the errors thrown by the utilities, under the names the
    specification gives to the error kinds. *)
Definition DimensionMismatch : string := "Vectors must have the same dimensions".
Definition NotAnArray : string := "Vector must be an array".
Definition EmptyVector : string := "Vector cannot be empty".
Definition InvalidNumbers : string := "Vector must contain only valid numbers".

Definition cosineSimilarity (vectorA vectorB : list float) : outcome float :=
  if negb (length vectorA =? length vectorB)%nat then Throw DimensionMismatch
  else
    let '(dotProduct, normA, normB) :=
      for_range 0 (length vectorA)
        (λ i '(dotProduct, normA, normB),
           ((dotProduct + get vectorA i * get vectorB i)%float,
            (normA + get vectorA i * get vectorA i)%float,
            (normB + get vectorB i * get vectorB i)%float))
        (0%float, 0%float, 0%float) in
    let magnitude := (PrimFloat.sqrt normA * PrimFloat.sqrt normB)%float in
    if strict_eq magnitude 0 then Return 0%float
    else Return (dotProduct / magnitude)%float.

Definition magnitude (vector : list float) : float :=
  PrimFloat.sqrt (reduce (λ sum val _, (sum + val * val)%float) vector 0%float).

Definition dotProduct (vectorA vectorB : list float) : outcome float :=
  if negb (length vectorA =? length vectorB)%nat then Throw DimensionMismatch
  else Return (reduce (λ sum val i, (sum + val * get vectorB i)%float) vectorA 0%float).

(** [parseInt(process.env.MAX_VECTOR_DIMENSIONS) || 4096]: the parsed
    variable is [None] when it is unset or not a number ([NaN]). *)
Definition maxDimensions (env_max : option Z) : Z :=
  match env_max with
  | Some n => if (n =? 0)%Z then 4096%Z else n
  | None => 4096%Z
  end.

(** [expectedDimensions] is [null] ([None]) or a number; the number [0]
    is falsy, so it disables the check like [null] does. *)
Definition validateVector (vector : value) (expectedDimensions : option Z)
    (env_max : option Z) : outcome bool :=
  match vector with
  | VArray items =>
      let check_maximum :=
        let maxDimensions := maxDimensions env_max in
        if (maxDimensions <? Z.of_nat (length items))%Z
        then Throw ("Vector exceeds maximum dimensions: " +:+ pretty maxDimensions)
        else Return true in
      if (length items =? 0)%nat then Throw EmptyVector
      else if negb (forallb (λ val,
                 match val with VNumber x => negb (isNaN x) | _ => false end) items)
      then Throw InvalidNumbers
      else
        match expectedDimensions with
        | Some n =>
            if negb (n =? 0)%Z && negb (Z.of_nat (length items) =? n)%Z
            then Throw ("Vector must have exactly " +:+ pretty n +:+ " dimensions")
            else check_maximum
        | None => check_maximum
        end
  | _ => Throw NotAnArray
  end.

Definition isValidVector (vector : list value) : bool :=
  forallb (λ val,
    match val with
    | VNumber x => negb (isNaN x) && isFinite x
    | _ => false
    end) vector.

(** [batchProcess]: the [for] loop advances [i] by [batchSize], which is
    not checked; the loop is given fuel, one unit per iteration, and
    [None] means that the fuel ran out before the loop exit. *)
Fixpoint batchProcess_loop {A B : Type} (fuel : nat) (vectors : list A)
    (processFn : A → nat → B) (batchSize : Z) (i : Z) (results : list B)
    : option (list B) :=
  if (i <? Z.of_nat (length vectors))%Z then
    match fuel with
    | O => None
    | S fuel' =>
        let batch := slice vectors i (i + batchSize) in
        let batchResults := Js.map processFn batch in
        batchProcess_loop fuel' vectors processFn batchSize (i + batchSize)
          (results ++ batchResults)
    end
  else Some results.

Definition batchProcess {A B : Type} (fuel : nat) (vectors : list A)
    (processFn : A → nat → B) (batchSize : option Z) : option (list B) :=
  batchProcess_loop fuel vectors processFn (default 100%Z batchSize) 0 [].

(** One entry of [dimension_stats] and the statistics object. *)
Record dimension_stat := {
  min : float;
  max : float;
  mean : float;
  std : float
}.

Record statistics := {
  count : nat;
  dimensions : nat;
  mean_magnitude : float;
  min_magnitude : float;
  max_magnitude : float;
  dimension_stats : list dimension_stat
}.

Definition set_min (v : float) (d : dimension_stat) : dimension_stat :=
  {| min := v; max := max d; mean := mean d; std := std d |}.
Definition set_max (v : float) (d : dimension_stat) : dimension_stat :=
  {| min := min d; max := v; mean := mean d; std := std d |}.
Definition set_mean (v : float) (d : dimension_stat) : dimension_stat :=
  {| min := min d; max := max d; mean := v; std := std d |}.
Definition set_std (v : float) (d : dimension_stat) : dimension_stat :=
  {| min := min d; max := max d; mean := mean d; std := v |}.

(** The mutable locals of [calculateVectorStatistics] while it walks the
    vectors: [stats.min_magnitude], [stats.max_magnitude],
    [stats.dimension_stats], [magnitudes] and [dimensionValues]. *)
Record collecting := {
  c_min_magnitude : float;
  c_max_magnitude : float;
  c_dimension_stats : list dimension_stat;
  c_magnitudes : list float;
  c_dimensionValues : list (list float)
}.

(** Body of the inner loop: [dimensionValues[i].push(val)] and the two
    running extrema of [stats.dimension_stats[i]].  The arrays were
    created with [dimensions] entries, so index [i] always exists. *)
Definition collect_dimension (vector : list float) (i : nat)
    (st : list dimension_stat * list (list float))
    : list dimension_stat * list (list float) :=
  let '(dimension_stats, dimensionValues) := st in
  let val := get vector i in
  let dimensionValues := alter (λ values, values ++ [val]) i dimensionValues in
  let dimension_stats := alter (λ d, set_min (Math_min (min d) val) d) i dimension_stats in
  let dimension_stats := alter (λ d, set_max (Math_max (max d) val) d) i dimension_stats in
  (dimension_stats, dimensionValues).

(** Body of [for (const vector of vectors)]. *)
Definition collect_vector (dimensions : nat) (c : collecting) (vector : list float)
    : collecting :=
  let magnitude := magnitude vector in
  let '(dimension_stats, dimensionValues) :=
    for_range 0 dimensions (collect_dimension vector)
      (c_dimension_stats c, c_dimensionValues c) in
  {| c_min_magnitude := Math_min (c_min_magnitude c) magnitude;
     c_max_magnitude := Math_max (c_max_magnitude c) magnitude;
     c_dimension_stats := dimension_stats;
     c_magnitudes := c_magnitudes c ++ [magnitude];
     c_dimensionValues := dimensionValues |}.

(** Body of the last loop: mean, then the deviation from the mean just
    stored, of the values collected for dimension [i]. *)
Definition summarize_dimension (dimensionValues : list (list float)) (i : nat)
    (dimension_stats : list dimension_stat) : list dimension_stat :=
  let values := default [] (dimensionValues !! i) in
  let dimension_stats :=
    alter (set_mean
      (reduce (λ sum val _, (sum + val)%float) values 0%float
         / number_of_nat (length values))%float) i dimension_stats in
  let stored_mean := from_option mean nan (dimension_stats !! i) in
  let variance :=
    (reduce (λ sum val _,
       let diff := (val - stored_mean)%float in (sum + diff * diff)%float)
       values 0%float
     / number_of_nat (length values))%float in
  alter (set_std (PrimFloat.sqrt variance)) i dimension_stats.

(** [null] is [None]. *)
Definition calculateVectorStatistics (vectors : list (list float)) : option statistics :=
  match vectors with
  | [] => None
  | first :: _ =>
      let dimensions := length first in
      let c :=
        fold_left (collect_vector dimensions) vectors
          {| c_min_magnitude := infinity;
             c_max_magnitude := neg_infinity;
             c_dimension_stats :=
               replicate dimensions
                 {| min := infinity; max := neg_infinity; mean := 0; std := 0 |};
             c_magnitudes := [];
             c_dimensionValues := replicate dimensions [] |} in
      Some
        {| count := length vectors;
           dimensions := dimensions;
           mean_magnitude :=
             (reduce (λ sum mag _, (sum + mag)%float) (c_magnitudes c) 0%float
                / number_of_nat (length (c_magnitudes c)))%float;
           min_magnitude := c_min_magnitude c;
           max_magnitude := c_max_magnitude c;
           dimension_stats :=
             for_range 0 dimensions (summarize_dimension (c_dimensionValues c))
               (c_dimension_stats c) |}
  end.

(** [euclideanDistance] *)
Definition euclideanDistance (vectorA vectorB : list float) : outcome float :=
  if negb (length vectorA =? length vectorB)%nat then Throw DimensionMismatch
  else
    let sum :=
      for_range 0 (length vectorA)
        (λ i sum,
           let diff := (get vectorA i - get vectorB i)%float in
           (sum + diff * diff)%float)
        0%float in
    Return (PrimFloat.sqrt sum).

(** [normalizeVector]: [new Array(vector.length).fill(0)] for a zero
    magnitude. *)
Definition normalizeVector (vector : list float) : list float :=
  let magnitude :=
    PrimFloat.sqrt (reduce (λ sum val _, (sum + val * val)%float) vector 0%float) in
  if strict_eq magnitude 0 then replicate (length vector) 0%float
  else Js.map (λ val _, (val / magnitude)%float) vector.

Definition EmptySet : string := "Cannot calculate centroid of empty vector set".
Definition CentroidMismatch : string := "All vectors must have the same dimensions".

(** Body of the outer loop of [calculateCentroid]:
    [centroid[i] += vector[i]] for every [i] below [dimensions]. *)
Definition add_vector (dimensions : nat) (centroid vector : list float) : list float :=
  for_range 0 dimensions
    (λ i centroid, alter (λ sum, (sum + get vector i)%float) i centroid) centroid.

Definition calculateCentroid (vectors : list (list float)) : outcome (list float) :=
  match vectors with
  | [] => Throw EmptySet
  | first :: _ =>
      let dimensions := length first in
      if negb (forallb (λ v, (length v =? dimensions)%nat) vectors)
      then Throw CentroidMismatch
      else
        let centroid := replicate dimensions 0%float in
        let centroid := fold_left (add_vector dimensions) vectors centroid in
        Return (Js.map (λ val _, (val / number_of_nat (length vectors))%float) centroid)
  end.

End VectorUtils.

(** ** services/vectorService.js *)

Module VectorService.

(** A document of the collection.  [similarity] is the [$similarity]
    field, which only a vector-ranked [find] with [includeSimilarity]
    fills. *)
Record document := {
  _id : string;
  vector : list float;
  metadata : gmap string value;
  similarity : option float
}.

(** The [{id, vector, metadata}] objects the service hands out. *)
Module Item.
Record t := {
  id : string;
  vector : list float;
  metadata : gmap string value
}.
End Item.

Definition item_of (doc : document) : Item.t :=
  {| Item.id := _id doc; Item.vector := vector doc; Item.metadata := metadata doc |}.

(** The argument of [$set] in [updateVector]: the keys [vector] and
    [metadata], each present or not. *)
Record update_document := {
  set_vector : option (list float);
  set_metadata : option (gmap string value)
}.

(** Filters: a map from a dotted field path to one constraint. *)
Inductive constraint :=
  | Equals (v : string)
  | In_ (values : list string)
  | Range (gte lte : option string).

Inductive sort_order :=
  | ByField (path : string) (direction : Z)
  | ByVector (query : list float).

Record find_options := {
  sort : sort_order;
  limit : Z;
  skip : option Z;
  includeSimilarity : bool
}.

Record insertMany_result := {
  insertedCount : nat;
  insertedIds : list string
}.

(** [if (s)] on an optional string: [undefined] and [''] are falsy. *)
Definition truthy (s : option string) : bool :=
  match s with
  | Some s => negb (String.eqb s "")
  | None => false
  end.

Section Service.

(** The collection lives outside the process.  [Store] is its state and
    every call either returns or throws, possibly changing the state. *)
Context {Store : Type}.

Definition M (A : Type) : Type := Store → outcome A * Store.

Definition ret {A} (a : A) : M A := λ s, (Return a, s).
Definition throw {A} (message : string) : M A := λ s, (Throw message, s).
Definition bind {A B} (m : M A) (k : A → M B) : M B :=
  λ s, match m s with
       | (Return a, s') => k a s'
       | (Throw message, s') => (Throw message, s')
       end.
(** [try { m } catch (error) { handler(error.message) }] *)
Definition try_catch {A} (m : M A) (handler : string → M A) : M A :=
  λ s, match m s with
       | (Return a, s') => (Return a, s')
       | (Throw message, s') => handler message s'
       end.

Notation "'let*' x ':=' m 'in' k" := (bind m (λ x, k))
  (at level 10, x pattern, m at level 100, k at level 200).

(** [throw new Error(`${context}: ${error.message}`)] *)
Definition rethrow {A} (context : string) (m : M A) : M A :=
  try_catch m (λ message, throw (context +:+ ": " +:+ message)).

(** The methods of [this.collection], and [initialize], which connects
    on first use (the cached handle is part of the store's state). *)
Variable initialize : M unit.
Variable insertOne : document → M string.
Variable insertMany : list document → M insertMany_result.
Variable findOne : string → M (option document).
Variable findOneAndUpdate : string → update_document → M (option document).
Variable deleteOne : string → M nat.
Variable find : gmap string constraint → find_options → M (list document).
Variable countDocuments : gmap string constraint → M Z.

(** One stage of an aggregation pipeline, and one group of its result. *)
Inductive stage :=
  | Group (path : string)
  | SortBy (key : string) (direction : Z).

Record group := {
  group_id : value;
  group_count : Z
}.

Variable estimatedDocumentCount : M Z.
Variable aggregate : list stage → M (list group).

Record vectorData := {
  data_vector : list float;
  data_metadata : gmap string value
}.

(** The document built by [createVector] and by [createVectorsBatch]:
    [uuid] is the value of [uuidv4()], [now1] and [now2] the two readings
    of the clock. *)
Definition new_document (uuid now1 now2 : string) (data : vectorData) : document :=
  {| _id := uuid;
     vector := data_vector data;
     metadata :=
       <["updated_at" := VString now2]>
         (<["created_at" := VString now1]>
            (<["dimensions" := VNumber (number_of_nat (length (data_vector data)))]>
               (data_metadata data)));
     similarity := None |}.

Record created := {
  created_id : string;
  created_document : document;
  insertedId : string
}.

Definition createVector (uuid now1 now2 : string) (data : vectorData) : M created :=
  rethrow "Failed to create vector"
    (let* _ := initialize in
     let document := new_document uuid now1 now2 data in
     let* result := insertOne document in
     ret {| created_id := _id document;
            created_document := document;
            insertedId := result |}).

Definition getVectorById (id : string) : M Item.t :=
  rethrow "Failed to get vector"
    (let* _ := initialize in
     let* result := findOne id in
     match result with
     | None => throw "Vector not found"
     | Some result => ret (item_of result)
     end).

Record updateData := {
  update_vector : option (list float);
  update_metadata : option (gmap string value)
}.

(** The [updateDoc] of [updateVector].  An array and an object are
    always truthy, so the two tests are tests of presence. *)
Definition updateDoc (now : string) (data : updateData) : update_document :=
  {| set_vector := update_vector data;
     set_metadata :=
       match update_metadata data with
       | Some metadata =>
           let metadata := <["updated_at" := VString now]> metadata in
           Some
             match update_vector data with
             | Some vector =>
                 <["dimensions" := VNumber (number_of_nat (length vector))]> metadata
             | None => metadata
             end
       | None => None
       end |}.

Definition updateVector (now : string) (id : string) (data : updateData) : M Item.t :=
  rethrow "Failed to update vector"
    (let* _ := initialize in
     let* result := findOneAndUpdate id (updateDoc now data) in
     match result with
     | None => throw "Vector not found"
     | Some result => ret (item_of result)
     end).

Definition deleteVector (id : string) : M (bool * string) :=
  rethrow "Failed to delete vector"
    (let* _ := initialize in
     let* deletedCount := deleteOne id in
     if (deletedCount =? 0)%nat then throw "Vector not found"
     else ret (true, id)).

(** [listVectors] *)
Record list_options := {
  page : option Z;
  list_limit : option Z;
  user_id : option string;
  source_type : option string;
  list_sort : option string
}.

Record pagination := {
  current_page : Z;
  per_page : Z;
  total_items : Z;
  total_pages : Z;
  has_next : bool;
  has_prev : bool
}.

Record listing := {
  vectors : list Item.t;
  listing_pagination : pagination
}.

Definition list_filter (options : list_options) : gmap string constraint :=
  let filter : gmap string constraint := ∅ in
  let filter :=
    if truthy (user_id options)
    then <["metadata.user_id" := Equals (default "" (user_id options))]> filter
    else filter in
  if truthy (source_type options)
  then <["metadata.source_type" := Equals (default "" (source_type options))]> filter
  else filter.

(** [sort.startsWith('-') ? sort.slice(1) : sort] and the direction. *)
Definition sort_object (sort : string) : sort_order :=
  match sort with
  | String "-"%char sortField => ByField ("metadata." +:+ sortField) (-1)
  | sortField => ByField ("metadata." +:+ sortField) 1
  end.

(** [Math.ceil(total / limit)] on integers: the ceiling of the exact
    quotient (which the binary64 quotient rounds to the same side for
    counts below [2^53]). *)
Definition ceil_quotient (total limit : Z) : Z :=
  Qceiling (inject_Z total / inject_Z limit).

Definition listVectors (options : list_options) : M listing :=
  rethrow "Failed to list vectors"
    (let* _ := initialize in
     let page := default 1%Z (page options) in
     let limit := default 10%Z (list_limit options) in
     let sort := default "-created_at" (list_sort options) in
     let filter := list_filter options in
     let skip := ((page - 1) * limit)%Z in
     let* cursor := find filter
       {| sort := sort_object sort; limit := limit; skip := Some skip;
          includeSimilarity := false |} in
     let vectors := item_of <$> cursor in
     let* total := countDocuments filter in
     ret {| vectors := vectors;
            listing_pagination :=
              {| current_page := page;
                 per_page := limit;
                 total_items := total;
                 total_pages := ceil_quotient total limit;
                 has_next := (page * limit <? total)%Z;
                 has_prev := (1 <? page)%Z |} |}).

(** [findSimilarVectors] *)
Record search_filters := {
  f_user_id : option string;
  f_source_type : option string;
  f_source_id : option string;
  f_tags : option (list string);
  f_created_after : option string;
  f_created_before : option string
}.

Definition no_filters : search_filters :=
  {| f_user_id := None; f_source_type := None; f_source_id := None;
     f_tags := None; f_created_after := None; f_created_before := None |}.

Record search_options := {
  search_limit : option Z;
  filters : option search_filters
}.

Record similar := {
  similar_id : string;
  similar_vector : list float;
  similar_metadata : gmap string value;
  similarity_score : option float
}.

Record search_result := {
  query_vector_dimensions : nat;
  results : list similar;
  total_results : nat
}.

Definition search_filter (filters : search_filters) : gmap string constraint :=
  let filter : gmap string constraint := ∅ in
  let filter :=
    if truthy (f_user_id filters)
    then <["metadata.user_id" := Equals (default "" (f_user_id filters))]> filter
    else filter in
  let filter :=
    if truthy (f_source_type filters)
    then <["metadata.source_type" := Equals (default "" (f_source_type filters))]> filter
    else filter in
  let filter :=
    if truthy (f_source_id filters)
    then <["metadata.source_id" := Equals (default "" (f_source_id filters))]> filter
    else filter in
  let filter :=
    match f_tags filters with
    | Some tags => <["metadata.tags" := In_ tags]> filter
    | None => filter
    end in
  let filter :=
    if truthy (f_created_after filters)
    then <["metadata.created_at" := Range (f_created_after filters) None]> filter
    else filter in
  if truthy (f_created_before filters)
  then
    <["metadata.created_at" :=
        match filter !! "metadata.created_at" with
        | Some (Range gte _) => Range gte (f_created_before filters)
        | _ => Range None (f_created_before filters)
        end]> filter
  else filter.

Definition similar_of (doc : document) : similar :=
  {| similar_id := _id doc;
     similar_vector := vector doc;
     similar_metadata := metadata doc;
     similarity_score := similarity doc |}.

Definition findSimilarVectors (queryVector : list float) (options : search_options)
    : M search_result :=
  rethrow "Failed to find similar vectors"
    (let* _ := initialize in
     let limit := default 10%Z (search_limit options) in
     let filters := default no_filters (filters options) in
     let filter := search_filter filters in
     let* cursor := find filter
       {| sort := ByVector queryVector; limit := limit; skip := None;
          includeSimilarity := true |} in
     let results := similar_of <$> cursor in
     ret {| query_vector_dimensions := length queryVector;
            results := results;
            total_results := length results |}).

(** [createVectorsBatch]: [fresh k] gives the identifier and the two
    clock readings of the [k]-th item. *)
Record batch_result := {
  inserted_count : nat;
  inserted_ids : list string;
  batch_vectors : list Item.t
}.

Definition createVectorsBatch (fresh : nat → string * string * string)
    (vectorsData : list vectorData) : M batch_result :=
  rethrow "Failed to create vectors batch"
    (let* _ := initialize in
     let documents :=
       Js.map (λ data k, let '(uuid, now1, now2) := fresh k in
                         new_document uuid now1 now2 data) vectorsData in
     let* result := insertMany documents in
     ret {| inserted_count := insertedCount result;
            inserted_ids := insertedIds result;
            batch_vectors := item_of <$> documents |}).

(** [getStatistics] *)
Record collection_statistics := {
  total_vectors : Z;
  source_type_distribution : list group;
  dimension_distribution : list group;
  collection_name : string
}.

Definition getStatistics : M collection_statistics :=
  rethrow "Failed to get statistics"
    (let* _ := initialize in
     let* total := estimatedDocumentCount in
     let sourceTypePipeline := [Group "$metadata.source_type"; SortBy "count" (-1)] in
     let* sourceTypes := aggregate sourceTypePipeline in
     let dimensionPipeline := [Group "$metadata.dimensions"; SortBy "_id" 1] in
     let* dimensions := aggregate dimensionPipeline in
     ret {| total_vectors := total;
            source_type_distribution := sourceTypes;
            dimension_distribution := dimensions;
            collection_name := "vector_embeddings" |}).

End Service.

End VectorService.

(** ** The collection, in memory

    The Data API collection is an external service.  The calls whose
    effect on a stored document matters below are modelled on a finite
    map from [_id] to document, with the behaviour the Data API documents
    for them: [findOne] returns the document or [null]; [$set] assigns
    each field named in its argument and leaves the other fields of the
    document alone (a field given as a whole object, like [metadata], is
    assigned as a whole); [findOneAndUpdate] with [returnDocument:
    'after'] returns the updated document, or [null] when nothing
    matches; [deleteOne] reports how many documents it removed. *)

Module Memory.
Import VectorService.

Abbreviation store := (gmap string document).

Definition initialize : store → outcome unit * store := ret tt.

Definition insertOne (doc : document) : store → outcome string * store :=
  λ s, match s !! _id doc with
       | Some _ => (Throw "Document already exists with the given _id", s)
       | None => (Return (_id doc), <[_id doc := doc]> s)
       end.

Definition insertMany (docs : list document)
    : store → outcome insertMany_result * store :=
  λ s, (Return {| insertedCount := length docs; insertedIds := _id <$> docs |},
        foldl (λ s doc, <[_id doc := doc]> s) s docs).

Definition findOne (id : string) : store → outcome (option document) * store :=
  λ s, (Return (s !! id), s).

Definition apply_set (update : update_document) (doc : document) : document :=
  {| _id := _id doc;
     vector := default (vector doc) (set_vector update);
     metadata := default (metadata doc) (set_metadata update);
     similarity := similarity doc |}.

Definition findOneAndUpdate (id : string) (update : update_document)
    : store → outcome (option document) * store :=
  λ s, match s !! id with
       | Some doc =>
           let doc := apply_set update doc in
           (Return (Some doc), <[id := doc]> s)
       | None => (Return None, s)
       end.

Definition deleteOne (id : string) : store → outcome nat * store :=
  λ s, match s !! id with
       | Some _ => (Return 1, delete id s)
       | None => (Return 0, s)
       end.

(** A backend call that fails with [message]. *)
Definition unavailable {A : Type} (message : string) : store → outcome A * store :=
  throw message.

(** The service over the in-memory collection. *)
Definition createVector := VectorService.createVector initialize insertOne.
Definition getVectorById := VectorService.getVectorById initialize findOne.
Definition updateVector := VectorService.updateVector initialize findOneAndUpdate.
Definition deleteVector := VectorService.deleteVector initialize deleteOne.
Definition createVectorsBatch := VectorService.createVectorsBatch initialize insertMany.

End Memory.

(** ** routes/vectors.js: the handlers of [/api/vectors/:id] *)

Module Routes.
Import VectorService.

Inductive body (A : Type) :=
  | Success (data : A) (message : option string)
  | Failure (error : string).
Arguments Success {A} data message.
Arguments Failure {A} error.

(** A handler either sends a JSON response with a status, or passes the
    error on with [next(error)]. *)
Inductive response (A : Type) :=
  | Json (status : nat) (content : body A)
  | Next (error_message : string).
Arguments Json {A} status content.
Arguments Next {A} error_message.

Section Handlers.

Context {Store : Type}.
Variable initialize : @M Store unit.
Variable findOne : string → @M Store (option document).
Variable findOneAndUpdate : string → update_document → @M Store (option document).
Variable deleteOne : string → @M Store nat.

(** The [catch] block shared by the three handlers. *)
Definition on_error {A : Type} (message : string) : response A :=
  if String.eqb message "Vector not found"
  then Json 404 (Failure "Vector not found")
  else Next message.

(** [router.get('/:id', ...)] *)
Definition get_id (id : string) (s : Store) : response Item.t * Store :=
  match getVectorById initialize findOne id s with
  | (Return vector, s') => (Json 200 (Success vector None), s')
  | (Throw message, s') => (on_error message, s')
  end.

(** [router.put('/:id', ...)], after [validate(updateVectorSchema)] *)
Definition put_id (now : string) (id : string) (data : updateData) (s : Store)
    : response Item.t * Store :=
  match updateVector initialize findOneAndUpdate now id data s with
  | (Return vector, s') =>
      (Json 200 (Success vector (Some "Vector updated successfully")), s')
  | (Throw message, s') => (on_error message, s')
  end.

(** [router.delete('/:id', ...)] *)
Definition delete_id (id : string) (s : Store) : response (bool * string) * Store :=
  match deleteVector initialize deleteOne id s with
  | (Return result, s') =>
      (Json 200 (Success result (Some "Vector deleted successfully")), s')
  | (Throw message, s') => (on_error message, s')
  end.

(** The handlers of the collection routes, each after its validation
    middleware.  They have no [catch] case of their own: every error
    goes to [next]. *)
Variable insertOne : document → @M Store string.
Variable insertMany : list document → @M Store insertMany_result.
Variable find : gmap string constraint → find_options → @M Store (list document).
Variable countDocuments : gmap string constraint → @M Store Z.
Variable estimatedDocumentCount : @M Store Z.
Variable aggregate : list stage → @M Store (list group).

(** [router.get('/stats', ...)] *)
Definition get_stats (s : Store) : response collection_statistics * Store :=
  match getStatistics initialize estimatedDocumentCount aggregate s with
  | (Return stats, s') => (Json 200 (Success stats None), s')
  | (Throw message, s') => (Next message, s')
  end.

(** [router.post('/similarity', ...)] *)
Definition post_similarity (vector : list float) (limit : option Z)
    (filters : option search_filters) (s : Store) : response search_result * Store :=
  match findSimilarVectors initialize find vector
          {| search_limit := limit; filters := filters |} s with
  | (Return result, s') =>
      (Json 200
         (Success result
            (Some ("Found " +:+ pretty (length (results result)) +:+ " similar vectors"))),
       s')
  | (Throw message, s') => (Next message, s')
  end.

(** [router.post('/batch', ...)] *)
Definition post_batch (fresh : nat → string * string * string)
    (vectors : list vectorData) (s : Store) : response batch_result * Store :=
  match createVectorsBatch initialize insertMany fresh vectors s with
  | (Return result, s') =>
      (Json 201
         (Success result
            (Some ("Successfully created " +:+ pretty (inserted_count result)
                   +:+ " vectors"))),
       s')
  | (Throw message, s') => (Next message, s')
  end.


(** [router.get('/', ...)]: the response carries the page as [data] and
    the pagination object beside it. *)
Definition get_list (query : list_options) (s : Store)
    : response (list Item.t * pagination) * Store :=
  match listVectors initialize find countDocuments query s with
  | (Return result, s') =>
      (Json 200 (Success (vectors result, listing_pagination result) None), s')
  | (Throw message, s') => (Next message, s')
  end.

End Handlers.

End Routes.

(** ** config/astradb.js: the connection singleton *)

Module AstraDB.
Import VectorService.

(** [process.env[key]] is falsy when the variable is unset or empty. *)
Definition env_truthy (env : gmap string string) (key : string) : bool :=
  truthy (env !! key).

Definition required : list string :=
  ["ASTRA_DB_ID"; "ASTRA_DB_REGION"; "ASTRA_DB_KEYSPACE"; "ASTRA_DB_APPLICATION_TOKEN"].

(** [missing.join(', ')] *)
Definition join (separator : string) (items : list string) : string :=
  String.concat separator items.

(** [haystack.startsWith(needle)] and [haystack.includes(needle)] *)
Definition startsWith (needle haystack : string) : bool :=
  String.prefix needle haystack.

Fixpoint includes (needle haystack : string) : bool :=
  startsWith needle haystack
  || match haystack with
     | EmptyString => false
     | String _ rest => includes needle rest
     end.

Definition validateConfig (env : gmap string string) : outcome unit :=
  let missing := List.filter (λ key, negb (env_truthy env key)) required in
  if (0 <? length missing)%nat
  then Throw ("Missing required environment variables: " +:+ join ", " missing)
  else if env_truthy env "ASTRA_DB_API_ENDPOINT"
          && negb (startsWith "https://" (default "" (env !! "ASTRA_DB_API_ENDPOINT")))
  then Throw "ASTRA_DB_API_ENDPOINT must start with https://"
  else Return tt.

(** The database object [client.db(endpoint, {keyspace})] and a
    collection of it. *)
Record database := {
  endpoint : string;
  keyspace : option string
}.

Record collection_handle := {
  of_database : database;
  name : string
}.

(** The fields of the singleton; [client] holds the application token
    the client was made with. *)
Record connection := {
  client : option (option string);
  db : option database;
  collection : option collection_handle;
  isConnected : bool
}.

Definition disconnected : connection :=
  {| client := None; db := None; collection := None; isConnected := false |}.


Section Connection.

(** [World] is the state of the Data API service.  The state of the
    module is the singleton's fields together with it. *)
Context {World : Type}.

Local Notation "'let*' x ':=' m 'in' k" := (bind m (λ x, k))
  (at level 10, x pattern, m at level 100, k at level 200).

(** The calls made on the Data API client. *)
Variable info : database → World → outcome unit * World.
Variable createCollection : database → string → Z → World → outcome collection_handle * World.
Variable close : World → outcome unit * World.
Variable findOne : collection_handle → World → outcome unit * World.

Definition this : @M (connection * World) connection := λ s, (Return s.1, s).
Definition assign (f : connection → connection) : @M (connection * World) unit :=
  λ s, (Return tt, (f s.1, s.2)).
Definition call {A : Type} (f : World → outcome A * World) : @M (connection * World) A :=
  λ s, let '(result, w) := f s.2 in (result, (s.1, w)).
Definition of_outcome {A : Type} (result : outcome A) : @M (connection * World) A :=
  λ s, (result, s).

Definition set_client (v : option string) (c : connection) : connection :=
  {| client := Some v; db := db c; collection := collection c;
     isConnected := isConnected c |}.
Definition set_db (v : database) (c : connection) : connection :=
  {| client := client c; db := Some v; collection := collection c;
     isConnected := isConnected c |}.
Definition set_collection (v : collection_handle) (c : connection) : connection :=
  {| client := client c; db := db c; collection := Some v;
     isConnected := isConnected c |}.
Definition set_isConnected (v : bool) (c : connection) : connection :=
  {| client := client c; db := db c; collection := collection c; isConnected := v |}.

(** [connect]; [dimensions] is [parseInt(process.env.DEFAULT_VECTOR_DIMENSIONS)],
    [None] when that is [NaN].  A template literal prints an unset
    variable as ["undefined"]. *)
Definition connect (env : gmap string string) (dimensions : option Z)
    : @M (connection * World) (option collection_handle) :=
  try_catch
    (let* c := this in
     if isConnected c then ret (collection c)
     else
       let* _ := of_outcome (validateConfig env) in
       let* _ := assign (set_client (env !! "ASTRA_DB_APPLICATION_TOKEN")) in
       let dbEndpoint :=
         if env_truthy env "ASTRA_DB_API_ENDPOINT"
         then default "" (env !! "ASTRA_DB_API_ENDPOINT")
         else "https://" +:+ default "undefined" (env !! "ASTRA_DB_ID") +:+ "-"
              +:+ default "undefined" (env !! "ASTRA_DB_REGION")
              +:+ ".apps.astra.datastax.com" in
       let database := {| endpoint := dbEndpoint; keyspace := env !! "ASTRA_DB_KEYSPACE" |} in
       let* _ := assign (set_db database) in
       let* _ := try_catch (call (info database)) (λ _, ret tt) in
       let* _ :=
         try_catch
           (let* created :=
              call (createCollection database "vector_embeddings"
                      (match dimensions with
                       | Some n => if (n =? 0)%Z then 1536%Z else n
                       | None => 1536%Z
                       end)) in
            assign (set_collection created))
           (λ message,
              if includes "already exists" message
              then assign (set_collection
                             {| of_database := database; name := "vector_embeddings" |})
              else throw message) in
       let* _ := assign (set_isConnected true) in
       let* c := this in
       ret (collection c))
    (λ message, throw ("Database connection failed: " +:+ message)).

(** [disconnect]: an error of [close] is logged and dropped. *)
Definition disconnect : @M (connection * World) unit :=
  try_catch
    (let* c := this in
     match client c with
     | Some _ =>
         let* _ := call close in
         assign (set_isConnected false)
     | None => ret tt
     end)
    (λ _, ret tt).


Definition getCollection : @M (connection * World) (option collection_handle) :=
  let* c := this in
  if negb (isConnected c) then throw "Database not connected. Call connect() first."
  else ret (collection c).

End Connection.

End AstraDB.

(** ** server.js: the health endpoint *)

Module Server.
Import VectorService AstraDB.


Section Health.

Context {World : Type}.
Variable info : database → World → outcome unit * World.
Variable createCollection : database → string → Z → World → outcome collection_handle * World.
Variable findOne : collection_handle → World → outcome unit * World.


End Health.

End Server.

(** ** The specification's vocabulary

    Definitions that follow the words of the specification, to compare
    the code with. *)

Module Spec.

(** The [i]-th coordinate of every vector, in input order. *)
Definition column (i : nat) (vectors : list (list float)) : list float :=
  (λ vector, get vector i) <$> vectors.

(** Sum in input order, starting from [0]. *)
Definition sum (xs : list float) : float := fold_left PrimFloat.add xs 0%float.

Definition arithmetic_mean (xs : list float) : float :=
  (sum xs / number_of_nat (length xs))%float.

(** Population standard deviation: the divisor is the number of values. *)
Definition population_std (xs : list float) : float :=
  let μ := arithmetic_mean xs in
  PrimFloat.sqrt
    (sum ((λ x, ((x - μ) * (x - μ))%float) <$> xs) / number_of_nat (length xs))%float.

(** [m] is the least (greatest) of [xs] for the order on numbers. *)
Definition is_minimum (m : float) (xs : list float) : Prop :=
  m ∈ xs ∧ ∀ x, x ∈ xs → PrimFloat.leb m x = true.
Definition is_maximum (m : float) (xs : list float) : Prop :=
  m ∈ xs ∧ ∀ x, x ∈ xs → PrimFloat.leb x m = true.

(** A vector in the sense of the data model holds no [NaN]. *)
Definition no_NaN (vector : list float) : Prop :=
  Forall (λ x, isNaN x = false) vector.


(** A float of sign [s] that is not [NaN], on the specification side;
    a number is non-negative when it is not [NaN] and its sign bit is
    clear, and a vector is finite when its elements are. *)
Definition SFsigned (s : bool) (x : spec_float) : Prop :=
  match x with
  | S754_zero s' | S754_infinity s' | S754_finite s' _ _ => s' = s
  | S754_nan => False
  end.

Definition non_negative (x : float) : Prop := SFsigned false (Prim2SF x).

Definition finite (vector : list float) : Prop :=
  Forall (λ x, isFinite x = true) vector.

End Spec.

(** * Properties *)

(** ** The unit tests of [tests/vectorUtils.test.js], on the embedding *)

Section UnitTests.

Import VectorUtils.

Example test_cosine_orthogonal :
  cosineSimilarity [1; 0; 0]%float [0; 1; 0]%float = Return 0%float.
Proof. reflexivity. Qed.

Example test_cosine_identical :
  cosineSimilarity [1; 2; 3]%float [1; 2; 3]%float = Return 1%float.
Proof. vm_compute. reflexivity. Qed.

Example test_cosine_different_dimensions :
  cosineSimilarity [1; 2; 3]%float [1; 2]%float
  = Throw "Vectors must have the same dimensions".
Proof. reflexivity. Qed.

Example test_magnitude : magnitude [3; 4; 0]%float = 5%float.
Proof. vm_compute. reflexivity. Qed.

Example test_magnitude_zero : magnitude [0; 0; 0]%float = 0%float.
Proof. vm_compute. reflexivity. Qed.

Example test_dotProduct : dotProduct [1; 2; 3]%float [4; 5; 6]%float = Return 32%float.
Proof. vm_compute. reflexivity. Qed.

Example test_validate_correct :
  validateVector (VArray [VNumber 1.5; VNumber (-2.5); VNumber 0; VNumber 4.75]) None None
  = Return true.
Proof. reflexivity. Qed.

Example test_validate_non_array :
  validateVector (VString "not an array") None None = Throw "Vector must be an array".
Proof. reflexivity. Qed.

Example test_validate_empty :
  validateVector (VArray []) None None = Throw "Vector cannot be empty".
Proof. reflexivity. Qed.

Example test_validate_non_number :
  validateVector (VArray [VNumber 1; VNumber 2; VString "three"; VNumber 4]) None None
  = Throw "Vector must contain only valid numbers".
Proof. reflexivity. Qed.

Example test_validate_NaN :
  validateVector (VArray [VNumber 1; VNumber 2; VNumber nan; VNumber 4]) None None
  = Throw "Vector must contain only valid numbers".
Proof. reflexivity. Qed.

Example test_validate_expected_dimensions :
  validateVector (VArray [VNumber 1; VNumber 2; VNumber 3]) (Some 3%Z) None = Return true
  ∧ validateVector (VArray [VNumber 1; VNumber 2; VNumber 3]) (Some 4%Z) None
    = Throw "Vector must have exactly 4 dimensions".
Proof. split; reflexivity. Qed.

Example test_isValidVector :
  isValidVector [VNumber 1.5; VNumber (-2.5); VNumber 0; VNumber 4.75] = true
  ∧ isValidVector [VNumber 1; VNumber 2; VNumber nan; VNumber 4] = false
  ∧ isValidVector [VNumber 1; VNumber 2; VNumber infinity; VNumber 4] = false.
Proof. repeat split; reflexivity. Qed.

Example test_batchProcess :
  ∃ results,
    batchProcess 3 (replicate 250 [1; 2; 3]%float)
      (λ vector _, (λ x, (x * 2)%float) <$> vector) (Some 100%Z) = Some results
    ∧ length results = 250 ∧ results !! 0 = Some [2; 4; 6]%float.
Proof. eexists. split; [vm_compute; reflexivity|]. split; reflexivity. Qed.

Example test_statistics :
  ∃ stats d,
    calculateVectorStatistics [[1; 2; 3]; [4; 5; 6]; [7; 8; 9]]%float = Some stats
    ∧ count stats = 3 ∧ dimensions stats = 3 ∧ length (dimension_stats stats) = 3
    ∧ dimension_stats stats !! 0 = Some d
    ∧ min d = 1%float ∧ max d = 7%float ∧ mean d = 4%float.
Proof. eexists _, _. split; [vm_compute; reflexivity|]. repeat split; reflexivity. Qed.

Example test_statistics_empty : calculateVectorStatistics [] = None.
Proof. reflexivity. Qed.

End UnitTests.

(** ** Binary64 order, through the specification of the primitives *)

Section FloatOrder.

Ltac compare_cases :=
  change (PosDef.Pos.compare_cont Eq) with Pos.compare;
  repeat match goal with
  | |- context [(?a ?= ?b)%Z] => destruct (Z.compare_spec a b)
  | |- context [Pos.compare ?a ?b] => destruct (Pos.compare_spec a b)
  end; simpl; try done; try lia.

Lemma SFleb_trans x y z : SFleb x y = true → SFleb y z = true → SFleb x z = true.
Proof.
  unfold SFleb.
  destruct x as [sx|sx| |sx mx ex], y as [sy|sy| |sy my ey], z as [sz|sz| |sz mz ez];
    simpl; try done;
    try (destruct sx; try done); try (destruct sy; try done); try (destruct sz; done).
  all: try (destruct sz; try done).
  all: compare_cases.
Qed.

Lemma SFeqb_refl x : SFeqb x x = match x with S754_nan => false | _ => true end.
Proof.
  unfold SFeqb. destruct x as [s|s| |s m e]; simpl; try done; destruct s; try done.
  all: rewrite Z.compare_refl, Pos.compare_cont_refl; done.
Qed.

Lemma SFleb_refl x : x ≠ S754_nan → SFleb x x = true.
Proof.
  intros Hx. pose proof (SFeqb_refl x) as H. unfold SFleb, SFeqb in *.
  destruct x; try done; destruct (SFcompare _ _) as [[]|]; done.
Qed.

Lemma SFleb_total x y :
  x ≠ S754_nan → y ≠ S754_nan → SFltb y x = false → SFleb x y = true.
Proof.
  unfold SFleb, SFltb.
  destruct x as [sx|sx| |sx mx ex], y as [sy|sy| |sy my ey]; simpl; try done;
    try (destruct sx; try done); try (destruct sy; try done).
  all: intros _ _; compare_cases.
Qed.

Lemma SFltb_leb x y : SFltb x y = true → SFleb x y = true.
Proof. unfold SFleb, SFltb. destruct (SFcompare x y) as [[]|]; done. Qed.

Lemma SFltb_infinity x :
  x ≠ S754_nan → SFltb x (S754_infinity false) = false → x = S754_infinity false.
Proof.
  unfold SFltb. destruct x as [sx|sx| |sx mx ex]; simpl; try done; destruct sx; done.
Qed.

Lemma SFltb_neg_infinity x :
  x ≠ S754_nan → SFltb (S754_infinity true) x = false → x = S754_infinity true.
Proof.
  unfold SFltb. destruct x as [sx|sx| |sx mx ex]; simpl; try done; destruct sx; done.
Qed.

Lemma isNaN_spec x : isNaN x = false ↔ Prim2SF x ≠ S754_nan.
Proof.
  unfold isNaN, is_nan. rewrite FloatAxioms.eqb_spec, SFeqb_refl.
  destruct (Prim2SF x); simpl; split; done.
Qed.

Lemma leb_refl x : isNaN x = false → PrimFloat.leb x x = true.
Proof. rewrite isNaN_spec, FloatAxioms.leb_spec. apply SFleb_refl. Qed.

Lemma leb_trans x y z :
  PrimFloat.leb x y = true → PrimFloat.leb y z = true → PrimFloat.leb x z = true.
Proof. rewrite !FloatAxioms.leb_spec. apply SFleb_trans. Qed.

Lemma strict_eq_zero_spec x : strict_eq x 0 = true ↔ ∃ s, Prim2SF x = S754_zero s.
Proof.
  unfold strict_eq. rewrite FloatAxioms.eqb_spec. change (Prim2SF 0) with (S754_zero false).
  unfold SFeqb.
  destruct (Prim2SF x) as [s|s| |s m e]; simpl; try (destruct s); split; try done; eauto.
  all: intros [? ?]; done.
Qed.

Lemma isFinite_spec x :
  isFinite x = true ↔
  (∃ s, Prim2SF x = S754_zero s) ∨ (∃ s m e, Prim2SF x = S754_finite s m e).
Proof.
  unfold isFinite, is_finite, is_nan, is_infinity.
  rewrite !FloatAxioms.eqb_spec, FloatAxioms.abs_spec, SFeqb_refl.
  change (Prim2SF infinity) with (S754_infinity false).
  unfold SFeqb. destruct (Prim2SF x) as [s|s| |s m e]; simpl; split; try done; eauto 6.
  all: intros [[? ?]|(?&?&?&?)]; done.
Qed.

(** [0 * y] is a zero when [y] is finite (it is [NaN] when [y] is
    infinite). *)
Lemma mul_zero_finite x y :
  strict_eq x 0 = true → isFinite y = true → strict_eq (x * y) 0 = true.
Proof.
  rewrite !strict_eq_zero_spec, isFinite_spec, FloatAxioms.mul_spec.
  intros [s ->] [[s' ->]|(s'&m&e&->)]; simpl; eauto.
Qed.

Lemma mul_finite_zero x y :
  isFinite x = true → strict_eq y 0 = true → strict_eq (x * y) 0 = true.
Proof.
  rewrite !strict_eq_zero_spec, isFinite_spec, FloatAxioms.mul_spec.
  intros [[s' ->]|(s'&m&e&->)] [s ->]; simpl; eauto.
Qed.

Lemma neg_zero_leb_pos_zero x y :
  is_neg_zero y = true → is_pos_zero x = true → PrimFloat.leb y x = true.
Proof.
  unfold is_neg_zero, is_pos_zero.
  rewrite !FloatAxioms.classify_spec, FloatAxioms.leb_spec. unfold SF64classify, SFclassify.
  destruct (Prim2SF y) as [[]|[]| |[] m e], (Prim2SF x) as [[]|[]| |[] m' e'];
    try done; repeat case_match; done.
Qed.

(** [Math.min] of two numbers is one of them and is below both. *)
Lemma Math_min_spec x y :
  isNaN x = false → isNaN y = false →
  (Math_min x y = x ∨ Math_min x y = y) ∧
  PrimFloat.leb (Math_min x y) x = true ∧ PrimFloat.leb (Math_min x y) y = true.
Proof.
  intros Hx Hy. unfold Math_min. rewrite Hx, Hy. simpl.
  destruct (is_neg_zero y && is_pos_zero x) eqn:Hz.
  { apply andb_true_iff in Hz as [Hn Hp].
    split; [by right|]. split; [by apply neg_zero_leb_pos_zero|by apply leb_refl]. }
  destruct (PrimFloat.ltb y x) eqn:Hlt.
  - split; [by right|]. split; [|by apply leb_refl].
    rewrite FloatAxioms.leb_spec. apply SFltb_leb. by rewrite <- FloatAxioms.ltb_spec.
  - split; [by left|]. split; [by apply leb_refl|].
    rewrite FloatAxioms.leb_spec. apply SFleb_total; try by apply isNaN_spec.
    by rewrite <- FloatAxioms.ltb_spec.
Qed.

Lemma Math_max_spec x y :
  isNaN x = false → isNaN y = false →
  (Math_max x y = x ∨ Math_max x y = y) ∧
  PrimFloat.leb x (Math_max x y) = true ∧ PrimFloat.leb y (Math_max x y) = true.
Proof.
  intros Hx Hy. unfold Math_max. rewrite Hx, Hy. simpl.
  destruct (is_pos_zero y && is_neg_zero x) eqn:Hz.
  { apply andb_true_iff in Hz as [Hp Hn].
    split; [by right|]. split; [by apply neg_zero_leb_pos_zero|by apply leb_refl]. }
  destruct (PrimFloat.ltb x y) eqn:Hlt.
  - split; [by right|]. split; [|by apply leb_refl].
    rewrite FloatAxioms.leb_spec. apply SFltb_leb. by rewrite <- FloatAxioms.ltb_spec.
  - split; [by left|]. split; [by apply leb_refl|].
    rewrite FloatAxioms.leb_spec. apply SFleb_total; try by apply isNaN_spec.
    by rewrite <- FloatAxioms.ltb_spec.
Qed.

Lemma Math_min_not_NaN x y : isNaN x = false → isNaN y = false → isNaN (Math_min x y) = false.
Proof. intros Hx Hy. by destruct (Math_min_spec x y Hx Hy) as [[-> | ->] _]. Qed.

Lemma Math_max_not_NaN x y : isNaN x = false → isNaN y = false → isNaN (Math_max x y) = false.
Proof. intros Hx Hy. by destruct (Math_max_spec x y Hx Hy) as [[-> | ->] _]. Qed.

(** The initial values [Infinity] and [-Infinity] of the running extrema
    are neutral. *)
Lemma Math_min_infinity x : isNaN x = false → Math_min infinity x = x.
Proof.
  intros Hx. unfold Math_min. rewrite Hx. simpl.
  rewrite andb_false_r.
  destruct (PrimFloat.ltb x infinity) eqn:Hlt; [done|].
  symmetry. apply Prim2SF_inj. change (Prim2SF infinity) with (S754_infinity false).
  apply SFltb_infinity; [by apply isNaN_spec|].
  rewrite FloatAxioms.ltb_spec in Hlt. exact Hlt.
Qed.

Lemma Math_max_neg_infinity x : isNaN x = false → Math_max neg_infinity x = x.
Proof.
  intros Hx. unfold Math_max. rewrite Hx. simpl.
  rewrite andb_false_r.
  destruct (PrimFloat.ltb neg_infinity x) eqn:Hlt; [done|].
  symmetry. apply Prim2SF_inj. change (Prim2SF neg_infinity) with (S754_infinity true).
  apply SFltb_neg_infinity; [by apply isNaN_spec|].
  rewrite FloatAxioms.ltb_spec in Hlt. exact Hlt.
Qed.

End FloatOrder.

(** ** Loops and array helpers *)

Section Loops.

(** A callback that ignores the index makes [reduce] a left fold and
    [map] the usual map. *)
Lemma reduce_from_fold {A S : Type} (g : S → A → S) (arr : list A) (i : nat) (acc : S) :
  reduce_from i (λ acc val _, g acc val) arr acc = fold_left g arr acc.
Proof. revert i acc. induction arr as [|val rest IH]; intros i acc; simpl; [done|apply IH]. Qed.

Lemma reduce_fold {A S : Type} (g : S → A → S) (arr : list A) (init : S) :
  reduce (λ acc val _, g acc val) arr init = fold_left g arr init.
Proof. apply reduce_from_fold. Qed.

Lemma map_unary {A B : Type} (f : A → B) (arr : list A) :
  Js.map (λ val _, f val) arr = f <$> arr.
Proof. unfold Js.map. apply (imap_const f). Qed.

Lemma fold_left_fmap {A B S : Type} (g : S → B → S) (f : A → B) (l : list A) (acc : S) :
  fold_left (λ acc x, g acc (f x)) l acc = fold_left g (f <$> l) acc.
Proof. revert acc. induction l as [|x l IH]; intros acc; simpl; [done|apply IH]. Qed.

(** [slice(i, i + b)] inside the array is the next [b] elements. *)
Lemma slice_chunk {A : Type} (arr : list A) (i b : Z) :
  (0 ≤ i)%Z → (0 ≤ b)%Z →
  slice arr i (i + b) = take (Z.to_nat b) (drop (Z.to_nat i) arr).
Proof.
  intros Hi Hb. unfold slice, clamp_index.
  destruct (Z.ltb_spec i 0); [lia|]. destruct (Z.ltb_spec (i + b) 0); [lia|].
  destruct (decide (Z.to_nat i ≤ length arr)) as [Hle|Hgt].
  - rewrite (Nat.min_l (Z.to_nat i)) by lia.
    destruct (decide (Z.to_nat (i + b) ≤ length arr)).
    + rewrite Nat.min_l by lia. f_equal. lia.
    + rewrite Nat.min_r by lia.
      rewrite !take_ge; [done| |]; rewrite length_drop; lia.
  - rewrite !drop_ge by lia. by rewrite !take_nil.
Qed.

End Loops.

(** ** [batchProcess] *)

Section BatchProcess.

Context {A B : Type}.

(** With a positive step the loop leaves in at most [length vectors]
    iterations, whatever the callback. *)
Lemma batchProcess_loop_returns (vectors : list A) (processFn : A → nat → B)
    (batchSize : Z) (fuel : nat) (i : Z) (results : list B) :
  (1 ≤ batchSize)%Z → (Z.of_nat (length vectors) - i ≤ Z.of_nat fuel)%Z →
  is_Some (VectorUtils.batchProcess_loop fuel vectors processFn batchSize i results).
Proof.
  intros Hb. revert i results.
  induction fuel as [|fuel IH]; intros i results Hfuel; simpl.
  - destruct (Z.ltb_spec i (Z.of_nat (length vectors))); [lia|by eexists].
  - destruct (Z.ltb_spec i (Z.of_nat (length vectors))); [|by eexists].
    apply IH. lia.
Qed.

(** With a step that is not positive the index never passes the end of
    a non-empty array. *)
Lemma batchProcess_loop_diverges (vectors : list A) (processFn : A → nat → B)
    (batchSize : Z) (fuel : nat) (i : Z) (results : list B) :
  (batchSize ≤ 0)%Z → (i ≤ 0)%Z → vectors ≠ [] →
  VectorUtils.batchProcess_loop fuel vectors processFn batchSize i results = None.
Proof.
  intros Hb Hi Hne. revert i results Hi.
  induction fuel as [|fuel IH]; intros i results Hi; simpl;
    (destruct (Z.ltb_spec i (Z.of_nat (length vectors))) as [_|Hge];
     [|destruct vectors; [done|simpl in Hge; lia]]); [done|].
  apply IH. lia.
Qed.

(** The loop with a positive step and a callback of the item alone
    appends the image of the rest of the array. *)
Lemma batchProcess_loop_fmap (vectors : list A) (f : A → B)
    (batchSize : Z) (fuel : nat) (i : Z) (results : list B) :
  (1 ≤ batchSize)%Z → (0 ≤ i)%Z →
  (Z.of_nat (length vectors) - i ≤ Z.of_nat fuel)%Z →
  VectorUtils.batchProcess_loop fuel vectors (λ val _, f val) batchSize i results
  = Some (results ++ (f <$> drop (Z.to_nat i) vectors)).
Proof.
  intros Hb. revert i results.
  assert (Hstep : ∀ i results, (0 ≤ i)%Z →
    (results ++ Js.map (λ val _, f val) (slice vectors i (i + batchSize)))
      ++ (f <$> drop (Z.to_nat (i + batchSize)) vectors)
    = results ++ (f <$> drop (Z.to_nat i) vectors)).
  { intros i results Hi. rewrite map_unary, slice_chunk by lia.
    rewrite <- app_assoc, <- fmap_app. do 2 f_equal.
    replace (Z.to_nat (i + batchSize)) with (Z.to_nat i + Z.to_nat batchSize) by lia.
    rewrite <- drop_drop. apply take_drop. }
  induction fuel as [|fuel IH]; intros i results Hi Hfuel; simpl;
    destruct (Z.ltb_spec i (Z.of_nat (length vectors))) as [Hlt|Hge]; try lia.
  - rewrite drop_ge by lia. by rewrite app_nil_r.
  - rewrite IH by lia. by rewrite Hstep.
  - rewrite drop_ge by lia. by rewrite app_nil_r.
Qed.

End BatchProcess.

(** C10: [batchProcess] leaves its loop for every array when [batchSize]
    is at least [1] (any fuel from the array's length on suffices, for
    every callback), and because [batchSize] is never checked, a
    [batchSize] of [0] or less on a non-empty array never returns,
    however much fuel the loop is given. *)
Theorem batchProcess_terminates_iff_positive {A B : Type}
    (vectors : list A) (processFn : A → nat → B) (batchSize : Z) :
  ((1 ≤ batchSize)%Z → ∀ fuel, length vectors ≤ fuel →
     is_Some (VectorUtils.batchProcess fuel vectors processFn (Some batchSize)))
  ∧ ((batchSize ≤ 0)%Z → vectors ≠ [] → ∀ fuel,
     VectorUtils.batchProcess fuel vectors processFn (Some batchSize) = None).
Proof.
  split.
  - intros Hb fuel Hfuel. apply batchProcess_loop_returns; [done|lia].
  - intros Hb Hne fuel. by apply batchProcess_loop_diverges.
Qed.

Lemma batchProcess_terminates_iff_positive_witness :
  is_Some (VectorUtils.batchProcess 3 [1; 2; 3] (λ val i, val + i) (Some 2%Z))
  ∧ VectorUtils.batchProcess 5 [7] (λ val i, val + i) (Some 0%Z) = None.
Proof.
  split.
  - apply (proj1 (batchProcess_terminates_iff_positive [1; 2; 3] (λ val i, val + i) 2));
      [lia|simpl; lia].
  - apply (proj2 (batchProcess_terminates_iff_positive [7] (λ val i, val + i) 0));
      [lia|discriminate].
Defined.

(** C9 (amended): for every array, every function [f] of an item and
    every [batchSize] of at least [1] (the default [100] included),
    [batchProcess] returns the same ordered results as one map of [f]
    over the array. *)
Theorem batchProcess_is_map {A B : Type} (vectors : list A) (f : A → B)
    (batchSize : option Z) (fuel : nat) :
  (1 ≤ default 100 batchSize)%Z → length vectors ≤ fuel →
  VectorUtils.batchProcess fuel vectors (λ val _, f val) batchSize = Some (f <$> vectors).
Proof.
  intros Hb Hfuel. unfold VectorUtils.batchProcess.
  rewrite batchProcess_loop_fmap by lia. done.
Qed.

Lemma batchProcess_is_map_witness :
  VectorUtils.batchProcess 5 [1; 2; 3; 4; 5] (λ val _, 2 * val) (Some 2%Z)
  = Some [2; 4; 6; 8; 10].
Proof.
  apply (batchProcess_is_map [1; 2; 3; 4; 5] (λ val, 2 * val) (Some 2%Z) 5);
    simpl; lia.
Defined.

(** C9 as stated fails for the chunk size [0]: no amount of fuel makes
    [batchProcess] return the map of the function over a one-element
    array. *)
Lemma batchProcess_zero_batchSize_counterexample :
  ¬ ∃ fuel, VectorUtils.batchProcess fuel [1] (λ val _, 2 * val) (Some 0%Z)
            = Some ((λ val, 2 * val) <$> [1]).
Proof.
  intros [fuel H].
  unfold VectorUtils.batchProcess in H.
  rewrite batchProcess_loop_diverges in H; [discriminate|simpl; lia|lia|discriminate].
Qed.

(** The callback is handed the index inside the chunk, as [Array.map]
    does, so only a function of the item alone is independent of the
    chunking. *)
Example batchProcess_index_is_chunk_relative :
  VectorUtils.batchProcess 3 ["a"; "b"; "c"] (λ _ i, i) (Some 2%Z) = Some [0; 1; 0]
  ∧ Js.map (λ (_ : string) i, i) ["a"; "b"; "c"] = [0; 1; 2].
Proof. split; reflexivity. Qed.

(** ** [validateVector] and [isValidVector] *)

Section Validation.

Lemma validateVector_returns_inv (vector : value) (expected env_max : option Z) :
  VectorUtils.validateVector vector expected env_max = Return true →
  ∃ items, vector = VArray items ∧ items ≠ [] ∧
    forallb (λ val, match val with VNumber x => negb (isNaN x) | _ => false end) items = true.
Proof.
  destruct vector as [| | | | |items]; try discriminate. simpl.
  destruct items as [|val items]; [discriminate|].
  intros H. exists (val :: items). split; [done|]. split; [done|].
  change (length (val :: items) =? 0)%nat with false in H. cbv iota in H.
  destruct (forallb _ (val :: items)); [done|discriminate].
Qed.

End Validation.

(** C4 (amended): for every array that contains [NaN], [validateVector]
    fails with [InvalidNumbers]; for every array that contains a
    non-finite number ([NaN], [Infinity] or [-Infinity]),
    [isValidVector] returns false; and [validateVector] succeeds only on
    a non-empty array whose every element is a number other than [NaN]
    (an infinite element is accepted). *)
Theorem validateVector_rejects_NaN_isValidVector_rejects_non_finite :
  (∀ (items : list value) (expected env_max : option Z) (x : float),
     VNumber x ∈ items → isNaN x = true →
     VectorUtils.validateVector (VArray items) expected env_max
     = Throw VectorUtils.InvalidNumbers)
  ∧ (∀ (items : list value) (x : float),
     VNumber x ∈ items → isFinite x = false →
     VectorUtils.isValidVector items = false)
  ∧ (∀ (vector : value) (expected env_max : option Z),
     VectorUtils.validateVector vector expected env_max = Return true →
     ∃ items, vector = VArray items ∧
       Forall (λ val, ∃ x, val = VNumber x ∧ isNaN x = false) items).
Proof.
  split; [|split].
  - intros items expected env_max x Hin Hnan. simpl.
    destruct items as [|val items]; [by apply elem_of_nil in Hin|].
    change (length (val :: items) =? 0)%nat with false. cbv iota.
    destruct (forallb _ (val :: items)) eqn:Hall; [|done].
    rewrite forallb_forall in Hall.
    pose proof (Hall (VNumber x) (proj1 (list_elem_of_In _ _) Hin)) as Hx.
    simpl in Hx. by rewrite Hnan in Hx.
  - intros items x Hin Hfin. unfold VectorUtils.isValidVector.
    destruct (forallb _ items) eqn:Hall; [|done].
    rewrite forallb_forall in Hall.
    pose proof (Hall (VNumber x) (proj1 (list_elem_of_In _ _) Hin)) as Hx.
    simpl in Hx. by rewrite Hfin, andb_false_r in Hx.
  - intros vector expected env_max H.
    apply validateVector_returns_inv in H as (items & -> & _ & Hall).
    exists items. split; [done|].
    rewrite forallb_forall in Hall. apply Forall_forall. intros val Hin.
    apply list_elem_of_In, Hall in Hin.
    destruct val as [| | |x| |]; try discriminate.
    exists x. split; [done|]. by apply negb_true_iff.
Qed.

Lemma validateVector_rejects_NaN_isValidVector_rejects_non_finite_witness :
  VectorUtils.validateVector (VArray [VNumber 1; VNumber nan]) None None
  = Throw VectorUtils.InvalidNumbers
  ∧ VectorUtils.isValidVector [VNumber 1; VNumber infinity] = false
  ∧ ∃ items, VArray [VNumber 1; VNumber 2] = VArray items ∧
      Forall (λ val, ∃ x, val = VNumber x ∧ isNaN x = false) items.
Proof.
  destruct validateVector_rejects_NaN_isValidVector_rejects_non_finite as (H1 & H2 & H3).
  split; [|split].
  - apply (H1 _ None None nan); [set_solver|reflexivity].
  - apply (H2 _ infinity); [set_solver|reflexivity].
  - apply (H3 _ None None). reflexivity.
Defined.

(** C4 as stated fails on an array that holds [Infinity]: the element is
    not finite, yet [validateVector] succeeds. *)
Lemma validateVector_accepts_Infinity_counterexample :
  isFinite infinity = false
  ∧ VectorUtils.validateVector (VArray [VNumber 1; VNumber infinity]) None None
    = Return true.
Proof. split; reflexivity. Qed.

(** ** [cosineSimilarity] *)

Section Cosine.

(** The three accumulators of the loop are three independent [reduce]s. *)
Lemma cosine_loop (vectorA vectorB restA restB : list float) (i : nat)
    (dot normA normB : float) :
  length restA = length restB →
  (∀ k, k < length restA →
     get vectorA (i + k) = nth k restA nan ∧ get vectorB (i + k) = nth k restB nan) →
  for_range i (length restA)
    (λ i '(dotProduct, normA, normB),
       ((dotProduct + get vectorA i * get vectorB i)%float,
        (normA + get vectorA i * get vectorA i)%float,
        (normB + get vectorB i * get vectorB i)%float))
    (dot, normA, normB)
  = (reduce_from i (λ sum val i, (sum + val * get vectorB i)%float) restA dot,
     fold_left (λ sum val, (sum + val * val)%float) restA normA,
     fold_left (λ sum val, (sum + val * val)%float) restB normB).
Proof.
  revert restB i dot normA normB.
  induction restA as [|a restA IH]; intros [|b restB] i dot normA normB Hlen Hget;
    try discriminate; [done|].
  simpl. destruct (Hget 0) as [Ha Hb]; [simpl; lia|].
  rewrite Nat.add_0_r in Ha, Hb. simpl in Ha, Hb. rewrite Ha, Hb.
  apply IH; [by injection Hlen|].
  intros k Hk. specialize (Hget (S k)). simpl in Hget.
  replace (S i + k) with (i + S k) by lia. apply Hget. lia.
Qed.

Lemma cosineSimilarity_equal_length (vectorA vectorB : list float) :
  length vectorA = length vectorB →
  VectorUtils.cosineSimilarity vectorA vectorB
  = let magnitude := (VectorUtils.magnitude vectorA * VectorUtils.magnitude vectorB)%float in
    if strict_eq magnitude 0 then Return 0%float
    else Return (reduce (λ sum val i, (sum + val * get vectorB i)%float) vectorA 0
                 / magnitude)%float.
Proof.
  intros Hlen. unfold VectorUtils.cosineSimilarity, VectorUtils.magnitude.
  rewrite Hlen, Nat.eqb_refl. simpl negb. cbv iota.
  rewrite <- Hlen.
  rewrite (cosine_loop vectorA vectorB vectorA vectorB 0) by done.
  rewrite !reduce_fold. done.
Qed.

End Cosine.

(** C5 (amended): for vectors of equal length [cosineSimilarity] returns
    [0] when the product of the two magnitudes is zero and the dot
    product divided by that product otherwise; the product is zero, and
    the result [0], whenever one magnitude is zero and the other is
    finite; for vectors of unequal length it fails with
    [DimensionMismatch]. *)
Theorem cosineSimilarity_spec (vectorA vectorB : list float) :
  (length vectorA = length vectorB →
     ∃ dot, VectorUtils.dotProduct vectorA vectorB = Return dot ∧
       VectorUtils.cosineSimilarity vectorA vectorB
       = Return
           (if strict_eq (VectorUtils.magnitude vectorA * VectorUtils.magnitude vectorB) 0
            then 0%float
            else (dot / (VectorUtils.magnitude vectorA * VectorUtils.magnitude vectorB))%float))
  ∧ (length vectorA = length vectorB →
     (strict_eq (VectorUtils.magnitude vectorA) 0 = true
        ∧ isFinite (VectorUtils.magnitude vectorB) = true)
     ∨ (isFinite (VectorUtils.magnitude vectorA) = true
        ∧ strict_eq (VectorUtils.magnitude vectorB) 0 = true) →
     VectorUtils.cosineSimilarity vectorA vectorB = Return 0%float)
  ∧ (length vectorA ≠ length vectorB →
     VectorUtils.cosineSimilarity vectorA vectorB = Throw VectorUtils.DimensionMismatch
     ∧ VectorUtils.dotProduct vectorA vectorB = Throw VectorUtils.DimensionMismatch).
Proof.
  split; [|split].
  - intros Hlen. eexists. split.
    + unfold VectorUtils.dotProduct. rewrite Hlen, Nat.eqb_refl. reflexivity.
    + rewrite cosineSimilarity_equal_length by done. simpl.
      by destruct (strict_eq _ _).
  - intros Hlen Hzero. rewrite cosineSimilarity_equal_length by done. simpl.
    destruct Hzero as [[Hz Hf]|[Hf Hz]].
    + by rewrite mul_zero_finite.
    + by rewrite mul_finite_zero.
  - intros Hlen. unfold VectorUtils.cosineSimilarity, VectorUtils.dotProduct.
    apply Nat.eqb_neq in Hlen. by rewrite Hlen.
Qed.

Lemma cosineSimilarity_spec_witness :
  VectorUtils.cosineSimilarity [0; 0]%float [3; 4]%float = Return 0%float
  ∧ VectorUtils.cosineSimilarity [1; 2; 3]%float [1; 2]%float
    = Throw VectorUtils.DimensionMismatch.
Proof.
  destruct (cosineSimilarity_spec [0; 0]%float [3; 4]%float) as (_ & Hzero & _).
  destruct (cosineSimilarity_spec [1; 2; 3]%float [1; 2]%float) as (_ & _ & Hne).
  split.
  - apply Hzero; [reflexivity|left; split; reflexivity].
  - apply Hne. simpl. lia.
Defined.

(** C5 as stated fails when the other magnitude overflows: the magnitude
    of [[0]] is zero, the vectors have equal length, and the result is
    [NaN], not [0]. *)
Lemma cosineSimilarity_zero_magnitude_counterexample :
  strict_eq (VectorUtils.magnitude [0%float]) 0 = true
  ∧ VectorUtils.cosineSimilarity [0%float] [0x1p+600%float] = Return nan
  ∧ strict_eq nan 0 = false.
Proof. repeat split; vm_compute; reflexivity. Qed.

(** ** [calculateVectorStatistics] *)

Section Statistics.

Import VectorUtils.

(** What one vector does to the entry of dimension [j]. *)
Local Abbreviation visit vector j :=
  (λ d, set_max (Math_max (max d) (get vector j))
          (set_min (Math_min (min d) (get vector j)) d)).
Local Abbreviation push vector j := (λ values : list float, values ++ [get vector j]).

(** The inner loop touches each index of its range once, and only
    there. *)
Lemma collect_dimension_loop (vector : list float) (n start : nat)
    (dimension_stats : list dimension_stat) (dimensionValues : list (list float)) :
  ∀ j,
    (for_range start n (collect_dimension vector) (dimension_stats, dimensionValues)).1 !! j
    = (if decide (start ≤ j < start + n) then visit vector j <$> dimension_stats !! j
       else dimension_stats !! j)
    ∧ (for_range start n (collect_dimension vector) (dimension_stats, dimensionValues)).2 !! j
    = (if decide (start ≤ j < start + n) then push vector j <$> dimensionValues !! j
       else dimensionValues !! j).
Proof.
  revert start dimension_stats dimensionValues.
  induction n as [|n IH]; intros start ds dv j; simpl.
  { case_decide; [lia|done]. }
  destruct (IH (S start)
              (alter (λ d, set_max (Math_max (max d) (get vector start)) d) start
                 (alter (λ d, set_min (Math_min (min d) (get vector start)) d) start ds))
              (alter (push vector start) start dv) j) as [Hds Hdv].
  rewrite Hds, Hdv. clear Hds Hdv IH.
  destruct (decide (j = start)) as [->|Hne].
  - rewrite !list_lookup_alter_eq.
    repeat case_decide; try lia. split; [|done].
    by destruct (ds !! start).
  - rewrite !list_lookup_alter_ne by done.
    repeat case_decide; try lia; done.
Qed.

(** After all vectors, dimension [j] holds the column of the [j]-th
    coordinates and its running extrema. *)
Lemma collect_vectors (dimensions : nat) (vectors : list (list float)) (c : collecting)
    (j : nat) (d0 : dimension_stat) (values0 : list float) :
  j < dimensions →
  c_dimension_stats c !! j = Some d0 →
  c_dimensionValues c !! j = Some values0 →
  let c' := fold_left (collect_vector dimensions) vectors c in
  c_dimensionValues c' !! j = Some (values0 ++ Spec.column j vectors)
  ∧ ∃ d, c_dimension_stats c' !! j = Some d
      ∧ min d = fold_left Math_min (Spec.column j vectors) (min d0)
      ∧ max d = fold_left Math_max (Spec.column j vectors) (max d0)
      ∧ mean d = mean d0 ∧ std d = std d0.
Proof.
  intros Hj. revert c d0 values0.
  induction vectors as [|vector vectors IH]; intros c d0 values0 Hds Hdv; simpl.
  { rewrite app_nil_r. eauto 10. }
  pose proof (collect_dimension_loop vector dimensions 0
                (c_dimension_stats c) (c_dimensionValues c) j) as [Hds' Hdv'].
  rewrite decide_True in Hds' by lia. rewrite decide_True in Hdv' by lia.
  rewrite Hds in Hds'. rewrite Hdv in Hdv'. simpl in Hds', Hdv'.
  edestruct (IH (collect_vector dimensions c vector)) as (Hvals & d & Hd & Hmin & Hmax & Hmean & Hstd).
  - unfold collect_vector. destruct (for_range _ _ _ _). exact Hds'.
  - unfold collect_vector. destruct (for_range _ _ _ _). exact Hdv'.
  - split.
    + rewrite Hvals. by rewrite <- app_assoc.
    + exists d. by rewrite Hd, Hmin, Hmax, Hmean, Hstd.
Qed.

Local Abbreviation summary values d :=
  (let m := (reduce (λ sum val _, (sum + val)%float) values 0%float
             / number_of_nat (length values))%float in
   set_std
     (PrimFloat.sqrt
        (reduce (λ sum val _, let diff := (val - m)%float in (sum + diff * diff)%float)
           values 0%float
         / number_of_nat (length values))%float)
     (set_mean m d)).

(** The last loop fills mean and deviation of each dimension of its
    range from the values collected for it. *)
Lemma summarize_dimension_loop (dimensionValues : list (list float)) (n start : nat)
    (dimension_stats : list dimension_stat) (j : nat) :
  for_range start n (summarize_dimension dimensionValues) dimension_stats !! j
  = if decide (start ≤ j < start + n)
    then (λ d, summary (default [] (dimensionValues !! j)) d) <$> dimension_stats !! j
    else dimension_stats !! j.
Proof.
  revert start dimension_stats.
  induction n as [|n IH]; intros start ds; simpl.
  { case_decide; [lia|done]. }
  rewrite IH. clear IH. unfold summarize_dimension.
  destruct (decide (j = start)) as [->|Hne].
  - rewrite !list_lookup_alter_eq.
    repeat case_decide; try lia.
    by destruct (ds !! start).
  - rewrite !list_lookup_alter_ne by done.
    repeat case_decide; try lia; done.
Qed.

(** The running minimum from [Infinity] over a column without [NaN] is
    its least element; likewise the running maximum from [-Infinity]. *)
Lemma running_min (xs : list float) (acc : float) :
  isNaN acc = false → Spec.no_NaN xs →
  let r := fold_left Math_min xs acc in
  (r = acc ∨ r ∈ xs) ∧ PrimFloat.leb r acc = true
  ∧ ∀ x, x ∈ xs → PrimFloat.leb r x = true.
Proof.
  revert acc. induction xs as [|x xs IH]; intros acc Hacc Hxs; simpl.
  { split; [by left|]. split; [by apply leb_refl|]. intros x Hx. by apply elem_of_nil in Hx. }
  apply Forall_cons in Hxs as [Hx Hxs].
  destruct (Math_min_spec acc x Hacc Hx) as (Hor & Hle1 & Hle2).
  destruct (IH (Math_min acc x) (Math_min_not_NaN _ _ Hacc Hx) Hxs) as (Hin & Hle & Hall).
  split; [|split].
  - destruct Hin as [Hin|Hin]; [|right; by apply elem_of_cons; right].
    rewrite Hin. destruct Hor as [->| ->]; [by left|right; by apply elem_of_cons; left].
  - by eapply leb_trans.
  - intros y Hy. apply elem_of_cons in Hy as [->|Hy]; [by eapply leb_trans|by apply Hall].
Qed.

Lemma running_max (xs : list float) (acc : float) :
  isNaN acc = false → Spec.no_NaN xs →
  let r := fold_left Math_max xs acc in
  (r = acc ∨ r ∈ xs) ∧ PrimFloat.leb acc r = true
  ∧ ∀ x, x ∈ xs → PrimFloat.leb x r = true.
Proof.
  revert acc. induction xs as [|x xs IH]; intros acc Hacc Hxs; simpl.
  { split; [by left|]. split; [by apply leb_refl|]. intros x Hx. by apply elem_of_nil in Hx. }
  apply Forall_cons in Hxs as [Hx Hxs].
  destruct (Math_max_spec acc x Hacc Hx) as (Hor & Hle1 & Hle2).
  destruct (IH (Math_max acc x) (Math_max_not_NaN _ _ Hacc Hx) Hxs) as (Hin & Hle & Hall).
  split; [|split].
  - destruct Hin as [Hin|Hin]; [|right; by apply elem_of_cons; right].
    rewrite Hin. destruct Hor as [->| ->]; [by left|right; by apply elem_of_cons; left].
  - by eapply leb_trans.
  - intros y Hy. apply elem_of_cons in Hy as [->|Hy]; [by eapply leb_trans|by apply Hall].
Qed.

Lemma minimum_from_infinity (xs : list float) :
  xs ≠ [] → Spec.no_NaN xs → Spec.is_minimum (fold_left Math_min xs infinity) xs.
Proof.
  destruct xs as [|x xs]; [done|]. intros _ Hxs. simpl.
  pose proof Hxs as Hxs'. apply Forall_cons in Hxs' as [Hx Hrest].
  rewrite Math_min_infinity by done.
  destruct (running_min xs x Hx Hrest) as (Hin & Hle & Hall).
  split.
  - destruct Hin as [->|Hin]; apply elem_of_cons; auto.
  - intros y Hy. apply elem_of_cons in Hy as [->|Hy]; auto.
Qed.

Lemma maximum_from_neg_infinity (xs : list float) :
  xs ≠ [] → Spec.no_NaN xs → Spec.is_maximum (fold_left Math_max xs neg_infinity) xs.
Proof.
  destruct xs as [|x xs]; [done|]. intros _ Hxs. simpl.
  pose proof Hxs as Hxs'. apply Forall_cons in Hxs' as [Hx Hrest].
  rewrite Math_max_neg_infinity by done.
  destruct (running_max xs x Hx Hrest) as (Hin & Hle & Hall).
  split.
  - destruct Hin as [->|Hin]; apply elem_of_cons; auto.
  - intros y Hy. apply elem_of_cons in Hy as [->|Hy]; auto.
Qed.

(** A column of vectors without [NaN] that all have an [i]-th coordinate
    holds no [NaN]. *)
Lemma column_no_NaN (i : nat) (vectors : list (list float)) :
  Forall (λ vector, i < length vector) vectors →
  Forall Spec.no_NaN vectors →
  Spec.no_NaN (Spec.column i vectors).
Proof.
  intros Hlen Hnan. unfold Spec.no_NaN, Spec.column. apply Forall_fmap.
  apply Forall_forall. intros vector Hin. simpl.
  rewrite Forall_forall in Hlen, Hnan.
  specialize (Hlen _ Hin). specialize (Hnan _ Hin).
  unfold Spec.no_NaN in Hnan. rewrite Forall_forall in Hnan. apply Hnan.
  unfold get. apply list_elem_of_In, nth_In. done.
Qed.

(** The entry of dimension [i] in the result, for every non-empty input
    and every [i] below the length of the first vector. *)
Lemma calculateVectorStatistics_dimension (first : list float)
    (rest : list (list float)) (i : nat) :
  i < length first →
  ∃ stats d,
    calculateVectorStatistics (first :: rest) = Some stats
    ∧ count stats = length (first :: rest)
    ∧ dimensions stats = length first
    ∧ dimension_stats stats !! i = Some d
    ∧ mean d = Spec.arithmetic_mean (Spec.column i (first :: rest))
    ∧ std d = Spec.population_std (Spec.column i (first :: rest))
    ∧ min d = fold_left Math_min (Spec.column i (first :: rest)) infinity
    ∧ max d = fold_left Math_max (Spec.column i (first :: rest)) neg_infinity.
Proof.
  intros Hi. unfold calculateVectorStatistics.
  set (c0 := {| c_min_magnitude := infinity |}).
  destruct (collect_vectors (length first) (first :: rest) c0 i
              {| min := infinity; max := neg_infinity; mean := 0; std := 0 |} [] Hi)
    as (Hvalues & d & Hd & Hmin & Hmax & _ & _).
  { simpl. by apply lookup_replicate_2. }
  { simpl. by apply lookup_replicate_2. }
  rewrite app_nil_l in Hvalues.
  eexists _, _. split; [reflexivity|]. cbn [count dimensions dimension_stats].
  split; [done|]. split; [done|].
  rewrite summarize_dimension_loop, decide_True by lia.
  cbv zeta in Hd, Hvalues. rewrite Hd, Hvalues. cbn [fmap option_fmap option_map default].
  split; [reflexivity|].
  unfold set_std, set_mean, id. cbn [mean std min max].
  rewrite !reduce_fold.
  split; [reflexivity|]. split; [|by split].
  unfold Spec.population_std, Spec.arithmetic_mean, Spec.sum.
  by rewrite <- (fold_left_fmap PrimFloat.add).
Qed.

End Statistics.

(** C8: [calculateVectorStatistics] returns [null] for an empty input;
    for every non-empty input of vectors of equal length (vectors hold
    no [NaN]) and every coordinate [i], [count] is the number of vectors
    and [dimension_stats[i]] holds the arithmetic mean of the [i]-th
    coordinates, their population standard deviation (divisor [count]),
    their minimum and their maximum. *)
Theorem calculateVectorStatistics_spec :
  VectorUtils.calculateVectorStatistics [] = None
  ∧ ∀ (first : list float) (rest : list (list float)) (i : nat),
      Forall (λ vector, length vector = length first) rest →
      Forall Spec.no_NaN (first :: rest) →
      i < length first →
      ∃ stats d,
        VectorUtils.calculateVectorStatistics (first :: rest) = Some stats
        ∧ VectorUtils.count stats = length (first :: rest)
        ∧ VectorUtils.dimension_stats stats !! i = Some d
        ∧ VectorUtils.mean d = Spec.arithmetic_mean (Spec.column i (first :: rest))
        ∧ VectorUtils.std d = Spec.population_std (Spec.column i (first :: rest))
        ∧ Spec.is_minimum (VectorUtils.min d) (Spec.column i (first :: rest))
        ∧ Spec.is_maximum (VectorUtils.max d) (Spec.column i (first :: rest)).
Proof.
  split; [reflexivity|].
  intros first rest i Hlen Hnan Hi.
  destruct (calculateVectorStatistics_dimension first rest i Hi)
    as (stats & d & Hstats & Hcount & _ & Hd & Hmean & Hstd & Hmin & Hmax).
  exists stats, d. repeat (split; [done|]).
  assert (Hcol : Spec.no_NaN (Spec.column i (first :: rest))).
  { apply column_no_NaN; [|done]. apply Forall_cons. split; [done|].
    eapply Forall_impl; [exact Hlen|]. simpl. intros vector ->. done. }
  rewrite Hmin, Hmax. split.
  - by apply minimum_from_infinity.
  - by apply maximum_from_neg_infinity.
Qed.

Lemma calculateVectorStatistics_spec_witness :
  ∃ stats d,
    VectorUtils.calculateVectorStatistics
      [[1; 2; 3]; [4; 5; 6]; [7; 8; 9]]%float = Some stats
    ∧ VectorUtils.count stats = 3
    ∧ VectorUtils.dimension_stats stats !! 0 = Some d
    ∧ VectorUtils.mean d = Spec.arithmetic_mean [1; 4; 7]%float
    ∧ VectorUtils.std d = Spec.population_std [1; 4; 7]%float
    ∧ Spec.is_minimum (VectorUtils.min d) [1; 4; 7]%float
    ∧ Spec.is_maximum (VectorUtils.max d) [1; 4; 7]%float.
Proof.
  apply (proj2 calculateVectorStatistics_spec [1; 2; 3]%float
           [[4; 5; 6]; [7; 8; 9]]%float 0).
  - repeat constructor.
  - repeat constructor.
  - simpl. lia.
Defined.

(** ** [listVectors] *)

Section Listing.

Import VectorService.


Context {Store : Type}.
Variable initialize : @M Store unit.
Variable find : gmap string constraint → find_options → @M Store (list document).
Variable countDocuments : gmap string constraint → @M Store Z.


End Listing.



(** ** [findSimilarVectors] *)

Section Similarity.

Import VectorService.

(** Both date bounds end up in one constraint on [metadata.created_at]. *)
Lemma search_filter_created_range (filters : search_filters) :
  truthy (f_created_after filters) = true →
  truthy (f_created_before filters) = true →
  search_filter filters !! "metadata.created_at"
  = Some (Range (f_created_after filters) (f_created_before filters)).
Proof.
  intros Hafter Hbefore. unfold search_filter. rewrite Hafter, Hbefore.
  by rewrite !lookup_insert_eq.
Qed.

(** One bound alone gives a constraint with that bound only. *)
Lemma search_filter_created_before_only (filters : search_filters) :
  truthy (f_created_after filters) = false →
  truthy (f_created_before filters) = true →
  search_filter filters !! "metadata.created_at"
  = Some (Range None (f_created_before filters)).
Proof.
  intros Hafter Hbefore. unfold search_filter. rewrite Hafter, Hbefore.
  rewrite lookup_insert_eq.
  destruct (f_tags filters), (truthy (f_source_id filters)),
    (truthy (f_source_type filters)), (truthy (f_user_id filters)); done.
Qed.

Context {Store : Type}.
Variable initialize : @M Store unit.
Variable find : gmap string constraint → find_options → @M Store (list document).

Lemma findSimilarVectors_returns (queryVector : list float) (options : search_options)
    (s s1 s2 : Store) (cursor : list document) :
  initialize s = (Return tt, s1) →
  find (search_filter (default no_filters (filters options)))
    {| sort := ByVector queryVector;
       limit := default 10%Z (search_limit options);
       skip := None;
       includeSimilarity := true |} s1 = (Return cursor, s2) →
  findSimilarVectors initialize find queryVector options s
  = (Return
       {| query_vector_dimensions := length queryVector;
          results := similar_of <$> cursor;
          total_results := length (similar_of <$> cursor) |}, s2).
Proof.
  intros Hinit Hfind.
  unfold findSimilarVectors, rethrow, try_catch, bind. rewrite Hinit, Hfind. done.
Qed.

End Similarity.

(** C7: for every query vector and options, when the backend answers the
    vector-ranked query with at most [limit] documents (the limit it was
    given; [10] by default), [findSimilarVectors] returns
    [query_vector_dimensions] equal to the length of the query vector,
    one result per document in the backend's order, each made of the
    document's [id], [vector], [metadata] and similarity score, hence at
    most [limit] results, and [total_results] equal to their number; and
    when both [created_after] and [created_before] are given, the filter
    passed to the backend holds one range constraint on
    [metadata.created_at] with both bounds. *)
Theorem findSimilarVectors_spec {Store : Type}
    (initialize : @VectorService.M Store unit)
    (find : gmap string VectorService.constraint → VectorService.find_options →
            @VectorService.M Store (list VectorService.document))
    (queryVector : list float) (options : VectorService.search_options)
    (search : VectorService.search_filters) (limit : Z)
    (s s1 s2 : Store) (cursor : list VectorService.document) :
  search = default VectorService.no_filters (VectorService.filters options) →
  limit = default 10%Z (VectorService.search_limit options) →
  initialize s = (Return tt, s1) →
  find (VectorService.search_filter search)
    {| VectorService.sort := VectorService.ByVector queryVector;
       VectorService.limit := limit;
       VectorService.skip := None;
       VectorService.includeSimilarity := true |} s1 = (Return cursor, s2) →
  (Z.of_nat (length cursor) ≤ limit)%Z →
  ∃ result,
    VectorService.findSimilarVectors initialize find queryVector options s
    = (Return result, s2)
    ∧ VectorService.query_vector_dimensions result = length queryVector
    ∧ (Z.of_nat (length (VectorService.results result)) ≤ limit)%Z
    ∧ VectorService.total_results result = length (VectorService.results result)
    ∧ Forall2
        (λ doc r,
           VectorService.similar_id r = VectorService._id doc
           ∧ VectorService.similar_vector r = VectorService.vector doc
           ∧ VectorService.similar_metadata r = VectorService.metadata doc
           ∧ VectorService.similarity_score r = VectorService.similarity doc)
        cursor (VectorService.results result)
    ∧ (VectorService.truthy (VectorService.f_created_after search) = true →
       VectorService.truthy (VectorService.f_created_before search) = true →
       VectorService.search_filter search !! "metadata.created_at"
       = Some (VectorService.Range (VectorService.f_created_after search)
                 (VectorService.f_created_before search))).
Proof.
  intros -> -> Hinit Hfind Hlimit.
  eexists. split.
  - by apply (findSimilarVectors_returns initialize find queryVector options s s1 s2).
  - cbn [VectorService.query_vector_dimensions VectorService.results
         VectorService.total_results].
    split; [done|]. split; [by rewrite length_fmap|]. split; [done|].
    split; [|apply search_filter_created_range].
    apply Forall2_fmap_r, Forall_Forall2_diag, Forall_forall. done.
Qed.

Lemma findSimilarVectors_spec_witness :
  let stored :=
    [ {| VectorService._id := "a"; VectorService.vector := [1; 2; 3]%float;
         VectorService.metadata := ∅; VectorService.similarity := Some 1%float |};
      {| VectorService._id := "b"; VectorService.vector := [3; 2; 1]%float;
         VectorService.metadata := ∅; VectorService.similarity := Some 0.5%float |} ] in
  let search :=
    {| VectorService.f_user_id := Some "u1";
       VectorService.f_source_type := None;
       VectorService.f_source_id := None;
       VectorService.f_tags := None;
       VectorService.f_created_after := Some "2024-01-01";
       VectorService.f_created_before := Some "2024-12-31" |} in
  ∃ result,
    VectorService.findSimilarVectors (Store := list VectorService.document)
      (VectorService.ret tt)
      (λ _ o s, (Return (take (Z.to_nat (VectorService.limit o)) s), s))
      [1; 2; 3]%float
      {| VectorService.search_limit := Some 1%Z;
         VectorService.filters := Some search |}
      stored
    = (Return result, stored)
    ∧ VectorService.query_vector_dimensions result = 3
    ∧ VectorService.total_results result = 1
    ∧ VectorService.search_filter search !! "metadata.created_at"
      = Some (VectorService.Range (Some "2024-01-01") (Some "2024-12-31")).
Proof.
  intros stored search.
  destruct (findSimilarVectors_spec (Store := list VectorService.document)
              (VectorService.ret tt)
              (λ _ o s, (Return (take (Z.to_nat (VectorService.limit o)) s), s))
              [1; 2; 3]%float
              {| VectorService.search_limit := Some 1%Z;
                 VectorService.filters := Some search |}
              search 1%Z stored stored stored (take 1 stored))
    as (result & Hreturn & Hdim & Hle & Htotal & Hall & Hrange);
    [reflexivity|reflexivity|reflexivity|reflexivity|simpl; lia|].
  exists result. split; [exact Hreturn|]. split; [exact Hdim|]. split.
  - rewrite Htotal. apply Forall2_length in Hall. rewrite <- Hall. reflexivity.
  - apply Hrange; reflexivity.
Defined.

(** ** Create, update and delete over the in-memory collection *)

Section Records.

Import VectorService.

(** [createVector] and [createVectorsBatch] build documents whose
    [metadata.dimensions] is the length of the vector, whatever the
    payload says. *)
Lemma new_document_dimensions (uuid now1 now2 : string) (data : vectorData) :
  metadata (new_document uuid now1 now2 data) !! "dimensions"
  = Some (VNumber (number_of_nat (length (vector (new_document uuid now1 now2 data))))).
Proof.
  unfold new_document. cbn [metadata vector].
  rewrite !lookup_insert_ne by done. by rewrite lookup_insert_eq.
Qed.

Lemma createVector_dimensions (uuid now1 now2 : string) (data : vectorData)
    (s : Memory.store) :
  s !! uuid = None →
  ∃ doc,
    Memory.createVector uuid now1 now2 data s
    = (Return {| created_id := uuid; created_document := doc; insertedId := uuid |},
       <[uuid := doc]> s)
    ∧ vector doc = data_vector data
    ∧ metadata doc !! "dimensions" = Some (VNumber (number_of_nat (length (vector doc)))).
Proof.
  intros Hfresh. exists (new_document uuid now1 now2 data). split; [|split].
  - unfold Memory.createVector, createVector, rethrow, try_catch, bind,
      Memory.initialize, Memory.insertOne, ret.
    cbn [_id new_document]. by rewrite Hfresh.
  - done.
  - apply new_document_dimensions.
Qed.

Lemma createVectorsBatch_dimensions (fresh : nat → string * string * string)
    (vectorsData : list vectorData) (s : Memory.store) :
  ∃ result s',
    Memory.createVectorsBatch fresh vectorsData s = (Return result, s')
    ∧ inserted_count result = length vectorsData
    ∧ Forall2
        (λ data item,
           Item.vector item = data_vector data
           ∧ Item.metadata item !! "dimensions"
             = Some (VNumber (number_of_nat (length (Item.vector item)))))
        vectorsData (batch_vectors result).
Proof.
  eexists _, _. split; [reflexivity|]. cbn [inserted_count batch_vectors insertedCount].
  split.
  - unfold Js.map. by rewrite length_imap.
  - unfold Js.map. apply Forall2_fmap_r.
    apply Forall2_same_length_lookup. split.
    + by rewrite length_imap.
    + intros k data doc Hdata Hdoc.
      rewrite list_lookup_imap, Hdata in Hdoc. simpl in Hdoc.
      injection Hdoc as <-. destruct (fresh k) as [[uuid now1] now2].
      split; [done|]. apply new_document_dimensions.
Qed.

(** [updateVector] on a stored identifier: the document after the update
    is the stored one with the fields of [updateDoc] assigned. *)
Lemma updateVector_stored (now id : string) (data : updateData) (s : Memory.store)
    (doc : document) :
  s !! id = Some doc →
  Memory.updateVector now id data s
  = (Return (item_of (Memory.apply_set (updateDoc now data) doc)),
     <[id := Memory.apply_set (updateDoc now data) doc]> s).
Proof.
  intros Hdoc.
  unfold Memory.updateVector, updateVector, rethrow, try_catch, bind,
    Memory.initialize, Memory.findOneAndUpdate, ret.
  by rewrite Hdoc.
Qed.

(** With vector and metadata both supplied, [dimensions] follows the new
    vector. *)
Lemma updateVector_both_dimensions (now id : string) (new_vector : list float)
    (new_metadata : gmap string value) (s : Memory.store) (doc : document) :
  s !! id = Some doc →
  ∃ item s',
    Memory.updateVector now id
      {| update_vector := Some new_vector; update_metadata := Some new_metadata |} s
    = (Return item, s')
    ∧ Item.vector item = new_vector
    ∧ Item.metadata item !! "dimensions"
      = Some (VNumber (number_of_nat (length (Item.vector item)))).
Proof.
  intros Hdoc. eexists _, _. split; [by apply updateVector_stored|].
  split; [done|]. simpl. by rewrite lookup_insert_eq.
Qed.

(** The service's errors for an absent identifier and for a failing
    backend are both plain errors whose message starts with the
    operation's context. *)
Lemma getVectorById_absent (id : string) (s : Memory.store) :
  s !! id = None →
  Memory.getVectorById id s = (Throw "Failed to get vector: Vector not found", s).
Proof.
  intros Hid.
  unfold Memory.getVectorById, getVectorById, rethrow, try_catch, bind,
    Memory.initialize, Memory.findOne, ret, throw.
  by rewrite Hid.
Qed.

Lemma getVectorById_backend_failure (message id : string) (s : Memory.store) :
  getVectorById Memory.initialize (λ _, Memory.unavailable message) id s
  = (Throw ("Failed to get vector: " +:+ message), s).
Proof. reflexivity. Qed.

(** Whatever the backend does, an error leaves the service with the
    operation's context in front of its message, so the handlers'
    comparison with the bare message never holds and no failure of
    [getVectorById] is answered with 404. *)
Lemma rethrow_message {Store A : Type} (context : string) (m : @M Store A)
    (s s' : Store) (message : string) :
  rethrow context m s = (Throw message, s') →
  ∃ inner, message = context +:+ ": " +:+ inner.
Proof.
  unfold rethrow, try_catch, throw. destruct (m s) as [[a|inner] s1]; [done|].
  intros [= <- _]. by exists inner.
Qed.

Lemma get_id_never_404 {Store : Type} (initialize : @M Store unit)
    (findOne : string → @M Store (option document)) (id : string) (s s' : Store)
    (content : Routes.body Item.t) :
  Routes.get_id initialize findOne id s ≠ (Routes.Json 404 content, s').
Proof.
  unfold Routes.get_id.
  destruct (getVectorById initialize findOne id s) as [[item|message] s1] eqn:Hget;
    [done|].
  apply rethrow_message in Hget as [inner ->]. done.
Qed.

End Records.

(** C1 (the code at failing inputs): on a stored identifier, an update
    that supplies only a vector returns the stored metadata unchanged,
    [updated_at] included, and an update that supplies only metadata
    returns exactly the supplied keys plus [updated_at], so stored keys
    that the payload omits are gone; the stored vector is retained. *)
Theorem updateVector_does_not_merge (now id : string) (s : Memory.store)
    (doc : VectorService.document) (new_vector : list float)
    (new_metadata : gmap string value) :
  s !! id = Some doc →
  (∃ s',
     Memory.updateVector now id
       {| VectorService.update_vector := Some new_vector;
          VectorService.update_metadata := None |} s
     = (Return {| VectorService.Item.id := VectorService._id doc;
                  VectorService.Item.vector := new_vector;
                  VectorService.Item.metadata := VectorService.metadata doc |}, s'))
  ∧ (∃ s',
     Memory.updateVector now id
       {| VectorService.update_vector := None;
          VectorService.update_metadata := Some new_metadata |} s
     = (Return {| VectorService.Item.id := VectorService._id doc;
                  VectorService.Item.vector := VectorService.vector doc;
                  VectorService.Item.metadata :=
                    <["updated_at" := VString now]> new_metadata |}, s')).
Proof.
  intros Hdoc. split; eexists; by rewrite (updateVector_stored _ _ _ _ doc).
Qed.

Lemma updateVector_does_not_merge_witness :
  let stored :=
    {| VectorService._id := "id-1";
       VectorService.vector := [1; 2; 3]%float;
       VectorService.metadata :=
         <["updated_at" := VString "2024-01-01T00:00:00.000Z"]>
           (<["user_id" := VString "u1"]> ∅);
       VectorService.similarity := None |} in
  (∃ s',
     Memory.updateVector "2024-06-01T00:00:00.000Z" "id-1"
       {| VectorService.update_vector := Some [4; 5]%float;
          VectorService.update_metadata := None |} {["id-1" := stored]}
     = (Return {| VectorService.Item.id := "id-1";
                  VectorService.Item.vector := [4; 5]%float;
                  VectorService.Item.metadata := VectorService.metadata stored |}, s'))
  ∧ (∃ s',
     Memory.updateVector "2024-06-01T00:00:00.000Z" "id-1"
       {| VectorService.update_vector := None;
          VectorService.update_metadata := Some {["tags" := VArray [VString "a"]]} |}
       {["id-1" := stored]}
     = (Return {| VectorService.Item.id := "id-1";
                  VectorService.Item.vector := [1; 2; 3]%float;
                  VectorService.Item.metadata :=
                    <["updated_at" := VString "2024-06-01T00:00:00.000Z"]>
                      {["tags" := VArray [VString "a"]]} |}, s')).
Proof.
  intros stored.
  apply (updateVector_does_not_merge "2024-06-01T00:00:00.000Z" "id-1"
           {["id-1" := stored]} stored [4; 5]%float {["tags" := VArray [VString "a"]]}).
  apply lookup_singleton_eq.
Defined.

(** C2 (the code at a failing input): a record created with a vector of
    three numbers and then updated with a vector of two numbers alone
    keeps [metadata.dimensions = 3] next to a vector of length two, in
    the returned record and in the store. *)
Theorem updateVector_vector_only_stale_dimensions :
  let data :=
    {| VectorService.data_vector := [1; 2; 3]%float;
       VectorService.data_metadata := {["user_id" := VString "u1"]} |} in
  let update :=
    {| VectorService.update_vector := Some [4; 5]%float;
       VectorService.update_metadata := None |} in
  ∃ created s1 item s2,
    Memory.createVector "id-1" "2024-01-01T00:00:00.000Z" "2024-01-01T00:00:00.000Z"
      data ∅ = (Return created, s1)
    ∧ Memory.updateVector "2024-06-01T00:00:00.000Z" "id-1" update s1 = (Return item, s2)
    ∧ length (VectorService.Item.vector item) = 2
    ∧ VectorService.Item.metadata item !! "dimensions" = Some (VNumber 3)
    ∧ VectorService.item_of <$> (s2 !! "id-1") = Some item.
Proof.
  intros data update.
  destruct (createVector_dimensions "id-1" "2024-01-01T00:00:00.000Z"
              "2024-01-01T00:00:00.000Z" data ∅ (lookup_empty _))
    as (doc & Hcreate & Hvector & Hdim).
  eexists _, _, _, _. split; [exact Hcreate|]. split.
  - apply updateVector_stored. apply lookup_insert_eq.
  - split; [reflexivity|]. split.
    + simpl. rewrite Hdim, Hvector. reflexivity.
    + by rewrite lookup_insert_eq.
Qed.

(** C3 (the code at failing inputs): for an identifier that is not
    stored, the three handlers of [/:id] do not answer 404: the service
    wraps its "Vector not found" error like any backend failure, the
    handlers' comparison with the bare message fails, and the error goes
    to [next], exactly as a backend failure does. *)
Theorem absent_id_reaches_next_like_backend_failure (now id : string)
    (data : VectorService.updateData) (s : Memory.store) :
  s !! id = None →
  Routes.get_id Memory.initialize Memory.findOne id s
  = (Routes.Next "Failed to get vector: Vector not found", s)
  ∧ Routes.put_id Memory.initialize Memory.findOneAndUpdate now id data s
    = (Routes.Next "Failed to update vector: Vector not found", s)
  ∧ Routes.delete_id Memory.initialize Memory.deleteOne id s
    = (Routes.Next "Failed to delete vector: Vector not found", s)
  ∧ Routes.get_id Memory.initialize (λ _, Memory.unavailable "Connection refused") id s
    = (Routes.Next "Failed to get vector: Connection refused", s).
Proof.
  intros Hid.
  unfold Routes.get_id, Routes.put_id, Routes.delete_id,
    VectorService.getVectorById, VectorService.updateVector, VectorService.deleteVector,
    VectorService.rethrow, VectorService.try_catch, VectorService.bind,
    Memory.initialize, Memory.findOne, Memory.findOneAndUpdate, Memory.deleteOne,
    Memory.unavailable, VectorService.ret, VectorService.throw.
  rewrite Hid. repeat split; reflexivity.
Qed.

Lemma absent_id_reaches_next_like_backend_failure_witness :
  Routes.get_id Memory.initialize Memory.findOne "missing" ∅
  = (Routes.Next "Failed to get vector: Vector not found", ∅)
  ∧ Routes.delete_id Memory.initialize Memory.deleteOne "missing" ∅
    = (Routes.Next "Failed to delete vector: Vector not found", ∅).
Proof.
  destruct (absent_id_reaches_next_like_backend_failure "2024-06-01T00:00:00.000Z"
              "missing"
              {| VectorService.update_vector := None;
                 VectorService.update_metadata := None |} ∅ (lookup_empty _))
    as (Hget & _ & Hdelete & _).
  split; [exact Hget|exact Hdelete].
Defined.

(** * Further properties of the code *)

(** ** Binary64 arithmetic: signs, differences and quotients *)

Section FloatArithmetic.

Lemma iter_pos_preserves {A : Type} (P : A → Prop) (f : A → A) (p : positive) (x : A) :
  (∀ y, P y → P (f y)) → P x → P (SpecFloat.iter_pos f p x).
Proof.
  intros Hf. revert x. induction p as [p IH|p IH|]; intros x Hx; simpl; auto.
Qed.

Lemma shr_1_nonneg mrs : (0 ≤ shr_m mrs)%Z → (0 ≤ shr_m (shr_1 mrs))%Z.
Proof. destruct mrs as [[|[p|p|]|[p|p|]] r s]; simpl; lia. Qed.

Lemma shr_fexp_nonneg prec emax m e l :
  (0 ≤ m)%Z → (0 ≤ shr_m (shr_fexp prec emax m e l).1)%Z.
Proof.
  intros Hm. unfold shr_fexp, shr.
  assert (H0 : (0 ≤ shr_m (shr_record_of_loc m l))%Z).
  { destruct l as [|[]]; simpl; lia. }
  destruct (_ - e)%Z; simpl; try done.
  by apply (iter_pos_preserves (λ mrs, (0 ≤ shr_m mrs)%Z)); [apply shr_1_nonneg|].
Qed.

Lemma round_nearest_even_nonneg m l : (0 ≤ m)%Z → (0 ≤ round_nearest_even m l)%Z.
Proof. intros Hm. destruct l as [|[]]; simpl; try lia. destruct (Z.even m); lia. Qed.

Lemma binary_round_aux_signed prec emax s m e l :
  (0 ≤ m)%Z → Spec.SFsigned s (binary_round_aux prec emax s m e l).
Proof.
  intros Hm. unfold binary_round_aux.
  pose proof (shr_fexp_nonneg prec emax m e l Hm) as H1.
  destruct (shr_fexp prec emax m e l) as [mrs' e'].
  pose proof (shr_fexp_nonneg prec emax
    (round_nearest_even (shr_m mrs') (loc_of_shr_record mrs')) e' loc_Exact
    (round_nearest_even_nonneg _ _ H1)) as H2.
  destruct (shr_fexp prec emax _ e' loc_Exact) as [mrs'' e''].
  simpl in H2. destruct (shr_m mrs''); simpl; try done; try lia.
  by destruct (_ <=? _)%Z.
Qed.

Lemma SFsigned_not_nan s x : Spec.SFsigned s x → x ≠ S754_nan.
Proof. by destruct x. Qed.

Lemma square_non_negative x : isNaN x = false → Spec.non_negative (x * x).
Proof.
  rewrite isNaN_spec. unfold Spec.non_negative. rewrite FloatAxioms.mul_spec.
  destruct (Prim2SF x) as [s|s| |s m e]; intros Hx; simpl; try done;
    try by destruct s.
  unfold SF64mul, SFmul. replace (xorb s s) with false by by destruct s.
  apply binary_round_aux_signed. lia.
Qed.

Lemma binary_round_signed prec emax s m e : Spec.SFsigned s (binary_round prec emax s m e).
Proof.
  unfold binary_round. destruct (shl_align _ _ _) as [mz ez].
  apply binary_round_aux_signed. lia.
Qed.

Lemma add_non_negative x y : Spec.non_negative x → Spec.non_negative y → Spec.non_negative (x + y).
Proof.
  unfold Spec.non_negative. rewrite FloatAxioms.add_spec.
  destruct (Prim2SF x) as [sx|sx| |sx mx ex], (Prim2SF y) as [sy|sy| |sy my ey];
    simpl; try done; intros -> ->; try done.
  unfold SF64add, SFadd. simpl.
  destruct (shl_align mx ex _) as [a ?], (shl_align my ey _) as [b ?]. simpl.
  apply binary_round_signed.
Qed.

Lemma sqrt_non_negative x : Spec.non_negative x → Spec.non_negative (PrimFloat.sqrt x).
Proof.
  unfold Spec.non_negative. rewrite FloatAxioms.sqrt_spec.
  destruct (Prim2SF x) as [sx|sx| |sx mx ex]; simpl; try done; intros ->; try done.
  unfold SF64sqrt, SFsqrt.
  destruct (SFsqrt_core_binary prec emax (Z.pos mx) ex) as [[mz ez] lz] eqn:Hcore.
  apply binary_round_aux_signed.
  unfold SFsqrt_core_binary in Hcore.
  set (m' := match _ with Z.pos _ => _ | _ => _ end) in Hcore.
  assert (Hm' : (0 ≤ m')%Z).
  { subst m'. destruct (_ - _)%Z; try lia. apply Z.shiftl_nonneg. lia. }
  pose proof (Z.sqrtrem_spec m' Hm') as Hspec.
  destruct (Z.sqrtrem m') as [q r]. injection Hcore as <- _ _. lia.
Qed.

Lemma non_negative_spec x : Spec.non_negative x → isNaN x = false ∧ PrimFloat.leb 0 x = true.
Proof.
  unfold Spec.non_negative. intros Hx. split.
  - apply isNaN_spec. by eapply SFsigned_not_nan.
  - rewrite FloatAxioms.leb_spec. change (Prim2SF 0) with (S754_zero false).
    destruct (Prim2SF x) as [sx|sx| |sx mx ex]; simpl in *; try done; by subst.
Qed.

Lemma mul_comm x y : (x * y = y * x)%float.
Proof.
  apply Prim2SF_inj. rewrite !FloatAxioms.mul_spec. unfold SF64mul, SFmul.
  destruct (Prim2SF x) as [sx|sx| |sx mx ex], (Prim2SF y) as [sy|sy| |sy my ey];
    try done; rewrite ?(xorb_comm sx sy); try done.
  by rewrite (Pos.mul_comm mx my), (Z.add_comm ex ey).
Qed.

(** the difference of two finite numbers *)
Lemma binary_normalize_not_nan prec emax m e : binary_normalize prec emax m e false ≠ S754_nan.
Proof.
  destruct m; simpl; try done; eapply SFsigned_not_nan, binary_round_signed.
Qed.

Lemma sub_finite_not_NaN x y : isFinite x = true → isFinite y = true → isNaN (x - y) = false.
Proof.
  rewrite !isFinite_spec, isNaN_spec, FloatAxioms.sub_spec. unfold SF64sub, SFsub.
  intros [[sx ->]|(sx&mx&ex&->)] [[sy ->]|(sy&my&ey&->)]; try done.
  - by destruct sx, sy.
  - apply binary_normalize_not_nan.
Qed.

Lemma sub_self x : isFinite x = true → (x - x = 0)%float.
Proof.
  rewrite isFinite_spec. intros Hx. apply Prim2SF_inj.
  rewrite FloatAxioms.sub_spec. change (Prim2SF 0) with (S754_zero false).
  unfold SF64sub, SFsub.
  destruct Hx as [[sx ->]|(sx&mx&ex&->)]; [by destruct sx|].
  by rewrite Z.sub_diag.
Qed.

Lemma binary_round_aux_opp prec emax s m e l :
  binary_round_aux prec emax (negb s) m e l = SFopp (binary_round_aux prec emax s m e l).
Proof.
  unfold binary_round_aux.
  destruct (shr_fexp prec emax m e l) as [mrs' e'].
  destruct (shr_fexp prec emax _ e' loc_Exact) as [mrs'' e''].
  destruct (shr_m mrs''); try done. by destruct (_ <=? _)%Z.
Qed.

Lemma SFmul_opp prec emax d : SFmul prec emax (SFopp d) (SFopp d) = SFmul prec emax d d.
Proof. destruct d as [s|s| |s m e]; simpl; try done; by destruct s. Qed.

Lemma SFsub_swap prec emax x y :
  SFsub prec emax y x = SFopp (SFsub prec emax x y)
  ∨ (SFsub prec emax y x = SFsub prec emax x y).
Proof.
  destruct x as [sx|sx| |sx mx ex], y as [sy|sy| |sy my ey]; simpl; auto;
    try (destruct sx, sy; simpl; auto; fail).
  rewrite (Z.min_comm ey ex).
  set (A := cond_Zopp sx _). set (B := cond_Zopp sy _).
  replace (B - A)%Z with (- (A - B))%Z by lia.
  clearbody A B.
  destruct (A - B)%Z as [|p|p]; simpl; auto; left; unfold binary_round;
    destruct (shl_align p _ _) as [mz ez].
  - apply (binary_round_aux_opp prec emax false).
  - rewrite <- (binary_round_aux_opp prec emax true). done.
Qed.

Lemma squared_difference_swap x y : ((x - y) * (x - y) = (y - x) * (y - x))%float.
Proof.
  apply Prim2SF_inj. rewrite !FloatAxioms.mul_spec, !FloatAxioms.sub_spec.
  unfold SF64mul, SF64sub.
  destruct (SFsub_swap prec emax (Prim2SF x) (Prim2SF y)) as [-> | ->]; [|done].
  by rewrite SFmul_opp.
Qed.

Lemma div_not_NaN x y :
  isFinite x = true → Spec.non_negative y → strict_eq y 0 = false → isNaN (x / y) = false.
Proof.
  rewrite isFinite_spec, isNaN_spec, FloatAxioms.div_spec. unfold Spec.non_negative.
  intros Hx Hy Hz.
  assert (Hnz : ∀ s, Prim2SF y ≠ S754_zero s).
  { intros s Hs. assert (strict_eq y 0 = true) by (apply strict_eq_zero_spec; eauto).
    congruence. }
  unfold SF64div, SFdiv.
  destruct (Prim2SF y) as [sy|sy| |sy my ey]; simpl in Hy; try done.
  - by destruct (Hnz sy).
  - by destruct Hx as [[sx ->]|(sx&mx&ex&->)].
  - destruct Hx as [[sx ->]|(sx&mx&ex&->)]; [done|].
    destruct (SFdiv_core_binary prec emax (Z.pos mx) ex (Z.pos my) ey) as [[mz ez] lz] eqn:Hcore.
    eapply SFsigned_not_nan, binary_round_aux_signed.
    unfold SFdiv_core_binary in Hcore.
    set (m' := match _ with Z.pos _ => _ | _ => _ end) in Hcore.
    assert (Hm' : (0 ≤ m')%Z).
    { subst m'. destruct (_ - _ - _)%Z; try lia. apply Z.shiftl_nonneg. lia. }
    pose proof (Z.div_pos m' (Z.pos my) Hm' ltac:(lia)) as Hq.
    unfold Z.div in Hq.
    destruct (Z.div_eucl m' (Z.pos my)) as [q r]. injection Hcore as <- _ _. done.
Qed.

Lemma isFinite_not_NaN x : isFinite x = true → isNaN x = false.
Proof.
  unfold isFinite, is_finite, isNaN. intros H.
  apply negb_true_iff, orb_false_iff in H as [H _]. exact H.
Qed.

Lemma add_zero_zero : (0 + 0 = 0)%float.
Proof. reflexivity. Qed.

End FloatArithmetic.

(** ** [euclideanDistance], [magnitude], [dotProduct], [normalizeVector] *)

Section Distances.

Import VectorUtils.

(** A loop over the indices of two arrays of equal length is a fold over
    their pairs; so is a [reduce] over one that reads the other by
    index. *)
Lemma for_range_zip {T : Type} (g : T → float → float → T)
    (a b restA restB : list float) (i : nat) (s : T) :
  length restA = length restB →
  (∀ k, k < length restA →
     get a (i + k) = nth k restA nan ∧ get b (i + k) = nth k restB nan) →
  for_range i (length restA) (λ i s, g s (get a i) (get b i)) s
  = fold_left (λ s p, g s p.1 p.2) (zip restA restB) s.
Proof.
  revert restB i s.
  induction restA as [|x restA IH]; intros [|y restB] i s Hlen Hget;
    try discriminate; [done|].
  simpl. destruct (Hget 0) as [Ha Hb]; [simpl; lia|].
  rewrite Nat.add_0_r in Ha, Hb. simpl in Ha, Hb. rewrite Ha, Hb.
  apply IH; [by injection Hlen|].
  intros k Hk. specialize (Hget (S k)). simpl in Hget.
  replace (S i + k) with (i + S k) by lia. apply Hget. lia.
Qed.

Lemma reduce_from_zip {T : Type} (g : T → float → float → T)
    (b restA restB : list float) (i : nat) (s : T) :
  length restA = length restB →
  (∀ k, k < length restA → get b (i + k) = nth k restB nan) →
  reduce_from i (λ s val i, g s val (get b i)) restA s
  = fold_left (λ s p, g s p.1 p.2) (zip restA restB) s.
Proof.
  revert restB i s.
  induction restA as [|x restA IH]; intros [|y restB] i s Hlen Hget;
    try discriminate; [done|].
  simpl. pose proof (Hget 0 ltac:(simpl; lia)) as Hb.
  rewrite Nat.add_0_r in Hb. simpl in Hb. rewrite Hb.
  apply IH; [by injection Hlen|].
  intros k Hk. specialize (Hget (S k)). simpl in Hget.
  replace (S i + k) with (i + S k) by lia. apply Hget. lia.
Qed.

Lemma euclideanDistance_equal_length (vectorA vectorB : list float) :
  length vectorA = length vectorB →
  euclideanDistance vectorA vectorB
  = Return (PrimFloat.sqrt
      (fold_left (λ sum p, (sum + (p.1 - p.2) * (p.1 - p.2))%float)
         (zip vectorA vectorB) 0%float)).
Proof.
  intros Hlen. unfold euclideanDistance.
  rewrite Hlen, Nat.eqb_refl. simpl negb. cbv iota. rewrite <- Hlen.
  by rewrite (for_range_zip (λ sum x y, (sum + (x - y) * (x - y))%float)
                vectorA vectorB vectorA vectorB 0).
Qed.

Lemma dotProduct_equal_length (vectorA vectorB : list float) :
  length vectorA = length vectorB →
  dotProduct vectorA vectorB
  = Return (fold_left (λ sum p, (sum + p.1 * p.2)%float) (zip vectorA vectorB) 0%float).
Proof.
  intros Hlen. unfold dotProduct, reduce.
  rewrite Hlen, Nat.eqb_refl. simpl negb. cbv iota.
  by rewrite (reduce_from_zip (λ sum x y, (sum + x * y)%float) vectorB vectorA vectorB 0).
Qed.

Lemma fold_zip_swap (g : float → float → float) (a b : list float) (acc : float) :
  (∀ x y, g x y = g y x) →
  fold_left (λ sum p, (sum + g p.1 p.2)%float) (zip a b) acc
  = fold_left (λ sum p, (sum + g p.1 p.2)%float) (zip b a) acc.
Proof.
  intros Hg. revert b acc.
  induction a as [|x a IH]; intros [|y b] acc; simpl; try done.
  rewrite (Hg x y). apply IH.
Qed.

Lemma fold_zip_diag {T : Type} (g : T → float → float → T) (a : list float) (acc : T) :
  fold_left (λ s p, g s p.1 p.2) (zip a a) acc = fold_left (λ s x, g s x x) a acc.
Proof. revert acc. induction a as [|x a IH]; intros acc; simpl; [done|apply IH]. Qed.

(** Sums of squares of numbers that are not [NaN] are non-negative. *)
Lemma sum_of_squares_non_negative (xs : list float) (acc : float) :
  Spec.non_negative acc → Spec.no_NaN xs →
  Spec.non_negative (fold_left (λ sum val, (sum + val * val)%float) xs acc).
Proof.
  revert acc. induction xs as [|x xs IH]; intros acc Hacc Hxs; simpl; [done|].
  apply Forall_cons in Hxs as [Hx Hxs].
  apply IH; [|done]. apply add_non_negative; [done|by apply square_non_negative].
Qed.

Lemma magnitude_non_negative (vector : list float) :
  Spec.no_NaN vector → Spec.non_negative (magnitude vector).
Proof.
  intros Hv. unfold magnitude. rewrite reduce_fold.
  apply sqrt_non_negative, sum_of_squares_non_negative; done.
Qed.

Lemma finite_no_NaN (vector : list float) : Spec.finite vector → Spec.no_NaN vector.
Proof.
  intros Hv. eapply Forall_impl; [exact Hv|]. intros x. apply isFinite_not_NaN.
Qed.

End Distances.

(** X1: [euclideanDistance] is symmetric in its two arguments, for all
    arrays of numbers (when the lengths differ both calls fail with the
    same error). *)
Theorem euclideanDistance_symmetric (vectorA vectorB : list float) :
  VectorUtils.euclideanDistance vectorA vectorB
  = VectorUtils.euclideanDistance vectorB vectorA.
Proof.
  destruct (decide (length vectorA = length vectorB)) as [Hlen|Hlen].
  - rewrite !euclideanDistance_equal_length by done. do 2 f_equal.
    apply (fold_zip_swap (λ x y, ((x - y) * (x - y))%float)).
    intros x y. apply squared_difference_swap.
  - unfold VectorUtils.euclideanDistance.
    rewrite (proj2 (Nat.eqb_neq _ _) Hlen).
    by rewrite (proj2 (Nat.eqb_neq (length vectorB) (length vectorA))).
Qed.

(** X2: the distance of a vector of finite numbers to itself is exactly
    [0]. *)
Theorem euclideanDistance_self (vector : list float) :
  Spec.finite vector →
  VectorUtils.euclideanDistance vector vector = Return 0%float.
Proof.
  intros Hfinite. rewrite euclideanDistance_equal_length by done.
  rewrite (fold_zip_diag (λ sum x y, (sum + (x - y) * (x - y))%float)).
  assert (Hsum : fold_left (λ sum x, (sum + (x - x) * (x - x))%float) vector 0%float
                 = 0%float).
  { induction Hfinite as [|x xs Hx _ IH]; simpl; [done|].
    rewrite (sub_self x Hx). exact IH. }
  rewrite Hsum. reflexivity.
Qed.

Lemma euclideanDistance_self_witness :
  VectorUtils.euclideanDistance [1; 2; 3]%float [1; 2; 3]%float = Return 0%float.
Proof. apply (euclideanDistance_self [1; 2; 3]%float). repeat constructor. Defined.

(** X3: [euclideanDistance] fails with the dimension error exactly when
    the lengths differ, and for finite vectors of equal length it
    returns a number that is not [NaN] and not below [0]. *)
Theorem euclideanDistance_total_on_equal_length (vectorA vectorB : list float) :
  (length vectorA ≠ length vectorB ↔
     VectorUtils.euclideanDistance vectorA vectorB = Throw VectorUtils.DimensionMismatch)
  ∧ (length vectorA = length vectorB → Spec.finite vectorA → Spec.finite vectorB →
     ∃ d, VectorUtils.euclideanDistance vectorA vectorB = Return d
          ∧ isNaN d = false ∧ PrimFloat.leb 0 d = true).
Proof.
  split.
  - split.
    + intros Hlen. unfold VectorUtils.euclideanDistance.
      by rewrite (proj2 (Nat.eqb_neq _ _) Hlen).
    + intros Hthrow Hlen. by rewrite euclideanDistance_equal_length in Hthrow.
  - intros Hlen Ha Hb. eexists. split; [by apply euclideanDistance_equal_length|].
    apply non_negative_spec, sqrt_non_negative.
    assert (Hacc : Spec.non_negative 0) by done.
    revert Hacc. generalize 0%float as acc.
    revert vectorB Hlen Hb.
    induction Ha as [|x xs Hx _ IH]; intros [|y ys] Hlen Hys acc Hacc;
      try discriminate; simpl; [done|].
    apply Forall_cons in Hys as [Hy Hys].
    apply IH; [by injection Hlen|done|].
    apply add_non_negative; [done|].
    apply square_non_negative. by apply sub_finite_not_NaN.
Qed.

Lemma euclideanDistance_total_on_equal_length_witness :
  VectorUtils.euclideanDistance [1; 2]%float [1; 2; 3]%float
  = Throw VectorUtils.DimensionMismatch
  ∧ ∃ d, VectorUtils.euclideanDistance [0; 0; 0]%float [3; 4; 0]%float = Return d
         ∧ isNaN d = false ∧ PrimFloat.leb 0 d = true.
Proof.
  split.
  - apply (proj1 (euclideanDistance_total_on_equal_length [1; 2]%float [1; 2; 3]%float)).
    simpl. lia.
  - apply (proj2 (euclideanDistance_total_on_equal_length [0; 0; 0]%float [3; 4; 0]%float));
      [reflexivity|repeat constructor|repeat constructor].
Defined.

(** X4: the magnitude of a vector without [NaN] is a number that is not
    [NaN] and not below [0] (it is [Infinity] when the squares
    overflow), and it is the square root of the dot product of the
    vector with itself. *)
Theorem magnitude_of_vector (vector : list float) :
  Spec.no_NaN vector →
  isNaN (VectorUtils.magnitude vector) = false
  ∧ PrimFloat.leb 0 (VectorUtils.magnitude vector) = true
  ∧ ∃ dot, VectorUtils.dotProduct vector vector = Return dot
           ∧ VectorUtils.magnitude vector = PrimFloat.sqrt dot.
Proof.
  intros Hv.
  destruct (non_negative_spec _ (magnitude_non_negative vector Hv)) as [Hnan Hle].
  split; [done|]. split; [done|].
  eexists. split; [by apply dotProduct_equal_length|].
  unfold VectorUtils.magnitude. rewrite reduce_fold.
  by rewrite (fold_zip_diag (λ sum x y, (sum + x * y)%float)).
Qed.

Lemma magnitude_of_vector_witness :
  isNaN (VectorUtils.magnitude [3; 4; 0]%float) = false
  ∧ PrimFloat.leb 0 (VectorUtils.magnitude [3; 4; 0]%float) = true
  ∧ ∃ dot, VectorUtils.dotProduct [3; 4; 0]%float [3; 4; 0]%float = Return dot
           ∧ VectorUtils.magnitude [3; 4; 0]%float = PrimFloat.sqrt dot.
Proof. apply (magnitude_of_vector [3; 4; 0]%float). repeat constructor. Defined.

(** X5: [dotProduct] and [cosineSimilarity] are symmetric in their two
    arguments, for all arrays of numbers. *)
Theorem dotProduct_cosineSimilarity_symmetric (vectorA vectorB : list float) :
  VectorUtils.dotProduct vectorA vectorB = VectorUtils.dotProduct vectorB vectorA
  ∧ VectorUtils.cosineSimilarity vectorA vectorB
    = VectorUtils.cosineSimilarity vectorB vectorA.
Proof.
  destruct (decide (length vectorA = length vectorB)) as [Hlen|Hlen].
  - assert (Hdot : VectorUtils.dotProduct vectorA vectorB
                   = VectorUtils.dotProduct vectorB vectorA).
    { rewrite !dotProduct_equal_length by done. f_equal.
      apply (fold_zip_swap PrimFloat.mul). apply mul_comm. }
    split; [done|].
    rewrite !cosineSimilarity_equal_length by done. cbv zeta.
    rewrite (mul_comm (VectorUtils.magnitude vectorB)).
    unfold VectorUtils.dotProduct in Hdot.
    rewrite Hlen, Nat.eqb_refl in Hdot. simpl in Hdot. injection Hdot as ->. done.
  - unfold VectorUtils.dotProduct, VectorUtils.cosineSimilarity.
    rewrite (proj2 (Nat.eqb_neq _ _) Hlen).
    by rewrite (proj2 (Nat.eqb_neq (length vectorB) (length vectorA))).
Qed.

(** ** [normalizeVector] *)

Section Normalize.

Import VectorUtils.

Lemma normalizeVector_cases (vector : list float) :
  normalizeVector vector
  = if strict_eq (magnitude vector) 0 then replicate (length vector) 0%float
    else (λ val, (val / magnitude vector)%float) <$> vector.
Proof.
  unfold normalizeVector, magnitude. destruct (strict_eq _ _); [done|apply map_unary].
Qed.

(** Squares of zeros of either sign sum to [+0]. *)
Lemma sum_of_zero_squares (xs : list float) :
  Forall (λ x, strict_eq x 0 = true) xs →
  fold_left (λ sum val, (sum + val * val)%float) xs 0%float = 0%float.
Proof.
  induction 1 as [|x xs Hx _ IH]; simpl; [done|].
  replace (0 + x * x)%float with 0%float; [exact IH|].
  apply strict_eq_zero_spec in Hx as [s Hs].
  apply Prim2SF_inj. rewrite FloatAxioms.add_spec, FloatAxioms.mul_spec, Hs.
  by destruct s.
Qed.

End Normalize.

(** X6: [normalizeVector] keeps the length of its argument, and for a
    vector of finite numbers no element of the result is [NaN] (a zero
    magnitude gives zeros, an overflowing magnitude gives zeros too). *)
Theorem normalizeVector_length_no_NaN (vector : list float) :
  length (VectorUtils.normalizeVector vector) = length vector
  ∧ (Spec.finite vector → Spec.no_NaN (VectorUtils.normalizeVector vector)).
Proof.
  rewrite normalizeVector_cases. split.
  - destruct (strict_eq _ _); [apply length_replicate|apply length_fmap].
  - intros Hfinite. destruct (strict_eq _ _) eqn:Hzero.
    + apply Forall_replicate. reflexivity.
    + apply Forall_fmap. eapply Forall_impl; [exact Hfinite|].
      intros x Hx. simpl. apply div_not_NaN; [done| |done].
      by apply magnitude_non_negative, finite_no_NaN.
Qed.

Lemma normalizeVector_length_no_NaN_witness :
  length (VectorUtils.normalizeVector [3; 4; 0]%float) = 3
  ∧ Spec.no_NaN (VectorUtils.normalizeVector [3; 4; 0]%float).
Proof.
  destruct (normalizeVector_length_no_NaN [3; 4; 0]%float) as [Hlen Hnan].
  split; [exact Hlen|]. apply Hnan. repeat constructor.
Defined.

(** X7: a vector whose elements are all zero ([+0] or [-0]) is
    normalized to as many [+0]: nothing is divided by the zero
    magnitude. *)
Theorem normalizeVector_zero_vector (vector : list float) :
  Forall (λ x, strict_eq x 0 = true) vector →
  VectorUtils.normalizeVector vector = replicate (length vector) 0%float.
Proof.
  intros Hzero. rewrite normalizeVector_cases.
  unfold VectorUtils.magnitude. rewrite reduce_fold, sum_of_zero_squares by done.
  reflexivity.
Qed.

Lemma normalizeVector_zero_vector_witness :
  VectorUtils.normalizeVector [0; -0; 0]%float = [0; 0; 0]%float.
Proof. apply (normalizeVector_zero_vector [0; -0; 0]%float). repeat constructor. Defined.

(** ** [calculateCentroid] *)

Section Centroid.

Import VectorUtils.

(** One vector adds its [j]-th coordinate to the [j]-th sum, for every
    [j] of the range. *)
Lemma add_vector_loop (vector : list float) (n start : nat) (centroid : list float) (j : nat) :
  for_range start n
    (λ i centroid, alter (λ sum, (sum + get vector i)%float) i centroid) centroid !! j
  = if decide (start ≤ j < start + n)
    then (λ sum, (sum + get vector j)%float) <$> centroid !! j
    else centroid !! j.
Proof.
  revert start centroid. induction n as [|n IH]; intros start centroid; simpl.
  { case_decide; [lia|done]. }
  rewrite IH. destruct (decide (j = start)) as [->|Hne].
  - rewrite list_lookup_alter_eq. repeat case_decide; try lia; done.
  - rewrite list_lookup_alter_ne by done. repeat case_decide; try lia; done.
Qed.

Lemma add_vector_length (dimensions : nat) (centroid vector : list float) :
  length (add_vector dimensions centroid vector) = length centroid.
Proof.
  unfold add_vector. generalize 0 as start. revert centroid.
  induction dimensions as [|n IH]; intros centroid start; simpl; [done|].
  rewrite IH. apply length_alter.
Qed.

Lemma add_vectors (dimensions : nat) (vectors : list (list float))
    (centroid : list float) (j : nat) (sum0 : float) :
  j < dimensions → centroid !! j = Some sum0 →
  fold_left (add_vector dimensions) vectors centroid !! j
  = Some (fold_left PrimFloat.add (Spec.column j vectors) sum0).
Proof.
  intros Hj. revert centroid sum0.
  induction vectors as [|vector vectors IH]; intros centroid sum0 Hsum; simpl; [done|].
  apply IH. unfold add_vector.
  rewrite add_vector_loop, decide_True by lia. by rewrite Hsum.
Qed.

Lemma add_vectors_length (dimensions : nat) (vectors : list (list float))
    (centroid : list float) :
  length (fold_left (add_vector dimensions) vectors centroid) = length centroid.
Proof.
  revert centroid. induction vectors as [|vector vectors IH]; intros centroid; simpl;
    [done|]. rewrite IH. apply add_vector_length.
Qed.

Lemma calculateCentroid_returns (first : list float) (rest : list (list float)) :
  Forall (λ vector, length vector = length first) rest →
  calculateCentroid (first :: rest)
  = Return ((λ val, (val / number_of_nat (length (first :: rest)))%float)
            <$> fold_left (add_vector (length first)) (first :: rest)
                  (replicate (length first) 0%float)).
Proof.
  intros Hlen. unfold calculateCentroid.
  assert (Hall : forallb (λ v, length v =? length first) (first :: rest) = true).
  { apply forallb_forall. intros v Hv. apply Nat.eqb_eq.
    destruct Hv as [<-|Hv]; [done|].
    rewrite Forall_forall in Hlen. by apply Hlen, list_elem_of_In. }
  rewrite Hall. simpl negb. cbv iota. by rewrite map_unary.
Qed.

Lemma calculateCentroid_coordinates (first : list float) (rest : list (list float)) :
  Forall (λ vector, length vector = length first) rest →
  ∃ centroid,
    calculateCentroid (first :: rest) = Return centroid
    ∧ length centroid = length first
    ∧ ∀ i, i < length first →
        centroid !! i = Some (Spec.arithmetic_mean (Spec.column i (first :: rest))).
Proof.
  intros Hlen. eexists. split; [by apply calculateCentroid_returns|]. split.
  - by rewrite length_fmap, add_vectors_length, length_replicate.
  - intros i Hi. rewrite list_lookup_fmap.
    rewrite (add_vectors _ _ _ i 0%float) by (done || by apply lookup_replicate_2).
    unfold Spec.arithmetic_mean, Spec.sum, Spec.column. by rewrite length_fmap.
Qed.

End Centroid.

(** X8: [calculateCentroid] fails with its empty-set error exactly on the
    empty list, fails with its dimension error exactly when some vector
    has another length than the first, and returns otherwise. *)
Theorem calculateCentroid_errors (vectors : list (list float)) :
  (VectorUtils.calculateCentroid vectors = Throw VectorUtils.EmptySet ↔ vectors = [])
  ∧ (VectorUtils.calculateCentroid vectors = Throw VectorUtils.CentroidMismatch ↔
     ∃ first rest, vectors = first :: rest
       ∧ ¬ Forall (λ vector, length vector = length first) rest)
  ∧ ((∃ centroid, VectorUtils.calculateCentroid vectors = Return centroid) ↔
     ∃ first rest, vectors = first :: rest
       ∧ Forall (λ vector, length vector = length first) rest).
Proof.
  destruct vectors as [|first rest].
  { split; [done|]. split; split; try done.
    - by intros (? & ? & ? & _).
    - by intros [? ?].
    - by intros (? & ? & ? & _). }
  destruct (decide (Forall (λ vector, length vector = length first) rest)) as [Hall|Hnot].
  - rewrite calculateCentroid_returns by done.
    split; [done|]. split; split; try done.
    + intros (f & r & [= <- <-] & Hn). done.
    + eauto.
    + eauto.
  - assert (Hthrow : VectorUtils.calculateCentroid (first :: rest)
                     = Throw VectorUtils.CentroidMismatch).
    { unfold VectorUtils.calculateCentroid.
      destruct (forallb _ (first :: rest)) eqn:Hb; [|done].
      exfalso. apply Hnot. rewrite forallb_forall in Hb.
      apply Forall_forall. intros v Hv. apply Nat.eqb_eq, Hb. right.
      by apply list_elem_of_In. }
    rewrite Hthrow. split; [done|]. split; split; try done.
    + eauto.
    + by intros [? ?].
    + intros (f & r & [= <- <-] & Hall). done.
Qed.

(** X9: for a non-empty list of vectors of equal length,
    [calculateCentroid] returns a vector of that length whose [i]-th
    coordinate is the arithmetic mean of the [i]-th coordinates (sum in
    input order, divided by the number of vectors). *)
Theorem calculateCentroid_is_mean (first : list float) (rest : list (list float)) :
  Forall (λ vector, length vector = length first) rest →
  ∃ centroid,
    VectorUtils.calculateCentroid (first :: rest) = Return centroid
    ∧ length centroid = length first
    ∧ ∀ i, i < length first →
        centroid !! i = Some (Spec.arithmetic_mean (Spec.column i (first :: rest))).
Proof. apply calculateCentroid_coordinates. Qed.

Lemma calculateCentroid_is_mean_witness :
  ∃ centroid,
    VectorUtils.calculateCentroid [[0; 0]; [6; 0]; [0; 6]]%float = Return centroid
    ∧ length centroid = 2
    ∧ ∀ i, i < 2 →
        centroid !! i
        = Some (Spec.arithmetic_mean (Spec.column i [[0; 0]; [6; 0]; [0; 6]]%float)).
Proof.
  apply (calculateCentroid_is_mean [0; 0]%float [[6; 0]; [0; 6]]%float).
  repeat constructor.
Defined.

Section StatisticsShape.

Import VectorUtils.

Lemma collect_dimension_length (vector : list float) (n start : nat)
    (dimension_stats : list dimension_stat) (dimensionValues : list (list float)) :
  length (for_range start n (collect_dimension vector)
            (dimension_stats, dimensionValues)).1 = length dimension_stats
  ∧ length (for_range start n (collect_dimension vector)
              (dimension_stats, dimensionValues)).2 = length dimensionValues.
Proof.
  revert start dimension_stats dimensionValues.
  induction n as [|n IH]; intros start ds dv; simpl; [done|].
  destruct (IH (S start)
              (alter (λ d, set_max (Math_max (max d) (get vector start)) d) start
                 (alter (λ d, set_min (Math_min (min d) (get vector start)) d) start ds))
              (alter (λ values, values ++ [get vector start]) start dv)) as [H1 H2].
  rewrite H1, H2. by rewrite !length_alter.
Qed.

Lemma collect_vectors_length (dimensions : nat) (vectors : list (list float))
    (c : collecting) :
  length (c_dimension_stats (fold_left (collect_vector dimensions) vectors c))
  = length (c_dimension_stats c)
  ∧ length (c_magnitudes (fold_left (collect_vector dimensions) vectors c))
    = length (c_magnitudes c) + length vectors.
Proof.
  revert c. induction vectors as [|vector vectors IH]; intros c; simpl; [lia|].
  destruct (IH (collect_vector dimensions c vector)) as [H1 H2]. rewrite H1, H2.
  unfold collect_vector.
  pose proof (collect_dimension_length vector dimensions 0
                (c_dimension_stats c) (c_dimensionValues c)) as [Hds _].
  destruct (for_range _ _ _ _) as [ds dv]. simpl in *.
  rewrite length_app. simpl. lia.
Qed.

Lemma summarize_dimension_length (dimensionValues : list (list float)) (n start : nat)
    (dimension_stats : list dimension_stat) :
  length (for_range start n (summarize_dimension dimensionValues) dimension_stats)
  = length dimension_stats.
Proof.
  revert start dimension_stats. induction n as [|n IH]; intros start ds; simpl; [done|].
  rewrite IH. unfold summarize_dimension. by rewrite !length_alter.
Qed.

Lemma calculateVectorStatistics_shape (first : list float) (rest : list (list float)) :
  ∃ stats,
    calculateVectorStatistics (first :: rest) = Some stats
    ∧ count stats = S (length rest)
    ∧ dimensions stats = length first
    ∧ length (dimension_stats stats) = length first.
Proof.
  eexists. split; [reflexivity|]. cbn [count dimensions dimension_stats].
  split; [done|]. split; [done|].
  rewrite summarize_dimension_length.
  rewrite (proj1 (collect_vectors_length _ _ _)). simpl. apply length_replicate.
Qed.

End StatisticsShape.

(** X10: on a non-empty list of vectors of equal length the centroid and
    the statistics agree: the coordinates of [calculateCentroid] are the
    [mean] fields of the [dimension_stats] of
    [calculateVectorStatistics], in order. *)
Theorem centroid_is_statistics_mean (first : list float) (rest : list (list float)) :
  Forall (λ vector, length vector = length first) rest →
  ∃ centroid stats,
    VectorUtils.calculateCentroid (first :: rest) = Return centroid
    ∧ VectorUtils.calculateVectorStatistics (first :: rest) = Some stats
    ∧ centroid = VectorUtils.mean <$> VectorUtils.dimension_stats stats.
Proof.
  intros Hlen.
  destruct (calculateCentroid_coordinates first rest Hlen)
    as (centroid & Hc & Hclen & Hci).
  destruct (calculateVectorStatistics_shape first rest) as (stats & Hs & _ & _ & Hslen).
  exists centroid, stats. split; [done|]. split; [done|].
  apply list_eq. intros i. rewrite list_lookup_fmap.
  destruct (decide (i < length first)) as [Hi|Hi].
  - rewrite Hci by done.
    destruct (calculateVectorStatistics_dimension first rest i Hi)
      as (stats' & d & Hs' & _ & _ & Hd & Hmean & _).
    rewrite Hs in Hs'. injection Hs' as <-. rewrite Hd. simpl. by rewrite Hmean.
  - rewrite !lookup_ge_None_2; [done|lia|lia].
Qed.

Lemma centroid_is_statistics_mean_witness :
  ∃ centroid stats,
    VectorUtils.calculateCentroid [[0; 0]; [6; 0]; [0; 6]]%float = Return centroid
    ∧ VectorUtils.calculateVectorStatistics [[0; 0]; [6; 0]; [0; 6]]%float = Some stats
    ∧ centroid = VectorUtils.mean <$> VectorUtils.dimension_stats stats.
Proof.
  apply (centroid_is_statistics_mean [0; 0]%float [[6; 0]; [0; 6]]%float).
  repeat constructor.
Defined.

(** ** More on [calculateVectorStatistics] *)

Section StatisticsMagnitudes.

Import VectorUtils.

Lemma collect_magnitudes (dimensions : nat) (vectors : list (list float)) (c : collecting) :
  let c' := fold_left (collect_vector dimensions) vectors c in
  c_magnitudes c' = c_magnitudes c ++ (magnitude <$> vectors)
  ∧ c_min_magnitude c' = fold_left Math_min (magnitude <$> vectors) (c_min_magnitude c)
  ∧ c_max_magnitude c' = fold_left Math_max (magnitude <$> vectors) (c_max_magnitude c).
Proof.
  revert c. induction vectors as [|vector vectors IH]; intros c; simpl.
  { by rewrite app_nil_r. }
  destruct (IH (collect_vector dimensions c vector)) as (H1 & H2 & H3).
  rewrite H1, H2, H3. unfold collect_vector.
  destruct (for_range _ _ _ _) as [ds dv]. simpl. by rewrite <- app_assoc.
Qed.

(** [NaN] is absorbing for the running extrema and for the sum. *)
Lemma Math_min_NaN_r x : Math_min x nan = nan.
Proof. unfold Math_min. change (isNaN nan) with true. by rewrite orb_true_r. Qed.
Lemma Math_max_NaN_r x : Math_max x nan = nan.
Proof. unfold Math_max. change (isNaN nan) with true. by rewrite orb_true_r. Qed.

Lemma add_NaN_l x : (nan + x = nan)%float.
Proof. apply Prim2SF_inj. rewrite FloatAxioms.add_spec. reflexivity. Qed.
Lemma add_NaN_r x : (x + nan = nan)%float.
Proof.
  apply Prim2SF_inj. rewrite FloatAxioms.add_spec. change (Prim2SF nan) with S754_nan.
  by destruct (Prim2SF x) as [[]|[]| |].
Qed.
Lemma div_NaN_l x : (nan / x = nan)%float.
Proof. apply Prim2SF_inj. rewrite FloatAxioms.div_spec. reflexivity. Qed.

Lemma fold_with_NaN (op : float → float → float) (xs : list float) (acc : float) :
  (∀ x, op nan x = nan) → (∀ x, op x nan = nan) →
  nan ∈ xs → fold_left op xs acc = nan.
Proof.
  intros Hl Hr. revert acc.
  assert (Hnan : ∀ ys, fold_left op ys nan = nan).
  { induction ys as [|y ys IH]; simpl; [done|]. by rewrite Hl. }
  induction xs as [|x xs IH]; intros acc Hin; [by apply elem_of_nil in Hin|].
  simpl. apply elem_of_cons in Hin as [<-|Hin]; [by rewrite Hr|by apply IH].
Qed.

End StatisticsMagnitudes.

(** X11: for every non-empty list of vectors without [NaN] (of any
    lengths), [min_magnitude] and [max_magnitude] are the least and the
    greatest of the vectors' magnitudes and [mean_magnitude] is their
    arithmetic mean. *)
Theorem calculateVectorStatistics_magnitudes (first : list float)
    (rest : list (list float)) :
  Forall Spec.no_NaN (first :: rest) →
  ∃ stats,
    VectorUtils.calculateVectorStatistics (first :: rest) = Some stats
    ∧ Spec.is_minimum (VectorUtils.min_magnitude stats)
        (VectorUtils.magnitude <$> first :: rest)
    ∧ Spec.is_maximum (VectorUtils.max_magnitude stats)
        (VectorUtils.magnitude <$> first :: rest)
    ∧ VectorUtils.mean_magnitude stats
      = Spec.arithmetic_mean (VectorUtils.magnitude <$> first :: rest).
Proof.
  intros Hnan. eexists. split; [reflexivity|].
  cbn [VectorUtils.min_magnitude VectorUtils.max_magnitude VectorUtils.mean_magnitude].
  match goal with
  | |- context [fold_left (VectorUtils.collect_vector ?d) ?vs ?c] =>
      destruct (collect_magnitudes d vs c) as (Hmags & Hmin & Hmax)
  end.
  cbv zeta in Hmags, Hmin, Hmax. rewrite Hmags, Hmin, Hmax.
  cbn [VectorUtils.c_magnitudes VectorUtils.c_min_magnitude VectorUtils.c_max_magnitude].
  rewrite app_nil_l, reduce_fold.
  assert (Hm : Spec.no_NaN (VectorUtils.magnitude <$> first :: rest)).
  { apply Forall_fmap. eapply Forall_impl; [exact Hnan|].
    intros v Hv. simpl. by apply non_negative_spec, magnitude_non_negative. }
  split; [by apply minimum_from_infinity|].
  split; [by apply maximum_from_neg_infinity|]. done.
Qed.

Lemma calculateVectorStatistics_magnitudes_witness :
  ∃ stats,
    VectorUtils.calculateVectorStatistics [[3; 4]; [0; 0]]%float = Some stats
    ∧ Spec.is_minimum (VectorUtils.min_magnitude stats)
        (VectorUtils.magnitude <$> [[3; 4]; [0; 0]]%float)
    ∧ Spec.is_maximum (VectorUtils.max_magnitude stats)
        (VectorUtils.magnitude <$> [[3; 4]; [0; 0]]%float)
    ∧ VectorUtils.mean_magnitude stats
      = Spec.arithmetic_mean (VectorUtils.magnitude <$> [[3; 4]; [0; 0]]%float).
Proof.
  apply (calculateVectorStatistics_magnitudes [3; 4]%float [[0; 0]]%float).
  repeat constructor.
Defined.

(** X12: [calculateVectorStatistics] does not compare lengths: it always
    reports as many [dimension_stats] entries as the first vector has
    coordinates, and when some vector is too short to have a coordinate
    [i] of the first one, the entry [i] has [NaN] as minimum, maximum and
    mean. *)
Theorem calculateVectorStatistics_short_vector (first : list float)
    (rest : list (list float)) (short : list float) (i : nat) :
  short ∈ rest → length short ≤ i → i < length first →
  ∃ stats d,
    VectorUtils.calculateVectorStatistics (first :: rest) = Some stats
    ∧ VectorUtils.dimensions stats = length first
    ∧ length (VectorUtils.dimension_stats stats) = length first
    ∧ VectorUtils.dimension_stats stats !! i = Some d
    ∧ VectorUtils.min d = nan ∧ VectorUtils.max d = nan ∧ VectorUtils.mean d = nan.
Proof.
  intros Hin Hshort Hi.
  destruct (calculateVectorStatistics_dimension first rest i Hi)
    as (stats & d & Hs & _ & _ & Hd & Hmean & _ & Hmin & Hmax).
  destruct (calculateVectorStatistics_shape first rest) as (stats' & Hs' & _ & Hdim & Hlen).
  rewrite Hs in Hs'. injection Hs' as <-.
  exists stats, d. repeat (split; [done|]).
  assert (Hcol : nan ∈ Spec.column i (first :: rest)).
  { unfold Spec.column. apply list_elem_of_fmap. exists short. split.
    - unfold get. by rewrite nth_overflow.
    - by apply elem_of_cons; right. }
  rewrite Hmin, Hmax, Hmean. unfold Spec.arithmetic_mean, Spec.sum.
  rewrite (fold_with_NaN Math_min), (fold_with_NaN Math_max),
    (fold_with_NaN PrimFloat.add);
    auto using Math_min_NaN_r, Math_max_NaN_r, add_NaN_l, add_NaN_r, div_NaN_l.
Qed.

Lemma calculateVectorStatistics_short_vector_witness :
  ∃ stats d,
    VectorUtils.calculateVectorStatistics [[1; 2]; [3]]%float = Some stats
    ∧ VectorUtils.dimensions stats = 2
    ∧ length (VectorUtils.dimension_stats stats) = 2
    ∧ VectorUtils.dimension_stats stats !! 1 = Some d
    ∧ VectorUtils.min d = nan ∧ VectorUtils.max d = nan ∧ VectorUtils.mean d = nan.
Proof.
  apply (calculateVectorStatistics_short_vector [1; 2]%float [[3]]%float [3]%float 1);
    [set_solver|simpl; lia|simpl; lia].
Defined.

(** ** More on [validateVector] and [batchProcess] *)

(** X13: [validateVector] never returns [false]: it returns [true]
    exactly when its argument is a non-empty array of numbers other than
    [NaN], whose length is the expected one (when one is given and is not
    [0]) and does not exceed the maximum ([4096] unless the environment
    sets another non-zero value); in every other case it throws. *)
Theorem validateVector_succeeds_iff (vector : value) (expected env_max : option Z) :
  (VectorUtils.validateVector vector expected env_max = Return true ↔
     ∃ items, vector = VArray items ∧ items ≠ []
       ∧ Forall (λ val, ∃ x, val = VNumber x ∧ isNaN x = false) items
       ∧ (expected = None ∨ expected = Some 0%Z
          ∨ expected = Some (Z.of_nat (length items)))
       ∧ (Z.of_nat (length items) ≤ VectorUtils.maxDimensions env_max)%Z)
  ∧ VectorUtils.validateVector vector expected env_max ≠ Return false.
Proof.
  destruct vector as [| | | | |items]; try (split; [split; [done|]|done];
    by intros (? & ? & _)).
  destruct items as [|val items].
  { split; [split; [done|]|done]. by intros (? & [= <-] & ? & _). }
  unfold VectorUtils.validateVector.
  change (length (val :: items) =? 0)%nat with false. cbv iota zeta.
  destruct (forallb _ (val :: items)) eqn:Hall; cbn [negb].
  - assert (Hnum : Forall (λ val, ∃ x, val = VNumber x ∧ isNaN x = false) (val :: items)).
    { rewrite forallb_forall in Hall. apply Forall_forall. intros v Hv.
      apply list_elem_of_In, Hall in Hv. destruct v; try done.
      eexists. split; [done|]. by apply negb_true_iff. }
    assert (Hmax : ∀ r : outcome bool,
      r = (if (VectorUtils.maxDimensions env_max <? Z.of_nat (length (val :: items)))%Z
           then Throw ("Vector exceeds maximum dimensions: "
                       +:+ pretty (VectorUtils.maxDimensions env_max))
           else Return true) →
      (r = Return true ↔
         (Z.of_nat (length (val :: items)) ≤ VectorUtils.maxDimensions env_max)%Z)
      ∧ r ≠ Return false).
    { intros r ->. destruct (Z.ltb_spec (VectorUtils.maxDimensions env_max)
                               (Z.of_nat (length (val :: items)))); split; try done.
      split; [done|lia]. }
    destruct expected as [n|].
    + destruct (Z.eqb_spec n 0) as [->|Hn0]; cbn [negb andb].
      * destruct (Hmax _ eq_refl) as [Hiff Hne]. split; [|done]. rewrite Hiff. split.
        -- intros Hle. exists (val :: items). eauto 10.
        -- by intros (? & [= <-] & _ & _ & _ & ?).
      * destruct (Z.eqb_spec (Z.of_nat (length (val :: items))) n) as [Hlen|Hlen];
          cbn [negb andb].
        -- destruct (Hmax _ eq_refl) as [Hiff Hne]. split; [|done]. rewrite Hiff. split.
           ++ intros Hle. exists (val :: items). rewrite <- Hlen. eauto 10.
           ++ by intros (? & [= <-] & _ & _ & _ & ?).
        -- split; [|done]. split; [done|].
           intros (? & [= <-] & _ & _ & [?|[?|?]] & _); congruence.
    + destruct (Hmax _ eq_refl) as [Hiff Hne]. split; [|done]. rewrite Hiff. split.
      * intros Hle. exists (val :: items). eauto 10.
      * by intros (? & [= <-] & _ & _ & _ & ?).
  - split; [|done]. split; [done|].
    intros (? & [= <-] & _ & Hnum & _). exfalso.
    assert (forallb (λ val, match val with VNumber x => negb (isNaN x) | _ => false end)
              (val :: items) = true); [|congruence].
    apply forallb_forall. intros v Hv. apply list_elem_of_In in Hv.
    rewrite Forall_forall in Hnum. destruct (Hnum v Hv) as (x & -> & Hx).
    by rewrite Hx.
Qed.

Section BatchProcessIndexed.

Context {A B : Type}.

(** From a chunk boundary, the loop appends the image of the rest of the
    array under the callback, each item with its index inside its
    chunk. *)
Lemma batchProcess_loop_indexed (vectors : list A) (processFn : A → nat → B)
    (size fuel q : nat) (results : list B) :
  1 ≤ size → length vectors - q * size ≤ fuel →
  VectorUtils.batchProcess_loop fuel vectors processFn (Z.of_nat size)
    (Z.of_nat (q * size)) results
  = Some (results
          ++ imap (λ k val, processFn val ((q * size + k) `mod` size))
               (drop (q * size) vectors)).
Proof.
  intros Hsize. revert q results.
  induction fuel as [|fuel IH]; intros q results Hfuel; simpl;
    destruct (Z.ltb_spec (Z.of_nat (q * size)) (Z.of_nat (length vectors))) as [Hlt|Hge];
    try lia.
  - rewrite drop_ge by lia. by rewrite app_nil_r.
  - replace (Z.of_nat (q * size) + Z.of_nat size)%Z with (Z.of_nat (S q * size)) by lia.
    rewrite IH by (simpl; lia). f_equal. rewrite <- app_assoc. f_equal.
    replace (Z.of_nat (S q * size)) with (Z.of_nat (q * size) + Z.of_nat size)%Z by lia.
    rewrite slice_chunk by lia. rewrite !Nat2Z.id.
    symmetry. etrans.
    { apply (f_equal (imap _)). symmetry. apply (take_drop size). }
    rewrite imap_app, drop_drop. f_equal.
    + unfold Js.map. apply imap_ext. intros k val Hk. simpl.
      apply lookup_lt_Some in Hk. rewrite length_take in Hk.
      rewrite Nat.add_comm, Nat.Div0.mod_add. by rewrite Nat.mod_small by lia.
    + replace (S q * size) with (q * size + size) by lia.
      destruct (decide (size ≤ length (drop (q * size) vectors))) as [Hfull|Hshort].
      * rewrite length_take, Nat.min_l by done.
        apply imap_ext. intros k val _. simpl. f_equal. f_equal. lia.
      * rewrite length_drop in Hshort.
        assert (Hend : length vectors ≤ q * size + size) by lia.
        by rewrite (drop_ge vectors (q * size + size) Hend).
  - rewrite drop_ge by lia. by rewrite app_nil_r.
Qed.

End BatchProcessIndexed.

(** X14: for every callback, also one that reads its second argument,
    and every chunk size of at least [1], [batchProcess] returns one
    result per item, in order, and the [k]-th result is the callback
    applied to the [k]-th item and to [k mod batchSize], the item's index
    inside its chunk. *)
Theorem batchProcess_indexed {A B : Type} (vectors : list A) (processFn : A → nat → B)
    (batchSize : Z) (fuel : nat) :
  (1 ≤ batchSize)%Z → length vectors ≤ fuel →
  VectorUtils.batchProcess fuel vectors processFn (Some batchSize)
  = Some (imap (λ k val, processFn val (k `mod` Z.to_nat batchSize)) vectors).
Proof.
  intros Hb Hfuel. unfold VectorUtils.batchProcess. simpl default.
  pose proof (batchProcess_loop_indexed vectors processFn (Z.to_nat batchSize) fuel 0 [])
    as Hloop.
  rewrite Z2Nat.id in Hloop by lia. simpl in Hloop.
  change (Z.of_nat 0) with 0%Z in Hloop. rewrite Hloop by lia. done.
Qed.

Lemma batchProcess_indexed_witness :
  VectorUtils.batchProcess 5 ["a"; "b"; "c"; "d"; "e"] (λ val k, (val, k)) (Some 2%Z)
  = Some [("a", 0); ("b", 1); ("c", 0); ("d", 1); ("e", 0)].
Proof.
  apply (batchProcess_indexed ["a"; "b"; "c"; "d"; "e"] (λ val k, (val, k)) 2 5);
    [lia|simpl; lia].
Defined.

(** ** The service: errors, round trips and frames *)

Section ServiceErrors.

Import VectorService.

Context {Store : Type}.
Variable initialize : @M Store unit.
Variable insertOne : document → @M Store string.
Variable insertMany : list document → @M Store insertMany_result.
Variable findOne : string → @M Store (option document).
Variable findOneAndUpdate : string → update_document → @M Store (option document).
Variable deleteOne : string → @M Store nat.
Variable find : gmap string constraint → find_options → @M Store (list document).
Variable countDocuments : gmap string constraint → @M Store Z.
Variable estimatedDocumentCount : @M Store Z.
Variable aggregate : list stage → @M Store (list group).

(** A backend error is passed on with its message after the context. *)
Lemma rethrow_backend_message {A : Type} (context : string) (m : @M Store A)
    (s s' : Store) (inner : string) :
  m s = (Throw inner, s') →
  rethrow context m s = (Throw (context +:+ ": " +:+ inner), s').
Proof. intros Hm. unfold rethrow, try_catch, throw. by rewrite Hm. Qed.

Lemma createVectorsBatch_returns (fresh : nat → string * string * string)
    (vectorsData : list vectorData) (s s1 s2 : Store) (result : insertMany_result) :
  initialize s = (Return tt, s1) →
  insertMany (Js.map (λ data k, let '(uuid, now1, now2) := fresh k in
                                new_document uuid now1 now2 data) vectorsData) s1
  = (Return result, s2) →
  createVectorsBatch initialize insertMany fresh vectorsData s
  = (Return
       {| inserted_count := insertedCount result;
          inserted_ids := insertedIds result;
          batch_vectors :=
            item_of <$> Js.map (λ data k, let '(uuid, now1, now2) := fresh k in
                                          new_document uuid now1 now2 data) vectorsData |},
     s2).
Proof.
  intros Hinit Hinsert.
  unfold createVectorsBatch, rethrow, try_catch, bind. by rewrite Hinit, Hinsert.
Qed.

End ServiceErrors.

(** X15: whatever the backend does, an error thrown by an operation of
    the service has a message that starts with the context of that
    operation followed by a colon. *)
Theorem service_errors_carry_context {Store : Type}
    (initialize : @VectorService.M Store unit)
    (insertOne : VectorService.document → @VectorService.M Store string)
    (insertMany : list VectorService.document →
                  @VectorService.M Store VectorService.insertMany_result)
    (findOne : string → @VectorService.M Store (option VectorService.document))
    (findOneAndUpdate : string → VectorService.update_document →
                        @VectorService.M Store (option VectorService.document))
    (deleteOne : string → @VectorService.M Store nat)
    (find : gmap string VectorService.constraint → VectorService.find_options →
            @VectorService.M Store (list VectorService.document))
    (countDocuments : gmap string VectorService.constraint → @VectorService.M Store Z)
    (estimatedDocumentCount : @VectorService.M Store Z)
    (aggregate : list VectorService.stage →
                 @VectorService.M Store (list VectorService.group))
    (s s' : Store) (message : string) :
  (∀ uuid now1 now2 data,
     VectorService.createVector initialize insertOne uuid now1 now2 data s
     = (Throw message, s') → ∃ inner, message = "Failed to create vector: " +:+ inner)
  ∧ (∀ id, VectorService.getVectorById initialize findOne id s = (Throw message, s') →
     ∃ inner, message = "Failed to get vector: " +:+ inner)
  ∧ (∀ now id data,
     VectorService.updateVector initialize findOneAndUpdate now id data s
     = (Throw message, s') → ∃ inner, message = "Failed to update vector: " +:+ inner)
  ∧ (∀ id, VectorService.deleteVector initialize deleteOne id s = (Throw message, s') →
     ∃ inner, message = "Failed to delete vector: " +:+ inner)
  ∧ (∀ options,
     VectorService.listVectors initialize find countDocuments options s
     = (Throw message, s') → ∃ inner, message = "Failed to list vectors: " +:+ inner)
  ∧ (∀ queryVector options,
     VectorService.findSimilarVectors initialize find queryVector options s
     = (Throw message, s') →
     ∃ inner, message = "Failed to find similar vectors: " +:+ inner)
  ∧ (∀ fresh vectorsData,
     VectorService.createVectorsBatch initialize insertMany fresh vectorsData s
     = (Throw message, s') →
     ∃ inner, message = "Failed to create vectors batch: " +:+ inner)
  ∧ (VectorService.getStatistics initialize estimatedDocumentCount aggregate s
     = (Throw message, s') → ∃ inner, message = "Failed to get statistics: " +:+ inner).
Proof.
  repeat split; intros; eapply rethrow_message in H as [inner ->]; by exists inner.
Qed.

Lemma service_errors_carry_context_witness :
  ∃ inner, "Failed to get vector: Vector not found" = "Failed to get vector: " +:+ inner.
Proof.
  destruct (service_errors_carry_context (Store := Memory.store)
              Memory.initialize Memory.insertOne Memory.insertMany Memory.findOne
              Memory.findOneAndUpdate Memory.deleteOne
              (λ _ _, VectorService.ret []) (λ _, VectorService.ret 0%Z)
              (VectorService.ret 0%Z) (λ _, VectorService.ret [])
              ∅ ∅ "Failed to get vector: Vector not found")
    as (_ & Hget & _).
  apply (Hget "missing"). apply getVectorById_absent. apply lookup_empty.
Defined.

Section MemoryRoundTrips.

Import VectorService.

Lemma getVectorById_stored (id : string) (s : Memory.store) (doc : document) :
  s !! id = Some doc → Memory.getVectorById id s = (Return (item_of doc), s).
Proof.
  intros Hdoc.
  unfold Memory.getVectorById, getVectorById, rethrow, try_catch, bind,
    Memory.initialize, Memory.findOne, ret.
  by rewrite Hdoc.
Qed.

Lemma deleteVector_stored (id : string) (s : Memory.store) (doc : document) :
  s !! id = Some doc → Memory.deleteVector id s = (Return (true, id), delete id s).
Proof.
  intros Hdoc.
  unfold Memory.deleteVector, deleteVector, rethrow, try_catch, bind,
    Memory.initialize, Memory.deleteOne, ret.
  by rewrite Hdoc.
Qed.

Lemma deleteVector_absent (id : string) (s : Memory.store) :
  s !! id = None →
  Memory.deleteVector id s = (Throw "Failed to delete vector: Vector not found", s).
Proof.
  intros Hdoc.
  unfold Memory.deleteVector, deleteVector, rethrow, try_catch, bind,
    Memory.initialize, Memory.deleteOne, ret.
  by rewrite Hdoc.
Qed.

Lemma createVector_fresh (uuid now1 now2 : string) (data : vectorData)
    (s : Memory.store) :
  s !! uuid = None →
  Memory.createVector uuid now1 now2 data s
  = (Return {| created_id := uuid;
               created_document := new_document uuid now1 now2 data;
               insertedId := uuid |},
     <[uuid := new_document uuid now1 now2 data]> s).
Proof.
  intros Hfresh.
  unfold Memory.createVector, createVector, rethrow, try_catch, bind,
    Memory.initialize, Memory.insertOne, ret.
  cbn [_id new_document]. by rewrite Hfresh.
Qed.

End MemoryRoundTrips.

(** X16: creating a record under a fresh identifier and reading it back
    returns the payload's vector and the payload's metadata with
    [dimensions] set to the vector's length and [created_at] and
    [updated_at] set to the two clock readings, whatever the payload had
    under these three keys; every other record is still in the store. *)
Theorem createVector_then_getVectorById (uuid now1 now2 : string)
    (data : VectorService.vectorData) (s : Memory.store) :
  s !! uuid = None →
  ∃ created s1 item,
    Memory.createVector uuid now1 now2 data s = (Return created, s1)
    ∧ VectorService.created_id created = uuid
    ∧ Memory.getVectorById uuid s1 = (Return item, s1)
    ∧ VectorService.Item.id item = uuid
    ∧ VectorService.Item.vector item = VectorService.data_vector data
    ∧ VectorService.Item.metadata item !! "dimensions"
      = Some (VNumber (number_of_nat (length (VectorService.data_vector data))))
    ∧ VectorService.Item.metadata item !! "created_at" = Some (VString now1)
    ∧ VectorService.Item.metadata item !! "updated_at" = Some (VString now2)
    ∧ (∀ key, key ≠ "dimensions" → key ≠ "created_at" → key ≠ "updated_at" →
       VectorService.Item.metadata item !! key
       = VectorService.data_metadata data !! key)
    ∧ (∀ other, other ≠ uuid → s1 !! other = s !! other).
Proof.
  intros Hfresh.
  eexists _, _, _. split; [by apply createVector_fresh|]. split; [done|].
  split; [apply getVectorById_stored, lookup_insert_eq|].
  cbn [VectorService.item_of VectorService.Item.id VectorService.Item.vector
       VectorService.Item.metadata VectorService.new_document VectorService._id
       VectorService.vector VectorService.metadata].
  repeat split; try done.
  - rewrite !lookup_insert_ne by done. by rewrite lookup_insert_eq.
  - rewrite lookup_insert_ne by done. by rewrite lookup_insert_eq.
  - by rewrite lookup_insert_eq.
  - intros key H1 H2 H3. by rewrite !lookup_insert_ne.
  - intros other Hother. by rewrite lookup_insert_ne.
Qed.

Lemma createVector_then_getVectorById_witness :
  ∃ created s1 item,
    Memory.createVector "id-1" "t1" "t2"
      {| VectorService.data_vector := [1; 2; 3]%float;
         VectorService.data_metadata := {["dimensions" := VNumber 7]} |} ∅
    = (Return created, s1)
    ∧ Memory.getVectorById "id-1" s1 = (Return item, s1)
    ∧ VectorService.Item.vector item = [1; 2; 3]%float
    ∧ VectorService.Item.metadata item !! "dimensions" = Some (VNumber 3).
Proof.
  destruct (createVector_then_getVectorById "id-1" "t1" "t2"
              {| VectorService.data_vector := [1; 2; 3]%float;
                 VectorService.data_metadata := {["dimensions" := VNumber 7]} |} ∅
              (lookup_empty _))
    as (created & s1 & item & Hcreate & _ & Hget & _ & Hvector & Hdim & _).
  exists created, s1, item. by repeat split.
Defined.

(** X17: deleting a stored record removes it and nothing else: the
    identifier is then unknown to [getVectorById] and to a second
    [deleteVector], and every other identifier reads as before. *)
Theorem deleteVector_removes_only_that_record (id : string) (s : Memory.store)
    (doc : VectorService.document) :
  s !! id = Some doc →
  ∃ s1,
    Memory.deleteVector id s = (Return (true, id), s1)
    ∧ Memory.getVectorById id s1 = (Throw "Failed to get vector: Vector not found", s1)
    ∧ Memory.deleteVector id s1
      = (Throw "Failed to delete vector: Vector not found", s1)
    ∧ ∀ other, other ≠ id →
        (Memory.getVectorById other s1).1 = (Memory.getVectorById other s).1.
Proof.
  intros Hdoc. exists (delete id s). split; [by eapply deleteVector_stored|].
  split; [apply getVectorById_absent, lookup_delete_eq|].
  split; [apply deleteVector_absent, lookup_delete_eq|].
  intros other Hother.
  unfold Memory.getVectorById, VectorService.getVectorById, VectorService.rethrow,
    VectorService.try_catch, VectorService.bind, Memory.initialize, Memory.findOne,
    VectorService.ret.
  simpl. rewrite lookup_delete_ne by done. by destruct (s !! other).
Qed.

Lemma deleteVector_removes_only_that_record_witness :
  ∃ s1,
    Memory.deleteVector "a"
      {["a" := {| VectorService._id := "a"; VectorService.vector := [1]%float;
                  VectorService.metadata := ∅; VectorService.similarity := None |}]}
    = (Return (true, "a"), s1)
    ∧ Memory.getVectorById "a" s1 = (Throw "Failed to get vector: Vector not found", s1).
Proof.
  destruct (deleteVector_removes_only_that_record "a"
              {["a" := {| VectorService._id := "a"; VectorService.vector := [1]%float;
                          VectorService.metadata := ∅;
                          VectorService.similarity := None |}]}
              _ (lookup_singleton_eq _ _)) as (s1 & Hdelete & Hget & _).
  exists s1. by split.
Defined.

(** X18: an update of a stored record can be read back: [getVectorById]
    then returns exactly the record that [updateVector] returned, under
    the same identifier, and every other identifier reads as before. *)
Theorem updateVector_then_getVectorById (now id : string)
    (data : VectorService.updateData) (s : Memory.store)
    (doc : VectorService.document) :
  s !! id = Some doc →
  ∃ item s1,
    Memory.updateVector now id data s = (Return item, s1)
    ∧ VectorService.Item.id item = VectorService._id doc
    ∧ Memory.getVectorById id s1 = (Return item, s1)
    ∧ ∀ other, other ≠ id → s1 !! other = s !! other.
Proof.
  intros Hdoc. eexists _, _. split; [by apply updateVector_stored|].
  split; [done|]. split.
  - apply getVectorById_stored, lookup_insert_eq.
  - intros other Hother. by rewrite lookup_insert_ne.
Qed.

Lemma updateVector_then_getVectorById_witness :
  ∃ item s1,
    Memory.updateVector "t3" "a"
      {| VectorService.update_vector := Some [2; 3]%float;
         VectorService.update_metadata := None |}
      {["a" := {| VectorService._id := "a"; VectorService.vector := [1]%float;
                  VectorService.metadata := ∅; VectorService.similarity := None |}]}
    = (Return item, s1)
    ∧ Memory.getVectorById "a" s1 = (Return item, s1).
Proof.
  destruct (updateVector_then_getVectorById "t3" "a"
              {| VectorService.update_vector := Some [2; 3]%float;
                 VectorService.update_metadata := None |}
              {["a" := {| VectorService._id := "a"; VectorService.vector := [1]%float;
                          VectorService.metadata := ∅;
                          VectorService.similarity := None |}]}
              _ (lookup_singleton_eq _ _)) as (item & s1 & Hupdate & _ & Hget & _).
  exists item, s1. by split.
Defined.

(** ** Listing, filters and batches *)



Section Filters.

Import VectorService.

Ltac filter_lookup :=
  repeat first
    [ rewrite lookup_insert_eq
    | rewrite lookup_insert_ne by done
    | rewrite lookup_empty ].

Lemma search_filter_user_id (search : search_filters) :
  search_filter search !! "metadata.user_id"
  = if truthy (f_user_id search) then Equals <$> f_user_id search else None.
Proof.
  unfold search_filter.
  destruct (truthy (f_created_before search)), (truthy (f_created_after search)),
    (f_tags search), (truthy (f_source_id search)), (truthy (f_source_type search));
    filter_lookup;
    (destruct (f_user_id search) as [u|]; simpl; [|done];
     destruct (negb (String.eqb u "")); by filter_lookup).
Qed.

Lemma search_filter_source_type (search : search_filters) :
  search_filter search !! "metadata.source_type"
  = if truthy (f_source_type search) then Equals <$> f_source_type search else None.
Proof.
  unfold search_filter.
  destruct (truthy (f_created_before search)), (truthy (f_created_after search)),
    (f_tags search), (truthy (f_source_id search));
    filter_lookup;
    (destruct (f_source_type search) as [u|]; simpl;
     [destruct (negb (String.eqb u ""))|]; filter_lookup;
     by destruct (truthy (f_user_id search)); filter_lookup).
Qed.

Lemma search_filter_source_id (search : search_filters) :
  search_filter search !! "metadata.source_id"
  = if truthy (f_source_id search) then Equals <$> f_source_id search else None.
Proof.
  unfold search_filter.
  destruct (truthy (f_created_before search)), (truthy (f_created_after search)),
    (f_tags search);
    filter_lookup;
    (destruct (f_source_id search) as [u|]; simpl;
     [destruct (negb (String.eqb u ""))|]; filter_lookup;
     by destruct (truthy (f_source_type search)), (truthy (f_user_id search));
       filter_lookup).
Qed.

Lemma search_filter_tags (search : search_filters) :
  search_filter search !! "metadata.tags" = In_ <$> f_tags search.
Proof.
  unfold search_filter.
  destruct (truthy (f_created_before search)), (truthy (f_created_after search));
    filter_lookup;
    (destruct (f_tags search); simpl; filter_lookup; [done|];
     by destruct (truthy (f_source_id search)), (truthy (f_source_type search)),
       (truthy (f_user_id search)); filter_lookup).
Qed.

Lemma search_filter_created_at (search : search_filters) :
  search_filter search !! "metadata.created_at"
  = match truthy (f_created_after search), truthy (f_created_before search) with
    | true, true => Some (Range (f_created_after search) (f_created_before search))
    | true, false => Some (Range (f_created_after search) None)
    | false, true => Some (Range None (f_created_before search))
    | false, false => None
    end.
Proof.
  destruct (truthy (f_created_after search)) eqn:Hafter,
    (truthy (f_created_before search)) eqn:Hbefore.
  - by apply search_filter_created_range.
  - unfold search_filter. rewrite Hafter, Hbefore. by filter_lookup.
  - by apply search_filter_created_before_only.
  - unfold search_filter. rewrite Hafter, Hbefore.
    by destruct (f_tags search), (truthy (f_source_id search)),
      (truthy (f_source_type search)), (truthy (f_user_id search)); filter_lookup.
Qed.

Lemma search_filter_other (search : search_filters) (key : string) :
  key ≠ "metadata.user_id" → key ≠ "metadata.source_type" →
  key ≠ "metadata.source_id" → key ≠ "metadata.tags" → key ≠ "metadata.created_at" →
  search_filter search !! key = None.
Proof.
  intros H1 H2 H3 H4 H5. unfold search_filter.
  destruct (truthy (f_created_before search)), (truthy (f_created_after search)),
    (f_tags search), (truthy (f_source_id search)), (truthy (f_source_type search)),
    (truthy (f_user_id search));
    rewrite ?lookup_insert_ne by done; apply lookup_empty.
Qed.

Lemma list_filter_user_id (options : list_options) :
  list_filter options !! "metadata.user_id"
  = if truthy (user_id options) then Equals <$> user_id options else None.
Proof.
  unfold list_filter. destruct (truthy (source_type options)); filter_lookup;
    (destruct (user_id options) as [u|]; simpl; [|done];
     destruct (negb (String.eqb u "")); by filter_lookup).
Qed.

Lemma list_filter_source_type (options : list_options) :
  list_filter options !! "metadata.source_type"
  = if truthy (source_type options) then Equals <$> source_type options else None.
Proof.
  unfold list_filter.
  destruct (source_type options) as [u|]; simpl;
    [destruct (negb (String.eqb u ""))|]; filter_lookup;
    by destruct (truthy (user_id options)); filter_lookup.
Qed.

Lemma list_filter_other (options : list_options) (key : string) :
  key ≠ "metadata.user_id" → key ≠ "metadata.source_type" →
  list_filter options !! key = None.
Proof.
  intros H1 H2. unfold list_filter.
  destruct (truthy (source_type options)), (truthy (user_id options));
    rewrite ?lookup_insert_ne by done; apply lookup_empty.
Qed.

End Filters.

(** X20: the filter that [findSimilarVectors] hands to the backend holds
    a constraint for a field exactly when the field is supplied: an
    equality for a non-empty [user_id], [source_type] and [source_id], a
    membership for every [tags] array (an empty one included), one range
    on [metadata.created_at] with the bounds that are non-empty, and
    nothing under any other key; [listVectors] likewise filters on
    non-empty [user_id] and [source_type] only. *)
Theorem filters_hold_supplied_fields (search : VectorService.search_filters)
    (options : VectorService.list_options) :
  VectorService.search_filter search !! "metadata.user_id"
  = (if VectorService.truthy (VectorService.f_user_id search)
     then VectorService.Equals <$> VectorService.f_user_id search else None)
  ∧ VectorService.search_filter search !! "metadata.source_type"
    = (if VectorService.truthy (VectorService.f_source_type search)
       then VectorService.Equals <$> VectorService.f_source_type search else None)
  ∧ VectorService.search_filter search !! "metadata.source_id"
    = (if VectorService.truthy (VectorService.f_source_id search)
       then VectorService.Equals <$> VectorService.f_source_id search else None)
  ∧ VectorService.search_filter search !! "metadata.tags"
    = VectorService.In_ <$> VectorService.f_tags search
  ∧ VectorService.search_filter search !! "metadata.created_at"
    = (match VectorService.truthy (VectorService.f_created_after search),
             VectorService.truthy (VectorService.f_created_before search) with
       | true, true =>
           Some (VectorService.Range (VectorService.f_created_after search)
                   (VectorService.f_created_before search))
       | true, false => Some (VectorService.Range (VectorService.f_created_after search) None)
       | false, true => Some (VectorService.Range None (VectorService.f_created_before search))
       | false, false => None
       end)
  ∧ (∀ key, key ∉ ["metadata.user_id"; "metadata.source_type"; "metadata.source_id";
                   "metadata.tags"; "metadata.created_at"] →
     VectorService.search_filter search !! key = None)
  ∧ VectorService.list_filter options !! "metadata.user_id"
    = (if VectorService.truthy (VectorService.user_id options)
       then VectorService.Equals <$> VectorService.user_id options else None)
  ∧ VectorService.list_filter options !! "metadata.source_type"
    = (if VectorService.truthy (VectorService.source_type options)
       then VectorService.Equals <$> VectorService.source_type options else None)
  ∧ (∀ key, key ∉ ["metadata.user_id"; "metadata.source_type"] →
     VectorService.list_filter options !! key = None).
Proof.
  split; [apply search_filter_user_id|]. split; [apply search_filter_source_type|].
  split; [apply search_filter_source_id|]. split; [apply search_filter_tags|].
  split; [apply search_filter_created_at|]. split.
  { intros key Hkey. rewrite !not_elem_of_cons in Hkey.
    destruct Hkey as (? & ? & ? & ? & ? & _). by apply search_filter_other. }
  split; [apply list_filter_user_id|]. split; [apply list_filter_source_type|].
  intros key Hkey. rewrite !not_elem_of_cons in Hkey.
  destruct Hkey as (? & ? & _). by apply list_filter_other.
Qed.

(** X21: whatever the backend reports for [insertMany],
    [createVectorsBatch] returns one record per input item, in input
    order, with the [k]-th fresh identifier, the item's vector and
    [dimensions] set to its length, while [inserted_count] and
    [inserted_ids] are the backend's report, unchecked: a partial insert
    is passed on as it is. *)
Theorem createVectorsBatch_reports_backend_count {Store : Type}
    (initialize : @VectorService.M Store unit)
    (insertMany : list VectorService.document →
                  @VectorService.M Store VectorService.insertMany_result)
    (fresh : nat → string * string * string)
    (vectorsData : list VectorService.vectorData) (s s1 s2 : Store)
    (report : VectorService.insertMany_result) :
  initialize s = (Return tt, s1) →
  insertMany (Js.map (λ data k, let '(uuid, now1, now2) := fresh k in
                                VectorService.new_document uuid now1 now2 data)
                vectorsData) s1 = (Return report, s2) →
  ∃ result,
    VectorService.createVectorsBatch initialize insertMany fresh vectorsData s
    = (Return result, s2)
    ∧ VectorService.inserted_count result = VectorService.insertedCount report
    ∧ VectorService.inserted_ids result = VectorService.insertedIds report
    ∧ length (VectorService.batch_vectors result) = length vectorsData
    ∧ ∀ k data, vectorsData !! k = Some data →
        ∃ item, VectorService.batch_vectors result !! k = Some item
          ∧ VectorService.Item.id item = (fresh k).1.1
          ∧ VectorService.Item.vector item = VectorService.data_vector data
          ∧ VectorService.Item.metadata item !! "dimensions"
            = Some (VNumber (number_of_nat (length (VectorService.data_vector data)))).
Proof.
  intros Hinit Hinsert. eexists. split.
  - by apply (createVectorsBatch_returns initialize insertMany fresh vectorsData s s1 s2).
  - cbn [VectorService.inserted_count VectorService.inserted_ids
         VectorService.batch_vectors].
    split; [done|]. split; [done|]. split.
    + unfold Js.map. by rewrite length_fmap, length_imap.
    + intros k data Hdata. unfold Js.map.
      rewrite list_lookup_fmap, list_lookup_imap, Hdata. simpl.
      eexists. split; [done|]. destruct (fresh k) as [[uuid now1] now2].
      split; [done|]. split; [done|]. apply new_document_dimensions.
Qed.

Lemma createVectorsBatch_reports_backend_count_witness :
  ∃ result,
    VectorService.createVectorsBatch (Store := unit) (VectorService.ret tt)
      (λ _, VectorService.ret
              {| VectorService.insertedCount := 1; VectorService.insertedIds := ["id-0"] |})
      (λ k, ("id-" +:+ pretty k, "t1", "t2"))
      [ {| VectorService.data_vector := [1; 2]%float; VectorService.data_metadata := ∅ |};
        {| VectorService.data_vector := [3; 4]%float; VectorService.data_metadata := ∅ |} ]
      tt = (Return result, tt)
    ∧ VectorService.inserted_count result = 1
    ∧ length (VectorService.batch_vectors result) = 2.
Proof.
  destruct (createVectorsBatch_reports_backend_count (Store := unit) (VectorService.ret tt)
              (λ _, VectorService.ret
                      {| VectorService.insertedCount := 1;
                         VectorService.insertedIds := ["id-0"] |})
              (λ k, ("id-" +:+ pretty k, "t1", "t2"))
              [ {| VectorService.data_vector := [1; 2]%float;
                   VectorService.data_metadata := ∅ |};
                {| VectorService.data_vector := [3; 4]%float;
                   VectorService.data_metadata := ∅ |} ]
              tt tt tt
              {| VectorService.insertedCount := 1; VectorService.insertedIds := ["id-0"] |}
              eq_refl eq_refl)
    as (result & Hreturn & Hcount & _ & Hlen & _).
  exists result. by repeat split.
Defined.

(** ** The routes *)

Section RouteOutcomes.

Import VectorService.

Context {Store : Type}.
Variable initialize : @M Store unit.
Variable findOne : string → @M Store (option document).
Variable findOneAndUpdate : string → update_document → @M Store (option document).
Variable deleteOne : string → @M Store nat.

Lemma put_id_never_404 (now id : string) (data : updateData) (s s' : Store)
    (content : Routes.body Item.t) :
  Routes.put_id initialize findOneAndUpdate now id data s ≠ (Routes.Json 404 content, s').
Proof.
  unfold Routes.put_id.
  destruct (updateVector initialize findOneAndUpdate now id data s)
    as [[item|message] s1] eqn:Hput; [done|].
  apply rethrow_message in Hput as [inner ->]. done.
Qed.

Lemma delete_id_never_404 (id : string) (s s' : Store)
    (content : Routes.body (bool * string)) :
  Routes.delete_id initialize deleteOne id s ≠ (Routes.Json 404 content, s').
Proof.
  unfold Routes.delete_id.
  destruct (deleteVector initialize deleteOne id s) as [[item|message] s1] eqn:Hdel;
    [done|].
  apply rethrow_message in Hdel as [inner ->]. done.
Qed.

End RouteOutcomes.

(** X22: whatever the backend does, none of the three handlers of
    [/api/vectors/:id] ever answers with status 404: each answers 200
    when the service returns and otherwise passes the error on with
    [next], because the service's errors never carry the bare message the
    handlers compare with. *)
Theorem id_handlers_never_answer_404 {Store : Type}
    (initialize : @VectorService.M Store unit)
    (findOne : string → @VectorService.M Store (option VectorService.document))
    (findOneAndUpdate : string → VectorService.update_document →
                        @VectorService.M Store (option VectorService.document))
    (deleteOne : string → @VectorService.M Store nat)
    (now id : string) (data : VectorService.updateData) (s : Store) :
  ((∃ item, (Routes.get_id initialize findOne id s).1
            = Routes.Json 200 (Routes.Success item None))
   ∨ ∃ message, (Routes.get_id initialize findOne id s).1 = Routes.Next message)
  ∧ ((∃ item, (Routes.put_id initialize findOneAndUpdate now id data s).1
              = Routes.Json 200 (Routes.Success item (Some "Vector updated successfully")))
     ∨ ∃ message, (Routes.put_id initialize findOneAndUpdate now id data s).1
                  = Routes.Next message)
  ∧ ((∃ result, (Routes.delete_id initialize deleteOne id s).1
                = Routes.Json 200
                    (Routes.Success result (Some "Vector deleted successfully")))
     ∨ ∃ message, (Routes.delete_id initialize deleteOne id s).1 = Routes.Next message).
Proof.
  unfold Routes.get_id, Routes.put_id, Routes.delete_id.
  split; [|split].
  - destruct (VectorService.getVectorById _ _ _ _) as [[item|message] s1] eqn:H;
      [left; by eexists|right].
    apply rethrow_message in H as [inner ->]. by eexists.
  - destruct (VectorService.updateVector _ _ _ _ _ _) as [[item|message] s1] eqn:H;
      [left; by eexists|right].
    apply rethrow_message in H as [inner ->]. by eexists.
  - destruct (VectorService.deleteVector _ _ _ _) as [[item|message] s1] eqn:H;
      [left; by eexists|right].
    apply rethrow_message in H as [inner ->]. by eexists.
Qed.



(** ** The connection singleton and the health endpoint *)

Section Config.

Import AstraDB.

Lemma missing_nil_iff (env : gmap string string) :
  List.filter (λ key, negb (env_truthy env key)) required = []
  ↔ ∀ key, key ∈ required → env_truthy env key = true.
Proof.
  split.
  - intros Hnil key Hin. destruct (env_truthy env key) eqn:Hkey; [done|].
    assert (Hmem : In key (List.filter (λ key, negb (env_truthy env key)) required)).
    { apply filter_In. split; [by apply list_elem_of_In|]. by rewrite Hkey. }
    rewrite Hnil in Hmem. done.
  - intros Hall.
    destruct (List.filter _ required) as [|key rest] eqn:Hfilter; [done|].
    assert (Hmem : In key (List.filter (λ key, negb (env_truthy env key)) required)).
    { rewrite Hfilter. by left. }
    apply filter_In in Hmem as [Hin Hkey].
    apply list_elem_of_In, Hall in Hin. by rewrite Hin in Hkey.
Qed.

End Config.

(** X24: [validateConfig] returns exactly when the four required
    variables are set and non-empty and the endpoint, if set and
    non-empty, starts with ["https://"]; when a required variable is
    missing the error names the missing ones, in the fixed order,
    whatever the endpoint is. *)
Theorem validateConfig_returns_iff (env : gmap string string) :
  (AstraDB.validateConfig env = Return tt ↔
     (∀ key, key ∈ AstraDB.required → AstraDB.env_truthy env key = true)
     ∧ (AstraDB.env_truthy env "ASTRA_DB_API_ENDPOINT" = true →
        AstraDB.startsWith "https://" (default "" (env !! "ASTRA_DB_API_ENDPOINT")) = true))
  ∧ ((∃ key, key ∈ AstraDB.required ∧ AstraDB.env_truthy env key = false) →
     AstraDB.validateConfig env
     = Throw ("Missing required environment variables: "
              +:+ AstraDB.join ", "
                    (List.filter (λ key, negb (AstraDB.env_truthy env key))
                       AstraDB.required))).
Proof.
  unfold AstraDB.validateConfig.
  pose proof (missing_nil_iff env) as Hnil.
  destruct (List.filter _ AstraDB.required) as [|key rest] eqn:Hfilter.
  - simpl. split.
    + destruct (AstraDB.env_truthy env "ASTRA_DB_API_ENDPOINT"); simpl.
      * destruct (AstraDB.startsWith _ _); simpl; split; try done.
        -- intros _. split; [by apply Hnil|done].
        -- intros [_ H]. by specialize (H eq_refl).
      * split; [|done]. intros _. split; [by apply Hnil|done].
    + intros (k & Hin & Hk). apply (proj1 Hnil eq_refl) in Hin. congruence.
  - simpl. split; [|done]. split; [done|].
    intros [Hall _]. by apply Hnil in Hall.
Qed.

Lemma validateConfig_returns_iff_witness :
  AstraDB.validateConfig {["ASTRA_DB_ID" := "db"; "ASTRA_DB_REGION" := "eu"]}
  = Throw "Missing required environment variables: ASTRA_DB_KEYSPACE, ASTRA_DB_APPLICATION_TOKEN".
Proof.
  etrans.
  - apply (proj2 (validateConfig_returns_iff
                    {["ASTRA_DB_ID" := "db"; "ASTRA_DB_REGION" := "eu"]})).
    exists "ASTRA_DB_KEYSPACE". split; [set_solver|reflexivity].
  - vm_compute. reflexivity.
Defined.

Section ConnectionFacts.

Import VectorService AstraDB.

Context {World : Type}.
Variable info : database → World → outcome unit * World.
Variable createCollection : database → string → Z → World → outcome collection_handle * World.
Variable close : World → outcome unit * World.
Variable findOne : collection_handle → World → outcome unit * World.

Lemma connect_cached (env : gmap string string) (dimensions : option Z)
    (c : connection) (w : World) :
  isConnected c = true →
  connect info createCollection env dimensions (c, w) = (Return (collection c), (c, w)).
Proof.
  intros Hc. unfold connect, try_catch, bind, this, ret. simpl. by rewrite Hc.
Qed.

Lemma connect_invalid_config (env : gmap string string) (dimensions : option Z)
    (c : connection) (w : World) (message : string) :
  isConnected c = false → validateConfig env = Throw message →
  connect info createCollection env dimensions (c, w)
  = (Throw ("Database connection failed: " +:+ message), (c, w)).
Proof.
  intros Hc Hconfig.
  unfold connect, try_catch, bind, this, ret, of_outcome, throw. simpl.
  by rewrite Hc, Hconfig.
Qed.

(** The database object that [connect] makes from the environment. *)
Lemma connect_creates (env : gmap string string) (dimensions : option Z)
    (c : connection) (w w1 w2 : World) (answer : outcome unit)
    (created : outcome collection_handle) :
  let database :=
    {| endpoint :=
         if env_truthy env "ASTRA_DB_API_ENDPOINT"
         then default "" (env !! "ASTRA_DB_API_ENDPOINT")
         else "https://" +:+ default "undefined" (env !! "ASTRA_DB_ID") +:+ "-"
              +:+ default "undefined" (env !! "ASTRA_DB_REGION")
              +:+ ".apps.astra.datastax.com";
       keyspace := env !! "ASTRA_DB_KEYSPACE" |} in
  let attempted :=
    {| client := Some (env !! "ASTRA_DB_APPLICATION_TOKEN"); db := Some database;
       collection := collection c; isConnected := false |} in
  isConnected c = false → validateConfig env = Return tt →
  info database w = (answer, w1) →
  createCollection database "vector_embeddings"
    (match dimensions with
     | Some n => if (n =? 0)%Z then 1536%Z else n
     | None => 1536%Z
     end) w1 = (created, w2) →
  connect info createCollection env dimensions (c, w)
  = match created with
    | Return handle =>
        (Return (Some handle),
         (set_isConnected true (set_collection handle attempted), w2))
    | Throw message =>
        if includes "already exists" message
        then (Return (Some {| of_database := database; name := "vector_embeddings" |}),
              (set_isConnected true
                 (set_collection
                    {| of_database := database; name := "vector_embeddings" |} attempted),
               w2))
        else (Throw ("Database connection failed: " +:+ message), (attempted, w2))
    end.
Proof.
  intros database attempted Hc Hconfig Hinfo Hcreate.
  unfold connect, try_catch, bind, this, ret, of_outcome, throw, assign, call. simpl.
  rewrite Hc, Hconfig. simpl. fold database. rewrite Hinfo.
  assert (Hstate : set_db database (set_client (env !! "ASTRA_DB_APPLICATION_TOKEN") c)
                   = attempted).
  { unfold attempted, set_db, set_client. simpl. by rewrite Hc. }
  destruct answer; simpl; rewrite Hcreate; destruct created as [handle|failure]; simpl;
    rewrite ?Hstate; try done; by destruct (includes "already exists" failure).
Qed.

Lemma getCollection_connected (c : connection) (w : World) :
  isConnected c = true →
  getCollection (World := World) (c, w) = (Return (collection c), (c, w)).
Proof. intros Hc. unfold getCollection, bind, this, ret. simpl. by rewrite Hc. Qed.

Lemma getCollection_disconnected (c : connection) (w : World) :
  isConnected c = false →
  getCollection (World := World) (c, w)
  = (Throw "Database not connected. Call connect() first.", (c, w)).
Proof. intros Hc. unfold getCollection, bind, this, throw. simpl. by rewrite Hc. Qed.


End ConnectionFacts.

(** X25: from a disconnected singleton with a valid configuration,
    whatever [db.info()] answers, [connect] succeeds when
    [createCollection] returns a collection and also when it fails with a
    message that contains "already exists"; the singleton is then
    connected, [getCollection] returns the same collection, and a second
    [connect] returns it again without calling the Data API or changing
    anything. *)
Theorem connect_then_reuse {World : Type}
    (info : AstraDB.database → World → outcome unit * World)
    (createCollection : AstraDB.database → string → Z → World →
                        outcome AstraDB.collection_handle * World)
    (env : gmap string string) (dimensions : option Z)
    (c : AstraDB.connection) (w : World) :
  AstraDB.isConnected c = false → AstraDB.validateConfig env = Return tt →
  (∀ database name size,
     (∃ handle w', createCollection database name size
                     (info database w).2 = (Return handle, w'))
     ∨ (∃ message w', createCollection database name size (info database w).2
                      = (Throw message, w')
                      ∧ AstraDB.includes "already exists" message = true)) →
  ∃ handle s',
    AstraDB.connect info createCollection env dimensions (c, w) = (Return (Some handle), s')
    ∧ AstraDB.isConnected s'.1 = true
    ∧ AstraDB.getCollection s' = (Return (Some handle), s')
    ∧ AstraDB.connect info createCollection env dimensions s' = (Return (Some handle), s').
Proof.
  intros Hc Hconfig Hcreate.
  set (database :=
    {| AstraDB.endpoint :=
         if AstraDB.env_truthy env "ASTRA_DB_API_ENDPOINT"
         then default "" (env !! "ASTRA_DB_API_ENDPOINT")
         else "https://" +:+ default "undefined" (env !! "ASTRA_DB_ID") +:+ "-"
              +:+ default "undefined" (env !! "ASTRA_DB_REGION")
              +:+ ".apps.astra.datastax.com";
       AstraDB.keyspace := env !! "ASTRA_DB_KEYSPACE" |}).
  destruct (info database w) as [answer w1] eqn:Hinfo.
  pose proof (connect_creates info createCollection env dimensions c w w1) as Hconnect.
  cbv zeta in Hconnect. fold database in Hconnect.
  destruct (Hcreate database "vector_embeddings"
              (match dimensions with
               | Some n => if (n =? 0)%Z then 1536%Z else n
               | None => 1536%Z
               end)) as [(handle & w2 & Hmade)|(message & w2 & Hfailed & Hexists)].
  all: try rewrite Hinfo in Hmade; try rewrite Hinfo in Hfailed; simpl in *.
  - specialize (Hconnect w2 answer (Return handle) Hc Hconfig Hinfo Hmade).
    simpl in Hconnect. eexists _, _. split; [exact Hconnect|]. split; [done|].
    split; [by apply getCollection_connected|by apply connect_cached].
  - specialize (Hconnect w2 answer (Throw message) Hc Hconfig Hinfo Hfailed).
    simpl in Hconnect. rewrite Hexists in Hconnect.
    eexists _, _. split; [exact Hconnect|]. split; [done|].
    split; [by apply getCollection_connected|by apply connect_cached].
Qed.

Lemma connect_then_reuse_witness :
  let env : gmap string string :=
    {["ASTRA_DB_ID" := "db"; "ASTRA_DB_REGION" := "eu"; "ASTRA_DB_KEYSPACE" := "ks";
      "ASTRA_DB_APPLICATION_TOKEN" := "token"]} in
  ∃ handle s',
    AstraDB.connect (World := unit) (λ _ w, (Throw "no info", w))
      (λ _ _ _ w, (Throw "Collection already exists", w)) env None
      (AstraDB.disconnected, tt) = (Return (Some handle), s')
    ∧ AstraDB.isConnected s'.1 = true
    ∧ AstraDB.getCollection s' = (Return (Some handle), s')
    ∧ AstraDB.connect (World := unit) (λ _ w, (Throw "no info", w))
        (λ _ _ _ w, (Throw "Collection already exists", w)) env None s'
      = (Return (Some handle), s').
Proof.
  intros env.
  apply (connect_then_reuse (World := unit) (λ _ w, (Throw "no info", w))
           (λ _ _ _ w, (Throw "Collection already exists", w)) env None
           AstraDB.disconnected tt).
  - reflexivity.
  - vm_compute. reflexivity.
  - intros database name size. right. exists "Collection already exists", tt.
    split; reflexivity.
Defined.

(** X26: [connect] on a disconnected singleton fails with a message that
    starts with "Database connection failed: " when the configuration is
    invalid (then nothing is called and nothing changes) and when
    [createCollection] fails with a message that does not contain
    "already exists"; in both cases the singleton stays disconnected and
    [getCollection] throws. *)
Theorem connect_failure_stays_disconnected {World : Type}
    (info : AstraDB.database → World → outcome unit * World)
    (createCollection : AstraDB.database → string → Z → World →
                        outcome AstraDB.collection_handle * World)
    (env : gmap string string) (dimensions : option Z)
    (c : AstraDB.connection) (w : World) (message : string) :
  AstraDB.isConnected c = false →
  (AstraDB.validateConfig env = Throw message →
     AstraDB.connect info createCollection env dimensions (c, w)
     = (Throw ("Database connection failed: " +:+ message), (c, w)))
  ∧ (AstraDB.validateConfig env = Return tt →
     (∀ database name size, ∃ w',
        createCollection database name size (info database w).2 = (Throw message, w')) →
     AstraDB.includes "already exists" message = false →
     ∃ s',
       AstraDB.connect info createCollection env dimensions (c, w)
       = (Throw ("Database connection failed: " +:+ message), s')
       ∧ AstraDB.isConnected s'.1 = false
       ∧ AstraDB.getCollection s'
         = (Throw "Database not connected. Call connect() first.", s')).
Proof.
  intros Hc. split.
  - intros Hconfig. by apply connect_invalid_config.
  - intros Hconfig Hcreate Hother.
    set (database :=
      {| AstraDB.endpoint :=
           if AstraDB.env_truthy env "ASTRA_DB_API_ENDPOINT"
           then default "" (env !! "ASTRA_DB_API_ENDPOINT")
           else "https://" +:+ default "undefined" (env !! "ASTRA_DB_ID") +:+ "-"
                +:+ default "undefined" (env !! "ASTRA_DB_REGION")
                +:+ ".apps.astra.datastax.com";
         AstraDB.keyspace := env !! "ASTRA_DB_KEYSPACE" |}).
    destruct (info database w) as [answer w1] eqn:Hinfo.
    pose proof (connect_creates info createCollection env dimensions c w w1) as Hconnect.
    cbv zeta in Hconnect. fold database in Hconnect.
    destruct (Hcreate database "vector_embeddings"
                (match dimensions with
                 | Some n => if (n =? 0)%Z then 1536%Z else n
                 | None => 1536%Z
                 end)) as [w2 Hfailed].
    rewrite Hinfo in Hfailed. simpl in Hfailed.
    specialize (Hconnect w2 answer (Throw message) Hc Hconfig Hinfo Hfailed).
    simpl in Hconnect. rewrite Hother in Hconnect.
    eexists. split; [exact Hconnect|]. split; [done|].
    by apply getCollection_disconnected.
Qed.

Lemma connect_failure_stays_disconnected_witness :
  AstraDB.connect (World := unit) (λ _ w, (Return tt, w))
    (λ _ _ _ w, (Throw "unreachable", w)) ∅ None (AstraDB.disconnected, tt)
  = (Throw ("Database connection failed: "
            +:+ "Missing required environment variables: ASTRA_DB_ID, ASTRA_DB_REGION, ASTRA_DB_KEYSPACE, ASTRA_DB_APPLICATION_TOKEN"),
     (AstraDB.disconnected, tt)).
Proof.
  apply (proj1 (connect_failure_stays_disconnected (World := unit) (λ _ w, (Return tt, w))
                  (λ _ _ _ w, (Throw "unreachable", w)) ∅ None AstraDB.disconnected tt
                  _ eq_refl)).
  vm_compute. reflexivity.
Defined.


Section Disconnect.

Import VectorService AstraDB.

Context {World : Type}.
Variable close : World → outcome unit * World.

Lemma disconnect_cases (c : connection) (w : World) :
  disconnect close (c, w)
  = match client c with
    | None => (Return tt, (c, w))
    | Some _ =>
        match close w with
        | (Return _, w') => (Return tt, (set_isConnected false c, w'))
        | (Throw _, w') => (Return tt, (c, w'))
        end
    end.
Proof.
  unfold disconnect, try_catch, bind, this, ret, assign, call. simpl.
  destruct (client c); [|done]. simpl. by destruct (close w) as [[[]|message] w'].
Qed.

End Disconnect.

(** X28: [disconnect] never throws.  Without a client it does nothing;
    with a client whose [close] returns, the singleton is marked
    disconnected while its collection stays cached, and [getCollection]
    then throws; when [close] fails the error is dropped and the
    singleton stays marked as it was. *)
Theorem disconnect_never_throws {World : Type} (close : World → outcome unit * World)
    (c : AstraDB.connection) (w : World) :
  ∃ s',
    AstraDB.disconnect close (c, w) = (Return tt, s')
    ∧ (AstraDB.client c = None → s' = (c, w))
    ∧ (is_Some (AstraDB.client c) → s'.2 = (close w).2)
    ∧ (is_Some (AstraDB.client c) → (close w).1 = Return tt →
       AstraDB.isConnected s'.1 = false
       ∧ AstraDB.collection s'.1 = AstraDB.collection c
       ∧ AstraDB.getCollection s'
         = (Throw "Database not connected. Call connect() first.", s'))
    ∧ (is_Some (AstraDB.client c) → (∃ message, (close w).1 = Throw message) →
       s'.1 = c).
Proof.
  rewrite disconnect_cases.
  destruct (AstraDB.client c) as [token|] eqn:Hclient.
  - destruct (close w) as [[[]|message] w'] eqn:Hclose; eexists; (split; [reflexivity|]);
      simpl; repeat split; try done; try (by intros _ [? ?]); by intros _ ?.
  - eexists. split; [reflexivity|]. repeat split; try done; by intros [? ?].
Qed.

Lemma disconnect_never_throws_witness :
  ∃ s',
    AstraDB.disconnect (World := unit) (λ w, (Return tt, w))
      ({| AstraDB.client := Some (Some "token"); AstraDB.db := None;
          AstraDB.collection := None; AstraDB.isConnected := true |}, tt)
    = (Return tt, s')
    ∧ AstraDB.isConnected s'.1 = false.
Proof.
  destruct (disconnect_never_throws (World := unit) (λ w, (Return tt, w))
              {| AstraDB.client := Some (Some "token"); AstraDB.db := None;
                 AstraDB.collection := None; AstraDB.isConnected := true |} tt)
    as (s' & Hreturn & _ & _ & Hclosed & _).
  exists s'. split; [exact Hreturn|].
  by destruct (Hclosed ltac:(by eexists) eq_refl) as [? _].
Defined.
